(** * Resume parser: the mapper, the renderer and the pipeline of
      [resume_parser.py], embedded and verified.

    Python [str] values are sequences of Unicode code points, JSON values
    are the objects [json.loads] builds, the document under construction is
    the list of block items python-docx keeps, and exceptions are explicit
    results.  Everything outside the repository (the text-understanding
    service, [json.loads], [json.dumps], the Unicode case tables, the file
    system) is gathered in one record of collaborators, [world]. *)

From Stdlib Require Import List NArith ZArith Bool String Ascii Lia PrimFloat.
Import ListNotations.

Set Implicit Arguments.

(* ================================================================== *)
(** * Python strings *)
(* ================================================================== *)

Module Text.

(** A [str]: its code points, in order. *)
Definition pystr := list N.

(** The code points of an ASCII literal. *)
Definition lit (s : string) : pystr :=
  map N_of_ascii (list_ascii_of_string s).

Definition cp_eqb (a b : N) : bool := N.eqb a b.

Fixpoint str_eqb (a b : pystr) : bool :=
  match a, b with
  | [], [] => true
  | x :: a', y :: b' => cp_eqb x y && str_eqb a' b'
  | _, _ => false
  end.

Definition in_range (lo hi c : N) : bool := N.leb lo c && N.leb c hi.

(** [str.isspace] on one code point: the white-space table of CPython. *)
Definition isspace (c : N) : bool :=
  in_range 9 13 c || in_range 28 32 c || cp_eqb c 133 || cp_eqb c 160
  || cp_eqb c 5760 || in_range 8192 8202 c || cp_eqb c 8232
  || cp_eqb c 8233 || cp_eqb c 8239 || cp_eqb c 8287 || cp_eqb c 12288.

Fixpoint lstrip (s : pystr) : pystr :=
  match s with
  | [] => []
  | c :: s' => if isspace c then lstrip s' else s
  end.

Definition rstrip (s : pystr) : pystr := rev (lstrip (rev s)).

(** [s.strip()]: leading white space is dropped, then trailing. *)
Definition strip (s : pystr) : pystr := rstrip (lstrip s).

(** [s.startswith(p)]. *)
Fixpoint startswith (p s : pystr) : bool :=
  match p, s with
  | [], _ => true
  | _ :: _, [] => false
  | x :: p', y :: s' => cp_eqb x y && startswith p' s'
  end.

(** The scan of [s.replace(old, new)] for a non-empty [old]: occurrences are
    taken leftmost first and do not overlap.  [skip] counts the code points
    of the occurrence just replaced that are still to be passed over. *)
Fixpoint replace_scan (old new : pystr) (skip : nat) (s : pystr) : pystr :=
  match s with
  | [] => []
  | c :: s' =>
      match skip with
      | S k => replace_scan old new k s'
      | O =>
          if startswith old s
          then new ++ replace_scan old new (pred (List.length old)) s'
          else c :: replace_scan old new 0 s'
      end
  end.

(** [s.replace(old, new)]; an empty [old] matches before every code point
    and at the end. *)
Definition replace (old new s : pystr) : pystr :=
  match old with
  | [] => new ++ flat_map (fun c => c :: new) s
  | _ :: _ => replace_scan old new 0 s
  end.

(** [s.split()]: the maximal runs of non-white-space code points.  [cur] is
    the word being read, reversed. *)
Fixpoint split_scan (cur : pystr) (s : pystr) : list pystr :=
  match s with
  | [] => match cur with [] => [] | _ :: _ => [rev cur] end
  | c :: s' =>
      if isspace c
      then match cur with
           | [] => split_scan [] s'
           | _ :: _ => rev cur :: split_scan [] s'
           end
      else split_scan (c :: cur) s'
  end.

Definition split (s : pystr) : list pystr := split_scan [] s.

(** [sep.join(words)]. *)
Fixpoint join (sep : pystr) (words : list pystr) : pystr :=
  match words with
  | [] => []
  | [w] => w
  | w :: ws => w ++ sep ++ join sep ws
  end.

Definition is_upper_az (c : N) : bool := in_range 65 90 c.
Definition is_lower_az (c : N) : bool := in_range 97 122 c.
Definition is_digit (c : N) : bool := in_range 48 57 c.
Definition is_ascii (c : N) : bool := N.ltb c 128.

(** The character class [[A-Za-z0-9]] of the file-name pattern. *)
Definition is_alnum (c : N) : bool :=
  is_upper_az c || is_lower_az c || is_digit c.

Definition ascii_upper (c : N) : N := if is_lower_az c then (c - 32)%N else c.
Definition ascii_lower (c : N) : N := if is_upper_az c then (c + 32)%N else c.

(** [str.capitalize] on a word of ASCII code points: the first one in upper
    case, the others in lower case. *)
Definition ascii_capitalize (w : pystr) : pystr :=
  match w with
  | [] => []
  | c :: r => ascii_upper c :: map ascii_lower r
  end.

(** [re.sub(r'[^A-Za-z0-9]+', rep, s)]: every maximal run of code points
    outside the class is replaced by [rep].  [in_run] tells that the run
    the scan stands in has been replaced already. *)
Fixpoint sub_non_alnum (rep : pystr) (in_run : bool) (s : pystr) : pystr :=
  match s with
  | [] => []
  | c :: s' =>
      if is_alnum c then c :: sub_non_alnum rep false s'
      else if in_run then sub_non_alnum rep true s'
      else rep ++ sub_non_alnum rep true s'
  end.

End Text.

Import Text.

(* ================================================================== *)
(** * JSON values, exceptions, the outside world *)
(* ================================================================== *)

(** The Python objects [json.loads] returns: [None], [bool], [int], [float],
    [str], [list] and [dict].  A [dict] keeps its items in insertion order;
    a lookup finds the first item with the key. *)
#[warnings="-register-all"]
Inductive json : Type :=
| JNull
| JBool (b : bool)
| JInt (n : Z)
| JFloat (f : PrimFloat.float)
| JStr (s : pystr)
| JArr (items : list json)
| JObj (items : list (pystr * json)).

(** The exception classes the program meets; all derive from [Exception]. *)
Inductive exc : Type :=
| ValueError (msg : pystr)
| JSONDecodeError
| TypeError
| AttributeError
| KeyError (key : pystr)
| IndexError
| OSError
| ServiceError
| UnicodeEncodeError.               (* a [ValueError] of the codecs *)

(** A call returns or raises. *)
Inductive result (A : Type) : Type :=
| Done (a : A)
| Raised (e : exc).
Arguments Done {A} a.
Arguments Raised {A} e.

(** The response stream of [generate_content_stream]: chunks whose [text]
    is a [str] or [None], ended normally or by an exception of the client. *)
Inductive stream : Type :=
| StreamEnd
| StreamChunk (text : option pystr) (rest : stream)
| StreamError (e : exc).

(** Truth value of an object, as [if v:] and [filter(None, ...)] take it. *)
Definition truthy (v : json) : bool :=
  match v with
  | JNull => false
  | JBool b => b
  | JInt n => negb (Z.eqb n 0)
  | JFloat f => negb (PrimFloat.eqb f PrimFloat.zero)
  | JStr s => match s with [] => false | _ :: _ => true end
  | JArr l => match l with [] => false | _ :: _ => true end
  | JObj d => match d with [] => false | _ :: _ => true end
  end.

Fixpoint dict_lookup (k : pystr) (d : list (pystr * json)) : option json :=
  match d with
  | [] => None
  | (k', v) :: d' => if str_eqb k k' then Some v else dict_lookup k d'
  end.

(** [d.get(k, default)] on a [dict]. *)
Definition dict_get (d : list (pystr * json)) (k : pystr) (default : json)
  : json :=
  match dict_lookup k d with
  | Some v => v
  | None => default
  end.

(** [k in d]. *)
Definition has_key (k : pystr) (d : list (pystr * json)) : bool :=
  match dict_lookup k d with
  | Some _ => true
  | None => false
  end.

(* ------------------------------------------------------------------ *)
(** ** The document python-docx builds *)

Inductive alignment : Type := LEFT | CENTER | RIGHT.

(** A run: its text and the character formatting set on it.  [None] is a
    property left to the style. *)
Record run : Type := mkRun {
  run_text : pystr;
  run_theme_font : bool;            (* asciiTheme/hAnsiTheme = minorHAnsi *)
  run_size : option N;              (* points *)
  run_bold : option bool;
  run_underline : option bool;
  run_color : option (N * N * N)
}.

Record paragraph : Type := mkPara {
  para_alignment : option alignment;
  para_style : option pystr;
  para_runs : list run
}.

(** A table cell: the runs of its paragraph and the fill of its shading. *)
Record cell : Type := mkCell {
  cell_runs : list run;
  cell_fill : option pystr
}.

Record table : Type := mkTable {
  table_style : option pystr;
  table_rows : list (list cell)
}.

Inductive block : Type :=
| Para (p : paragraph)
| Table (t : table)
| LogoTable (picture : pystr).     (* the borderless 1x2 table of the logo *)

Record document : Type := mkDoc {
  doc_footer : list run;
  doc_body : list block
}.

(* ------------------------------------------------------------------ *)
(** ** Effects *)

(** What a run leaves behind: lines on standard output, files written. *)
Inductive event : Type :=
| Printed (line : pystr)
| PrintedExc (label : pystr) (e : exc)          (* print(label, e) *)
| PrintedJson (v : json)                        (* print(json.dumps(v, indent=2)) *)
| FileWritten (path : pystr) (v : json)         (* json.dump(v, f, indent=2) *)
| DocSaved (path : pystr) (d : document).

(** The collaborators that are not code of the repository. *)
Record world : Type := mkWorld {
  (** [os.environ.get("GEMINI_API_KEY")] *)
  env_api_key : option pystr;
  (** [extract_text(path)] of the extraction wrapper: text or [None] *)
  extracted_text : pystr -> option pystr;
  (** the service: API key and prompt to response stream *)
  generate : pystr -> pystr -> stream;
  (** [json.dumps(v, indent=2)] *)
  json_dumps : json -> pystr;
  (** [json.loads(s)] *)
  json_loads : pystr -> result json;
  (** opening [path] for writing and dumping into it: [Some e] when it raises *)
  write_json : pystr -> json -> option exc;
  (** [os.path.exists(path)] *)
  path_exists : pystr -> bool;
  (** [doc.save(path)]: [Some e] when it raises *)
  save_docx : pystr -> document -> option exc;
  (** [str.capitalize] (the Unicode case tables) *)
  py_capitalize : pystr -> pystr;
  (** [str(v)] of an object that is not a [str] *)
  str_of_other : json -> pystr;
  (** the text python-docx stores for a text argument that is not a [str] *)
  docx_text_of_other : json -> result pystr
}.

(* ================================================================== *)
(** * The mapper: [parse_content] *)
(* ================================================================== *)

Module Mapper.

Definition jstr (s : string) : json := JStr (lit s).
Definition field (k : string) (v : json) : pystr * json := (lit k, v).

(** The schema description sent to the service, [json_schema]. *)
Definition json_schema : json :=
  JObj [
    field "name" (jstr "Full name of candidate");
    field "email" (jstr "Primary email address");
    field "phone" (jstr "Primary phone number");
    field "linkedin" (jstr "LinkedIn URL if available");
    field "github" (jstr "GitHub URL if available");
    field "skills" (JArr [jstr "List of skills"]);
    field "skills_matrix" (JArr [
      jstr "if available in the resume";
      JObj [
        field "skills" (jstr "Skill name");
        field "years_experience" (jstr "Years of experience");
        field "last_used" (jstr "Most recent year used");
        field "proficiency" (jstr "Beginner/Intermediate/Advanced") ]]);
    field "certifications" (JArr [
      JObj [
        field "name" (jstr "Certification name");
        field "issuer" (jstr "Issuing organization") ]]);
    field "summary"
      (jstr "Professional summary or objective statement or candidate strength if avaiable");
    field "education" (JArr [
      JObj [
        field "degree" (jstr "Degree name");
        field "major" (jstr "Major/Field of study");
        field "university" (jstr "University/Institution");
        field "start_date" (jstr "YYYY or MM/YYYY if available");
        field "end_date" (jstr "YYYY or MM/YYYY if available");
        field "gpa" (jstr "GPA if mentioned") ]]);
    field "experience" (JArr [
      JObj [
        field "job_title" (jstr "Title of the position");
        field "company" (jstr "Employer name");
        field "start_date" (jstr "YYYY or MM/YYYY");
        field "end_date" (jstr "YYYY or MM/YYYY or 'Present'");
        field "Description" (JArr [jstr "Bullet point list of Description points"]) ]]);
    field "projects" (JArr [
      JObj [
        field "date_range" (jstr "Example: YYYY-YYYY or MM/YYYY - MM/YYYY");
        field "project_name" (jstr "Title of the project or heading mentioned");
        field "client" (jstr "Company name or client if mentioned");
        field "content"
          (JArr [jstr "Content point 1."; jstr "Point 2."; jstr "Point 3 if available"]);
        field "technologies" (jstr "Technologies used, if available");
        field "environment" (jstr "Environment if mentioned/available") ]]);
    field "awards" (JArr [
      JObj [
        field "name" (jstr "Award name");
        field "issuer" (jstr "Issuing organization");
        field "year" (jstr "YYYY") ]])
  ].

(** The fields the schema declares, with the default of each: the empty
    string for a scalar, the empty list for a list. *)
Definition default_like (description : json) : json :=
  match description with
  | JArr _ => JArr []
  | _ => JStr []
  end.

Definition schema_defaults : list (pystr * json) :=
  match json_schema with
  | JObj items => map (fun kv => (fst kv, default_like (snd kv))) items
  | _ => []
  end.

Definition schema_fields : list pystr := map fst schema_defaults.

(** The record with every declared field present and at its default. *)
Definition all_defaults_record : json := JObj schema_defaults.

(** The empty [dict], [{}]. *)
Definition empty_record : json := JObj [].

Definition prompt_head : pystr := lit "
    You are a resume parser. Extract the following structured JSON data from the given resume text if available:

    JSON schema:
    ".

Definition prompt_middle : pystr := lit "

    Resume text:
    ".

Definition prompt_rules : pystr := lit "

    Rules:
    - Return ONLY valid JSON.
    - Do not include any text outside the JSON.
    - If a field is missing, return an empty string or empty list as appropriate.
    - Do not invent new information; extract only what is explicitly present in the resume.
    ".

Definition build_prompt (W : world) (text : pystr) : pystr :=
  prompt_head ++ json_dumps W json_schema ++ prompt_middle ++ text
  ++ prompt_rules.

(** The loop [for chunk in ...: response_text += chunk.text]: the text
    gathered so far and, when the loop was left by an exception, the
    exception.  Adding [None] to a [str] is a [TypeError]. *)
Fixpoint read_stream (response_text : pystr) (s : stream)
  : pystr * option exc :=
  match s with
  | StreamEnd => (response_text, None)
  | StreamChunk (Some t) rest => read_stream (response_text ++ t) rest
  | StreamChunk None _ => (response_text, Some TypeError)
  | StreamError e => (response_text, Some e)
  end.

Definition fence_json : pystr := lit "```json".
Definition fence : pystr := lit "```".

(** Lines 190-191: the clean-up of the response before it is parsed. *)
Definition clean_response (response_text : pystr) : pystr :=
  strip (replace fence [] (replace fence_json [] (strip response_text))).

Definition debug_path : pystr := lit "parsed_resume.json".

Definition cross_mark : pystr := [10060%N].

(** The two handlers of the [try]: both return [{}]. *)
Definition on_exception (e : exc) (response_text : pystr)
  : list event * result json :=
  match e with
  | JSONDecodeError =>
      ([PrintedExc (cross_mark ++ lit " JSON parsing error:") e;
        Printed (lit "Raw response from LLM:
 " ++ response_text)],
       Done empty_record)
  | _ =>
      ([PrintedExc (cross_mark ++ lit " Error calling Gemini API:") e],
       Done empty_record)
  end.

(** [parse_content(text, api_key)]: what it prints and writes, and what it
    returns or raises. *)
Definition parse_content (W : world) (text : pystr) (api_key : option pystr)
  : list event * result json :=
  match api_key with
  | None | Some [] => ([], Raised (ValueError (lit "Gemini API key not set.")))
  | Some key =>
      match read_stream [] (generate W key (build_prompt W text)) with
      | (response_text, Some e) => on_exception e response_text
      | (response_text, None) =>
          match json_loads W (clean_response response_text) with
          | Raised e => on_exception e response_text
          | Done parsed_data =>
              match write_json W debug_path parsed_data with
              | Some e => on_exception e response_text
              | None =>
                  ([FileWritten debug_path parsed_data], Done parsed_data)
              end
          end
      end
  end.

End Mapper.

(* ================================================================== *)
(** * The renderer: [create_formatted_docx] and its helpers *)
(* ================================================================== *)

Module Renderer.

(** Building a document: the calls on [doc] append to its body, and an
    exception ends the construction. *)
Definition Build (A : Type) : Type := document -> result (A * document).

Definition ret {A : Type} (a : A) : Build A := fun d => Done (a, d).

Definition bind {A B : Type} (m : Build A) (k : A -> Build B) : Build B :=
  fun d =>
    match m d with
    | Done (a, d') => k a d'
    | Raised e => Raised e
    end.

Definition lift {A : Type} (r : result A) : Build A :=
  fun d =>
    match r with
    | Done a => Done (a, d)
    | Raised e => Raised e
    end.

Notation "x <- m ;; k" := (bind m (fun x => k))
  (at level 61, m at next level, right associativity).
Notation "m ;;; k" := (bind m (fun _ => k))
  (at level 61, right associativity).

(** [for x in xs: body(x)]. *)
Fixpoint for_each {A : Type} (xs : list A) (body : A -> Build unit)
  : Build unit :=
  match xs with
  | [] => ret tt
  | x :: xs' => body x ;;; for_each xs' body
  end.

Definition add_block (b : block) : Build unit :=
  fun d => Done (tt, mkDoc (doc_footer d) (doc_body d ++ [b])).

Definition add_footer_run (r : run) : Build unit :=
  fun d => Done (tt, mkDoc (doc_footer d ++ [r]) (doc_body d)).

(** A run as [add_run] leaves it, before any formatting. *)
Definition plain_run (text : pystr) : run :=
  mkRun text false None None None None.

(* ------------------------------------------------------------------ *)
(** ** Text in the XML of the document

    [run.text = text] reads the text code point by code point.  A tab, a
    line feed and a carriage return end the piece read so far and become an
    element of their own (a tab, a line break), and every non-empty piece
    becomes a text element.  lxml takes a piece only if it can be encoded
    as UTF-8 (no surrogate code point: [UnicodeEncodeError]) and is XML
    compatible (no control character other than the three above, neither
    U+FFFE nor U+FFFF: [ValueError]).  The texts the program supplies
    itself (the headings, the labels of the table, the footer) are of code
    points that are stored as they are. *)

Definition is_surrogate (c : N) : bool := in_range 55296 57343 c.

(** The code points that end a piece. *)
Definition is_break (c : N) : bool :=
  cp_eqb c 9 || cp_eqb c 10 || cp_eqb c 13.

(** The code points XML can carry. *)
Definition xml_char (c : N) : bool :=
  (is_break c || N.leb 32 c)
  && negb (is_surrogate c) && negb (cp_eqb c 65534) && negb (cp_eqb c 65535).

Definition xml_message : pystr :=
  lit "All strings must be XML compatible: Unicode or ASCII, no NULL bytes or control characters".

(** What lxml will say of the piece read so far once [c] has joined it:
    the encoding is tried first, on the whole piece. *)
Definition piece_state (pending : option exc) (c : N) : option exc :=
  if is_surrogate c then Some UnicodeEncodeError
  else match pending with
       | Some e => Some e
       | None => if xml_char c then None else Some (ValueError xml_message)
       end.

(** What [run.text] reads back: a line break reads as a line feed. *)
Definition stored_char (c : N) : N := if cp_eqb c 13 then 10%N else c.

(** The scan of [run.text = text]: the text the run holds afterwards, or
    the exception of the first piece lxml refuses. *)
Fixpoint store_scan (pending : option exc) (text : pystr) : result pystr :=
  match text with
  | [] =>
      match pending with
      | Some e => Raised e
      | None => Done []
      end
  | c :: text' =>
      if is_break c
      then match pending with
           | Some e => Raised e
           | None =>
               match store_scan None text' with
               | Done t => Done (stored_char c :: t)
               | Raised e => Raised e
               end
           end
      else match store_scan (piece_state pending c) text' with
           | Done t => Done (c :: t)
           | Raised e => Raised e
           end
  end.

Definition docx_store (text : pystr) : result pystr := store_scan None text.

(** [_apply_theme_body_font(run, size_pt, bold, underline, color)]. *)
Definition apply_theme_body_font (r : run) (size_pt : option N)
  (bold underline : bool) (color : option (N * N * N)) : run :=
  mkRun (run_text r) true
    (match size_pt with
     | Some n => if N.eqb n 0 then run_size r else Some n
     | None => run_size r
     end)
    (Some bold) (Some underline)
    (match color with
     | Some c => Some c
     | None => run_color r
     end).

(** [_add_section_heading(doc, text)]. *)
Definition section_heading (text : pystr) : block :=
  Para (mkPara (Some LEFT) None
          [apply_theme_body_font (plain_run text) (Some 14%N) true true None]).

Definition add_section_heading (text : string) : Build unit :=
  add_block (section_heading (lit text)).

(** [_add_logo_top_right(doc, logo_path)]. *)
Definition add_logo_top_right (W : world) (logo_path : pystr) : Build unit :=
  if path_exists W logo_path then add_block (LogoTable logo_path) else ret tt.

(** [v.get(k, default)]: only a [dict] has the method. *)
Definition py_get (v : json) (k : string) (default : json) : result json :=
  match v with
  | JObj d => Done (dict_get d (lit k) default)
  | _ => Raised AttributeError
  end.

(** [str(v)], also the way an f-string formats [v]. *)
Definition py_str (W : world) (v : json) : pystr :=
  match v with
  | JStr s => s
  | _ => str_of_other W v
  end.

(** The objects [for x in v] goes through. *)
Definition py_iter (v : json) : result (list json) :=
  match v with
  | JArr l => Done l
  | JStr s => Done (map (fun c => JStr [c]) s)
  | JObj d => Done (map (fun kv => JStr (fst kv)) d)
  | _ => Raised TypeError
  end.

(** The objects [for x in v[:10]] goes through.  Slicing a [dict] raises
    (a [TypeError]; a [KeyError] from Python 3.12 on). *)
Definition py_first10 (v : json) : result (list json) :=
  match v with
  | JArr l => Done (firstn 10 l)
  | JStr s => Done (map (fun c => JStr [c]) (firstn 10 s))
  | _ => Raised TypeError
  end.

(** The text a run gets from a text argument that is true. *)
Definition run_text_of (W : world) (v : json) : result pystr :=
  match v with
  | JStr s => docx_store s
  | _ => docx_text_of_other W v
  end.

(** [doc.add_paragraph(text, style)] followed by formatting [runs[0]]:
    python-docx adds a run only for a text that is true, so that [runs[0]]
    is an [IndexError] otherwise. *)
Definition add_text_paragraph (W : world) (text : json) (style : option pystr)
  (format : run -> run) : Build unit :=
  if truthy text
  then t <- lift (run_text_of W text) ;;
       add_block (Para (mkPara None style [format (plain_run t)]))
  else lift (Raised IndexError).

Definition body12 (bold : bool) (r : run) : run :=
  apply_theme_body_font r (Some 12%N) bold false None.

Definition list_bullet : option pystr := Some (lit "List Bullet").

Definition headers : list pystr :=
  [lit "Area"; lit "Years"; lit "Latest 3 Clients Used"; lit "Level"].

Definition white : N * N * N := (255, 255, 255)%N.
Definition header_fill : pystr := lit "5A2A82".

Definition header_cell (h : pystr) : cell :=
  let r := apply_theme_body_font (plain_run h) (Some 12%N) true false None in
  mkCell [mkRun (run_text r) (run_theme_font r) (run_size r) (run_bold r)
            (run_underline r) (Some white)]
         (Some header_fill).

(** A data cell, as [cell.text = text] leaves it: one run that holds the
    text, unless the text cannot be stored. *)
Definition data_cell (text : pystr) : result cell :=
  match docx_store text with
  | Done t => Done (mkCell [plain_run t] None)
  | Raised e => Raised e
  end.

(** [row_cells[i].text = str(skill.get(key, ""))]. *)
Definition skill_column (W : world) (skill : json) (key : string)
  : result cell :=
  match py_get skill key (JStr []) with
  | Done v => data_cell (py_str W v)
  | Raised e => Raised e
  end.

(** One data row of the skill matrix: its four cells are filled from left
    to right, and the first exception ends the row. *)
Definition skill_row (W : world) (skill : json) : result (list cell) :=
  match skill_column W skill "skills" with
  | Raised e => Raised e
  | Done a =>
      match skill_column W skill "years_experience" with
      | Raised e => Raised e
      | Done b =>
          match skill_column W skill "last_used" with
          | Raised e => Raised e
          | Done c =>
              match skill_column W skill "proficiency" with
              | Raised e => Raised e
              | Done d => Done [a; b; c; d]
              end
          end
      end
  end.

Fixpoint skill_rows (W : world) (skills_matrix : list json)
  : result (list (list cell)) :=
  match skills_matrix with
  | [] => Done []
  | skill :: rest =>
      match skill_row W skill with
      | Raised e => Raised e
      | Done row =>
          match skill_rows W rest with
          | Raised e => Raised e
          | Done rows => Done (row :: rows)
          end
      end
  end.

(** The entry generated for one element of [skills]. *)
Definition skill_entry (skill : json) : json :=
  JObj [(lit "skills", skill);
        (lit "years_experience", JStr []);
        (lit "last_used", JStr []);
        (lit "proficiency", JStr [])].

(** Lines 275-291: the entries the table is built from; [Done []] is the
    early [return]. *)
Definition matrix_entries (parsed_data : json) : result (list json) :=
  match py_get parsed_data "skills_matrix" (JArr []),
        py_get parsed_data "skills" JNull with
  | Done skills_matrix, Done skills =>
      if negb (truthy skills_matrix) && truthy skills
      then match py_first10 skills with
           | Raised e => Raised e
           | Done l => Done (firstn 10 (map skill_entry l))
           end
      else if negb (truthy skills_matrix) then Done []
      else py_first10 skills_matrix
  | _, _ => Raised AttributeError
  end.

(** [_build_skill_matrix(doc, parsed_data)]. *)
Definition build_skill_matrix (W : world) (parsed_data : json) : Build unit :=
  entries <- lift (matrix_entries parsed_data) ;;
  match entries with
  | [] => ret tt
  | _ :: _ =>
      rows <- lift (skill_rows W entries) ;;
      add_block (Table (mkTable (Some (lit "Table Grid"))
                          (map header_cell headers :: rows)))
  end.

(** [string.capwords(s)]: the words of [s.split()], each capitalized, joined
    by single spaces. *)
Definition capwords (W : world) (s : pystr) : pystr :=
  join (lit " ") (map (py_capitalize W) (split s)).

Definition footer_text : pystr :=
  lit "www.quadranttechnologies.com                             5020, 148th Avenue NE, Suite-250, Redmond, WA-98052".

Definition name_not_found : pystr := lit "Name Not Found".

(** Lines 334-342: the centered line of the candidate name. *)
Definition add_name (W : world) (parsed_data : json) : Build unit :=
  v <- lift (py_get parsed_data "name" (JStr name_not_found)) ;;
  match v with
  | JStr s =>
      let raw_name := strip s in
      let formatted_name := capwords W raw_name in
      t <- lift (docx_store formatted_name) ;;
      add_block (Para (mkPara (Some CENTER) None
        [apply_theme_body_font (plain_run t) (Some 14%N) true false None]))
  | _ => lift (Raised AttributeError)      (* no [strip] on other objects *)
  end.

(** Lines 347-356: one centered line per contact detail that is true. *)
Definition add_contact (W : world) (detail : json) : Build unit :=
  t <- lift (run_text_of W detail) ;;
  add_block (Para (mkPara (Some CENTER) None [body12 false (plain_run t)])).

Definition add_contacts (W : world) (parsed_data : json) : Build unit :=
  phone <- lift (py_get parsed_data "phone" (JStr [])) ;;
  email <- lift (py_get parsed_data "email" (JStr [])) ;;
  linkedin <- lift (py_get parsed_data "linkedin" (JStr [])) ;;
  for_each (filter truthy [phone; email; linkedin]) (add_contact W).

(** Lines 359-362. *)
Definition add_summary (W : world) (parsed_data : json) : Build unit :=
  summary <- lift (py_get parsed_data "summary" JNull) ;;
  if truthy summary
  then add_section_heading "Candidate Strengths" ;;;
       add_text_paragraph W summary None (body12 false)
  else ret tt.

(** A section over the entries of a list field: nothing when the field is
    false, else the heading and the lines of each entry. *)
Definition add_entries (parsed_data : json) (key heading : string)
  (entry : json -> Build unit) : Build unit :=
  v <- lift (py_get parsed_data key JNull) ;;
  if truthy v
  then add_section_heading heading ;;;
       (items <- lift (py_iter v) ;; for_each items entry)
  else ret tt.

Definition sep_dash : pystr := lit " - ".

(** Lines 371-373. *)
Definition add_certification (W : world) (cert : json) : Build unit :=
  name <- lift (py_get cert "name" (JStr [])) ;;
  issuer <- lift (py_get cert "issuer" (JStr [])) ;;
  add_text_paragraph W (JStr (py_str W name ++ sep_dash ++ py_str W issuer))
    list_bullet (body12 false).

(** Lines 378-381. *)
Definition add_education (W : world) (edu : json) : Build unit :=
  degree <- lift (py_get edu "degree" (JStr [])) ;;
  major <- lift (py_get edu "major" (JStr [])) ;;
  university <- lift (py_get edu "university" (JStr [])) ;;
  add_text_paragraph W
    (JStr (py_str W degree ++ lit " in " ++ py_str W major ++ sep_dash
           ++ py_str W university))
    list_bullet (body12 false).

(** The header line of an experience entry. *)
Definition experience_header (W : world)
  (job_title company start_date end_date : json) : pystr :=
  py_str W job_title ++ sep_dash ++ py_str W company ++ lit " ("
  ++ py_str W start_date ++ sep_dash ++ py_str W end_date ++ lit ")".

Definition add_bullet (W : world) (point : json) : Build unit :=
  add_text_paragraph W point list_bullet (body12 false).

(** Lines 386-391. *)
Definition add_experience (W : world) (exp : json) : Build unit :=
  job_title <- lift (py_get exp "job_title" (JStr [])) ;;
  company <- lift (py_get exp "company" (JStr [])) ;;
  start_date <- lift (py_get exp "start_date" (JStr [])) ;;
  end_date <- lift (py_get exp "end_date" (JStr [])) ;;
  add_text_paragraph W
    (JStr (experience_header W job_title company start_date end_date))
    None (body12 true) ;;;
  (description <- lift (py_get exp "Description" (JArr [])) ;;
   points <- lift (py_iter description) ;;
   for_each points (add_bullet W)).

(** A line [label value] added without formatting, when [value] is true. *)
Definition add_labelled (W : world) (proj : json) (key label : string)
  : Build unit :=
  v <- lift (py_get proj key JNull) ;;
  if truthy v
  then t <- lift (docx_store (lit label ++ py_str W v)) ;;
       add_block (Para (mkPara None None [plain_run t]))
  else ret tt.

(** Lines 396-405. *)
Definition add_project (W : world) (proj : json) : Build unit :=
  project_name <- lift (py_get proj "project_name" (JStr [])) ;;
  client <- lift (py_get proj "client" (JStr [])) ;;
  date_range <- lift (py_get proj "date_range" (JStr [])) ;;
  add_text_paragraph W
    (JStr (py_str W project_name ++ sep_dash ++ py_str W client ++ lit " ("
           ++ py_str W date_range ++ lit ")"))
    None (body12 true) ;;;
  (content <- lift (py_get proj "content" (JArr [])) ;;
   points <- lift (py_iter content) ;;
   for_each points (add_bullet W)) ;;;
  add_labelled W proj "technologies" "Technologies: " ;;;
  add_labelled W proj "environment" "Environment: ".

(** Lines 319-405: everything [create_formatted_docx] does to [doc] before
    it saves it. *)
Definition build_document (W : world) (parsed_data : json)
  (logo_path : pystr) : Build unit :=
  add_logo_top_right W logo_path ;;;
  add_footer_run
    (apply_theme_body_font (plain_run footer_text) (Some 10%N)
       false false None) ;;;
  add_name W parsed_data ;;;
  add_contacts W parsed_data ;;;
  add_summary W parsed_data ;;;
  add_section_heading "Skill Matrix" ;;;
  build_skill_matrix W parsed_data ;;;
  add_entries parsed_data "certifications" "Certifications"
    (add_certification W) ;;;
  add_entries parsed_data "education" "Education" (add_education W) ;;;
  add_entries parsed_data "experience" "Professional Experience"
    (add_experience W) ;;;
  add_entries parsed_data "projects" "Projects" (add_project W).

(** [docx.Document()]. *)
Definition new_document : document := mkDoc [] [].

(** The document [create_formatted_docx] has built when it reaches
    [doc.save]. *)
Definition rendered (W : world) (parsed_data : json) (logo_path : pystr)
  : result document :=
  match build_document W parsed_data logo_path new_document with
  | Done (_, doc) => Done doc
  | Raised e => Raised e
  end.

Definition check_mark : pystr := [9989%N].

(** [create_formatted_docx(parsed_data, output_path, logo_path)]. *)
Definition create_formatted_docx (W : world) (parsed_data : json)
  (output_path logo_path : pystr) : list event * result unit :=
  match rendered W parsed_data logo_path with
  | Raised e => ([], Raised e)
  | Done doc =>
      match save_docx W output_path doc with
      | None =>
          ([DocSaved output_path doc;
            Printed (check_mark
                     ++ lit " Successfully generated formatted resume at: "
                     ++ output_path)],
           Done tt)
      | Some e =>
          ([PrintedExc (Mapper.cross_mark ++ lit " Error saving DOCX file:") e],
           Done tt)
      end
  end.

End Renderer.

(* ================================================================== *)
(** * The pipeline: the [__main__] block *)
(* ================================================================== *)

Module Pipeline.

Import Mapper Renderer.

(** How the run of the script ends. *)
Inductive ending : Type :=
| Completed                (* the script reaches its end *)
| Exited (code : N)        (* [exit(code)] *)
| Crashed (e : exc).       (* an exception nobody catches *)

Definition resume_path : pystr := lit "YOUR_RESUME_PATH_HERE.pdf".
Definition logo_path : pystr := lit "logo.png".

(** [parsed_data['name']]. *)
Definition index_name (parsed_data : json) : result json :=
  match parsed_data with
  | JObj d =>
      match dict_lookup (lit "name") d with
      | Some v => Done v
      | None => Raised (KeyError (lit "name"))
      end
  | _ => Raised TypeError
  end.

(** [re.sub(r'[^A-Za-z0-9]+', '_', string.capwords(name))]. *)
Definition sanitize (W : world) (name : pystr) : pystr :=
  sub_non_alnum (lit "_") false (capwords W name).

(** Line 445. *)
Definition safe_name (W : world) (parsed_data : json) : result pystr :=
  match index_name parsed_data with
  | Raised e => Raised e
  | Done (JStr name) => Done (sanitize W name)
  | Done _ => Raised AttributeError        (* [capwords] calls [split] *)
  end.

(** Line 447. *)
Definition output_path_of (safe : pystr) : pystr :=
  lit "YOUR_FILE_PATH" ++ [92%N] ++ safe ++ lit "_resume.docx".

Definition banner_text : list event :=
  [Printed (lit "
===== RAW EXTRACTED TEXT =====
")].

Definition banner_text_end : list event :=
  [Printed (lit "
===== END OF EXTRACTED TEXT =====
")].

Definition banner_json (parsed_data : json) : list event :=
  [Printed (lit "
===== PARSED RESUME JSON =====
");
   PrintedJson parsed_data;
   Printed (lit "
===== END OF PARSED RESUME JSON =====
")].

(** The script: what it prints and writes, and how it ends.  The lines
    [extract_text] prints itself are not recorded. *)
Definition main (W : world) : list event * ending :=
  match env_api_key W with
  | None | Some [] =>
      ([Printed (cross_mark ++ lit " Gemini API key not found. Please set GEMINI_API_KEY in your environment or .env file.")],
       Exited 1)
  | Some key =>
      match extracted_text W resume_path with
      | None | Some [] =>
          ([Printed (cross_mark ++ lit " No text extracted.")], Completed)
      | Some extracted =>
          let shown := banner_text ++ [Printed extracted] ++ banner_text_end in
          match parse_content W extracted (Some key) with
          | (out, Raised e) => (shown ++ out, Crashed e)
          | (out, Done parsed_data) =>
              let printed := shown ++ out ++ banner_json parsed_data in
              match safe_name W parsed_data with
              | Raised e => (printed, Crashed e)
              | Done safe =>
                  match create_formatted_docx W parsed_data
                          (output_path_of safe) logo_path with
                  | (out', Raised e) => (printed ++ out', Crashed e)
                  | (out', Done _) => (printed ++ out', Completed)
                  end
              end
          end
      end
  end.

End Pipeline.

(* ================================================================== *)
(** * Vocabulary of the statements *)
(* ================================================================== *)

Module Props.

Import Mapper Renderer Pipeline.

(** A string of white space only. *)
Definition blank (w : pystr) : Prop := forallb isspace w = true.

(** A response whose payload [p] is wrapped in a fenced code block, white
    space allowed around the payload and around the block. *)
Definition fenced (w0 w1 p w2 w3 : pystr) : pystr :=
  w0 ++ fence_json ++ w1 ++ p ++ w2 ++ fence ++ w3.

(** The world in which the service answers [response] in one chunk. *)
Definition with_response (W : world) (response : pystr) : world :=
  mkWorld (env_api_key W) (extracted_text W)
    (fun _ _ => StreamChunk (Some response) StreamEnd)
    (json_dumps W) (json_loads W) (write_json W) (path_exists W)
    (save_docx W) (py_capitalize W) (str_of_other W) (docx_text_of_other W).

(** The service answered in full, with [response_text]. *)
Definition answered (W : world) (text key response_text : pystr) : Prop :=
  read_stream [] (generate W key (build_prompt W text))
  = (response_text, None).

(** [str.capitalize] does on ASCII words what [ascii_capitalize] does. *)
Definition ascii_faithful (W : world) : Prop :=
  forall w, forallb is_ascii w = true -> py_capitalize W w = ascii_capitalize w.

(** A response conforms to the schema when it is a [dict] whose keys are
    declared fields, each with a value of the kind of its default. *)
Definition same_kind (v default : json) : bool :=
  match v, default with
  | JStr _, JStr _ => true
  | JArr _, JArr _ => true
  | _, _ => false
  end.

Definition conforms (v : json) : bool :=
  match v with
  | JObj d =>
      forallb (fun kv =>
                 match dict_lookup (fst kv) schema_defaults with
                 | Some default => same_kind (snd kv) default
                 | None => false
                 end) d
  | _ => false
  end.

(** Every declared field is a key of the record. *)
Definition all_fields_present (v : json) : bool :=
  match v with
  | JObj d => forallb (fun k => has_key k d) schema_fields
  | _ => false
  end.

Definition is_saved (e : event) : bool :=
  match e with
  | DocSaved _ _ => true
  | _ => false
  end.

(** The run sets a document down. *)
Definition renders (out : list event) : bool := existsb is_saved out.

(** The body of [rows] below the header row. *)
Definition data_rows (t : table) : list (list cell) := tl (table_rows t).

Definition cell_text (c : cell) : pystr := flat_map run_text (cell_runs c).

Definition row_texts (r : list cell) : list pystr := map cell_text r.

(** A text the document stores as it is: code points XML can carry, and
    no carriage return. *)
Definition xml_plain (s : pystr) : bool :=
  forallb (fun c => xml_char c && negb (cp_eqb c 13)) s.

(** The text of a value: a [str] is its own text, another object has the
    text [str] gives it. *)
Definition text_of (W : world) (v : json) : pystr :=
  match v with
  | JStr s => s
  | _ => str_of_other W v
  end.

(** A cell of the body of a table: one run without formatting, no fill. *)
Definition text_cell (text : pystr) : cell :=
  mkCell [mkRun text false None None None None] None.

(** A cell of the header row: bold white text of 12 points in the body
    font of the theme, on the purple fill. *)
Definition heading_cell (text : pystr) : cell :=
  mkCell [mkRun text true (Some 12%N) (Some true) (Some false)
            (Some (255, 255, 255)%N)]
         (Some (lit "5A2A82")).

Definition header_row : list cell :=
  [heading_cell (lit "Area"); heading_cell (lit "Years");
   heading_cell (lit "Latest 3 Clients Used"); heading_cell (lit "Level")].

(** The four texts of the row of a skill-matrix entry: the name is read
    under the key [skills]. *)
Definition entry_texts (W : world) (entry : list (pystr * json))
  : list pystr :=
  [text_of W (dict_get entry (lit "skills") (JStr []));
   text_of W (dict_get entry (lit "years_experience") (JStr []));
   text_of W (dict_get entry (lit "last_used") (JStr []));
   text_of W (dict_get entry (lit "proficiency") (JStr []))].

(** The row of a skill-matrix entry: its four columns as text. *)
Definition entry_row (W : world) (entry : list (pystr * json)) : list cell :=
  map text_cell (entry_texts W entry).

(** The row generated for one element of [skills]. *)
Definition generated_row (W : world) (skill : json) : list cell :=
  [text_cell (text_of W skill); text_cell []; text_cell []; text_cell []].

Definition skill_table (rows : list (list cell)) : block :=
  Table (mkTable (Some (lit "Table Grid")) (header_row :: rows)).

Definition is_dict (v : json) : Prop := exists d, v = JObj d.

Definition as_dict (v : json) : list (pystr * json) :=
  match v with
  | JObj d => d
  | _ => []
  end.

(** The four texts of the row of an entry are stored as they are. *)
Definition row_plain (W : world) (entry : json) : Prop :=
  forallb xml_plain (entry_texts W (as_dict entry)) = true.

(** The text of a value is stored as it is. *)
Definition value_plain (W : world) (v : json) : Prop :=
  xml_plain (text_of W v) = true.

(** The heading of a section: bold underlined text of 14 points, aligned
    left. *)
Definition heading_line (text : pystr) : block :=
  Para (mkPara (Some LEFT) None
          [mkRun text true (Some 14%N) (Some true) (Some true) None]).

(** The name line of the header. *)
Definition name_line (text : pystr) : block :=
  Para (mkPara (Some CENTER) None
          [mkRun text true (Some 14%N) (Some true) (Some false) None]).

(** The header line and the bullets of the experience section. *)
Definition bold_line (text : pystr) : block :=
  Para (mkPara None None
          [mkRun text true (Some 12%N) (Some true) (Some false) None]).

Definition bullet_line (text : pystr) : block :=
  Para (mkPara None (Some (lit "List Bullet"))
          [mkRun text true (Some 12%N) (Some false) (Some false) None]).

(** A description point the renderer can set down: a non-empty [str]. *)
Definition is_point (v : json) : bool :=
  match v with
  | JStr (_ :: _) => true
  | _ => false
  end.

Definition point_text (v : json) : pystr :=
  match v with
  | JStr s => s
  | _ => []
  end.

(** The header line of an experience entry,
    [job_title - company (start_date - end_date)]. *)
Definition header_text (W : world) (e : list (pystr * json)) : pystr :=
  text_of W (dict_get e (lit "job_title") (JStr [])) ++ lit " - "
  ++ text_of W (dict_get e (lit "company") (JStr [])) ++ lit " ("
  ++ text_of W (dict_get e (lit "start_date") (JStr [])) ++ lit " - "
  ++ text_of W (dict_get e (lit "end_date") (JStr [])) ++ lit ")".

(** The points an entry holds under [key]. *)
Definition points_of (e : list (pystr * json)) (key : string) : list json :=
  match dict_get e (lit key) (JArr []) with
  | JArr points => points
  | _ => []
  end.

(** The blocks of one experience entry whose points are under [key]. *)
Definition experience_blocks (W : world) (key : string) (exp : json)
  : list block :=
  bold_line (header_text W (as_dict exp))
  :: map (fun p => bullet_line (point_text p)) (points_of (as_dict exp) key).

(** The header line and the points of an experience entry are stored as
    they are. *)
Definition experience_plain (W : world) (exp : json) : Prop :=
  xml_plain (header_text W (as_dict exp)) = true
  /\ forallb (fun p => xml_plain (point_text p))
       (points_of (as_dict exp) "Description") = true.

(** An experience entry as the schema describes it: a [dict] whose
    [Description] (when present) is a list of non-empty strings. *)
Definition experience_ok (exp : json) : Prop :=
  exists e points,
    exp = JObj e /\
    dict_get e (lit "Description") (JArr []) = JArr points /\
    forallb is_point points = true.

Definition append_body (d : document) (bs : list block) : document :=
  mkDoc (doc_footer d) (doc_body d ++ bs).



(** [m] only appends blocks to the body, and the blocks satisfy [P]. *)
Definition emits {A : Type} (P : block -> Prop) (m : Build A) : Prop :=
  forall d a d', m d = Done (a, d') ->
    exists bs, doc_body d' = doc_body d ++ bs /\ Forall P bs.

(** A cell without shading and without a colour on its text. *)
Definition unshaded (c : cell) : Prop :=
  cell_fill c = None /\ Forall (fun r => run_color r = None) (cell_runs c).

(** A table, if the block is one, is a skill matrix: the header row, then
    rows of plain cells. *)
Definition matrix_shaped (b : block) : Prop :=
  match b with
  | Table t =>
      exists rows, table_rows t = map header_cell headers :: rows
                   /\ Forall (Forall unshaded) rows
  | _ => True
  end.

(** A header cell: the purple fill, and bold white text. *)
Definition header_formatted (c : cell) : Prop :=
  cell_fill c = Some (lit "5A2A82")
  /\ Forall (fun r => run_color r = Some (255, 255, 255)%N
                      /\ run_bold r = Some true) (cell_runs c).

End Props.

(* ================================================================== *)
(** * Concrete worlds and records *)
(* ================================================================== *)

Module Examples.

Import Mapper Renderer Pipeline Props.

Definition quoted (s : string) : pystr := [34%N] ++ lit s ++ [34%N].

(** A world with an API key and an extracted text, in which the service
    answers [response], [json.loads] is known at the cleaned response, and
    writing the debug file raises [write_error] if any. *)
Definition answering (response : pystr) (decoded : result json)
  (write_error : option exc) : world :=
  mkWorld (Some (lit "key"))
    (fun _ => Some (lit "Ann Lee, engineer"))
    (fun _ _ => StreamChunk (Some response) StreamEnd)
    (fun _ => [])
    (fun s => if str_eqb s (clean_response response) then decoded
              else Raised JSONDecodeError)
    (fun _ _ => write_error)
    (fun _ => false)
    (fun _ _ => None)
    ascii_capitalize
    (fun _ => [])
    (fun _ => Raised TypeError).

(** A response with the one field [name], and the [dict] it stands for. *)
Definition ann_response : pystr :=
  lit "{" ++ quoted "name" ++ lit ": " ++ quoted "Ann" ++ lit "}".

Definition ann_record : json := JObj [(lit "name", JStr (lit "Ann"))].

Definition ann_world : world := answering ann_response (Done ann_record) None.

(** A response that is no JSON. *)
Definition garbage_response : pystr := lit "Sorry, I cannot parse this resume.".

Definition garbage_world : world :=
  answering garbage_response (Raised JSONDecodeError) None.

(** The debug file cannot be written. *)
Definition readonly_world : world :=
  answering ann_response (Done ann_record) (Some OSError).

Definition skill (name years last level : string) : json :=
  JObj [(lit "skills", jstr name); (lit "years_experience", jstr years);
        (lit "last_used", jstr last); (lit "proficiency", jstr level)].

Definition fifteen_skills : list json :=
  map (fun n => skill n "3" "2024" "Advanced")
    ["s01"; "s02"; "s03"; "s04"; "s05"; "s06"; "s07"; "s08"; "s09"; "s10";
     "s11"; "s12"; "s13"; "s14"; "s15"]%string.

Definition matrix_record : json :=
  JObj [(lit "name", jstr "john q. public");
        (lit "skills_matrix", JArr fifteen_skills)].

Definition skills_record : json :=
  JObj [(lit "skills", JArr [jstr "Rocq"; jstr "Python"])].



(** An experience entry keyed as the data model of the specification names
    the field, [description], and one keyed as the program does. *)
Definition job (key : string) : json :=
  JObj [(lit "job_title", jstr "Engineer"); (lit "company", jstr "Acme");
        (lit "start_date", jstr "2020"); (lit "end_date", jstr "Present");
        (lit key, JArr [jstr "Built the parser"; jstr "Led the team"])].

Definition experience_record (key : string) : json :=
  JObj [(lit "experience", JArr [job key])].

End Examples.

(* ================================================================== *)
(** * The extractor: [extract_text] *)
(* ================================================================== *)

Module Extractor.

(** What [extract_text] reads from: the file system, PyMuPDF, python-docx. *)
Record files : Type := mkFiles {
  (** [os.path.exists(path)] *)
  file_exists : pystr -> bool;
  (** [os.path.splitext(path)[1].lower()] *)
  lower_extension : pystr -> pystr;
  (** the [get_text()] of the pages of [fitz.open(path)], or the exception
      raised while the file is open *)
  pdf_pages : pystr -> result (list pystr);
  (** the [text] of the paragraphs of [docx.Document(path)], and for each
      table, row and cell the [text] of the paragraphs of the cell; or the
      exception raised while reading *)
  docx_content : pystr -> result (list pystr * list (list (list (list pystr))))
}.

Definition newline : pystr := [10%N].

(** [for para in paragraphs: text += para.text + '\n']. *)
Fixpoint add_paragraphs (text : pystr) (paragraphs : list pystr) : pystr :=
  match paragraphs with
  | [] => text
  | para :: rest => add_paragraphs (text ++ para ++ newline) rest
  end.

Fixpoint add_cells (text : pystr) (cells : list (list pystr)) : pystr :=
  match cells with
  | [] => text
  | cell :: rest => add_cells (add_paragraphs text cell) rest
  end.

Fixpoint add_rows (text : pystr) (rows : list (list (list pystr))) : pystr :=
  match rows with
  | [] => text
  | row :: rest => add_rows (add_cells text row) rest
  end.

Fixpoint add_tables (text : pystr) (tables : list (list (list (list pystr))))
  : pystr :=
  match tables with
  | [] => text
  | table :: rest => add_tables (add_rows text table) rest
  end.

(** [for page in doc: text += page.get_text()]. *)
Fixpoint add_pages (text : pystr) (pages : list pystr) : pystr :=
  match pages with
  | [] => text
  | page :: rest => add_pages (text ++ page) rest
  end.

Definition is_empty (s : pystr) : bool :=
  match s with
  | [] => true
  | _ :: _ => false
  end.

(** [extract_text(file_path)]: what it prints, and the text or [None]. *)
Definition extract_text (F : files) (file_path : pystr)
  : list event * option pystr :=
  if negb (file_exists F file_path)
  then ([Printed (lit "Error: File not found at " ++ file_path)], None)
  else
    let file_extension := lower_extension F file_path in
    if str_eqb file_extension (lit ".pdf") then
      match pdf_pages F file_path with
      | Raised e =>
          ([PrintedExc (lit "An error occurred while extracting text:") e], None)
      | Done pages =>
          let text := add_pages [] pages in
          ((if is_empty (strip text)
            then [Printed (lit "Warning: PDF appears to be scanned or contains no text.")]
            else []),
           Some (strip text))
      end
    else if str_eqb file_extension (lit ".docx") then
      match docx_content F file_path with
      | Raised e =>
          ([PrintedExc (lit "An error occurred while extracting text:") e], None)
      | Done (paragraphs, tables) =>
          ([], Some (strip (add_tables (add_paragraphs [] paragraphs) tables)))
      end
    else
      ([Printed (lit "Error: Unsupported file type '" ++ file_extension
                 ++ lit "'. Please provide a PDF or DOCX file.")],
       None).

End Extractor.

(* ================================================================== *)
(** * Vocabulary of the further statements *)
(* ================================================================== *)

Module More.

Import Mapper Renderer Pipeline Props Examples Extractor.

(** [p in s]: the pattern occurs somewhere in the text. *)
Fixpoint occurs (p s : pystr) : bool :=
  startswith p s
  || match s with
     | [] => false
     | _ :: s' => occurs p s'
     end.

(** The stream that delivers the chunks [texts] and ends. *)
Fixpoint chunked (texts : list pystr) (rest : stream) : stream :=
  match texts with
  | [] => rest
  | t :: texts' => StreamChunk (Some t) (chunked texts' rest)
  end.

(** The world in which the service answers with [s]. *)
Definition with_stream (W : world) (s : stream) : world :=
  mkWorld (env_api_key W) (extracted_text W) (fun _ _ => s)
    (json_dumps W) (json_loads W) (write_json W) (path_exists W)
    (save_docx W) (py_capitalize W) (str_of_other W) (docx_text_of_other W).

(** The world whose extraction wrapper is [extract_text] over [F]. *)
Definition reading (W : world) (F : files) : world :=
  mkWorld (env_api_key W) (fun path => snd (extract_text F path))
    (generate W) (json_dumps W) (json_loads W) (write_json W) (path_exists W)
    (save_docx W) (py_capitalize W) (str_of_other W) (docx_text_of_other W).


(** A section heading: the paragraphs aligned left. *)
Definition is_heading (b : block) : bool :=
  match b with
  | Para p =>
      match para_alignment p with
      | Some LEFT => true
      | _ => false
      end
  | _ => false
  end.

Definition is_logo (b : block) : bool :=
  match b with
  | LogoTable _ => true
  | _ => false
  end.

(** The heading of a section, when the field of the section is true. *)
Definition heading_if (d : list (pystr * json)) (key heading : string)
  : list block :=
  if truthy (dict_get d (lit key) JNull)
  then [section_heading (lit heading)]
  else [].

(** A centered line of the contact details. *)
Definition contact_line (text : pystr) : block :=
  Para (mkPara (Some CENTER) None
          [mkRun text true (Some 12%N) (Some false) (Some false) None]).

(** A paragraph of body text. *)
Definition body_line (text : pystr) : block :=
  Para (mkPara None None
          [mkRun text true (Some 12%N) (Some false) (Some false) None]).

(** A paragraph left as [add_paragraph] makes it. *)
Definition plain_line (text : pystr) : block :=
  Para (mkPara None None [mkRun text false None None None None]).

Definition str_or_empty (v : json) : bool :=
  match v with
  | JStr _ => true
  | _ => false
  end.

(** The bullet of a certification and of an education entry. *)
Definition certification_text (W : world) (cert : json) : pystr :=
  text_of W (dict_get (as_dict cert) (lit "name") (JStr []))
  ++ lit " - " ++ text_of W (dict_get (as_dict cert) (lit "issuer") (JStr [])).

Definition education_text (W : world) (edu : json) : pystr :=
  text_of W (dict_get (as_dict edu) (lit "degree") (JStr []))
  ++ lit " in " ++ text_of W (dict_get (as_dict edu) (lit "major") (JStr []))
  ++ lit " - " ++ text_of W (dict_get (as_dict edu) (lit "university") (JStr [])).

(** The optional line [label value] of a project. *)
Definition labelled_blocks (W : world) (proj : json) (key label : string)
  : list block :=
  let v := dict_get (as_dict proj) (lit key) JNull in
  if truthy v then [plain_line (lit label ++ text_of W v)] else [].

(** The header line of a project, [project_name - client (date_range)]. *)
Definition project_header (W : world) (p : list (pystr * json)) : pystr :=
  text_of W (dict_get p (lit "project_name") (JStr [])) ++ lit " - "
  ++ text_of W (dict_get p (lit "client") (JStr [])) ++ lit " ("
  ++ text_of W (dict_get p (lit "date_range") (JStr [])) ++ lit ")".

(** The blocks of one project. *)
Definition project_blocks (W : world) (proj : json) : list block :=
  bold_line (project_header W (as_dict proj))
  :: map (fun x => bullet_line (point_text x)) (points_of (as_dict proj) "content")
     ++ labelled_blocks W proj "technologies" "Technologies: "
     ++ labelled_blocks W proj "environment" "Environment: ".

(** The texts of the paragraph, if the block is one, are stored as they
    are. *)
Definition plain_block (b : block) : bool :=
  match b with
  | Para p => forallb (fun r => xml_plain (run_text r)) (para_runs p)
  | _ => true
  end.

(** A project as the schema describes it: a [dict] whose [content] (when
    present) is a list of non-empty strings. *)
Definition project_ok (proj : json) : Prop :=
  exists p points,
    proj = JObj p /\
    dict_get p (lit "content") (JArr []) = JArr points /\
    forallb is_point points = true.

(** The keys of the record the renderer reads. *)
Definition rendered_keys : list pystr :=
  map lit ["name"; "phone"; "email"; "linkedin"; "summary"; "skills_matrix";
           "skills"; "certifications"; "education"; "experience";
           "projects"]%string.

(** [m] leaves the footer as it is. *)
Definition keeps_footer {A : Type} (m : Build A) : Prop :=
  forall d a d', m d = Done (a, d') -> doc_footer d' = doc_footer d.

Definition footer_run : run :=
  mkRun footer_text true (Some 10%N) (Some false) (Some false) None.

(** The paragraphs [ps], each followed by a line break. *)
Definition lines (paragraphs : list pystr) : pystr :=
  List.concat (map (fun p => p ++ newline) paragraphs).

(** The paragraphs of the cells of the tables, table by table, row by row,
    cell by cell. *)
Definition cell_paragraphs (tables : list (list (list (list pystr))))
  : list pystr :=
  List.concat (List.concat (List.concat tables)).

(** A DOCX with two paragraphs and a table of one row and two cells. *)
Definition sample_docx : files :=
  mkFiles (fun _ => true) (fun _ => lit ".docx") (fun _ => Raised OSError)
    (fun _ => Done ([lit "Ann Lee"; lit "Engineer"],
                    [[[[lit "Rocq"]; [lit "Python"]]]])).

(** A PDF whose pages hold white space only. *)
Definition blank_pdf : files :=
  mkFiles (fun _ => true) (fun _ => lit ".pdf")
    (fun _ => Done [lit " "; newline]) (fun _ => Raised OSError).

(** A block that is neither a section heading nor the logo. *)
Definition inner (b : block) : Prop :=
  is_heading b = false /\ is_logo b = false.

(** [m] leaves the footer alone and appends blocks that satisfy [P]. *)
Definition appends {A : Type} (P : block -> Prop) (m : Build A) : Prop :=
  forall d a d', m d = Done (a, d') ->
    doc_footer d' = doc_footer d
    /\ exists bs, doc_body d' = doc_body d ++ bs /\ Forall P bs.

(** [m] leaves the footer alone and appends blocks among which the section
    headings are [hs], and none is the logo. *)
Definition marks {A : Type} (hs : list block) (m : Build A) : Prop :=
  forall d a d', m d = Done (a, d') ->
    doc_footer d' = doc_footer d
    /\ exists bs, doc_body d' = doc_body d ++ bs
                  /\ filter is_heading bs = hs /\ filter is_logo bs = [].

(** Records for the sections. *)
Definition contacts_record : json :=
  JObj [(lit "phone", jstr ""); (lit "email", jstr "a@b.com");
        (lit "linkedin", jstr "")].

Definition project (points : list json) : json :=
  JObj [(lit "project_name", jstr "Parser"); (lit "client", jstr "Acme");
        (lit "date_range", jstr "2023-2024"); (lit "content", JArr points);
        (lit "technologies", jstr "Rocq"); (lit "environment", jstr "")].

Definition sections_record : json :=
  JObj [(lit "name", jstr "ann lee");
        (lit "summary", jstr "Builds parsers.");
        (lit "certifications",
         JArr [JObj [(lit "name", jstr "CKA"); (lit "issuer", jstr "CNCF")]]);
        (lit "education",
         JArr [JObj [(lit "degree", jstr "BSc"); (lit "major", jstr "CS");
                     (lit "university", jstr "MIT")]]);
        (lit "projects", JArr [project [jstr "Wrote the grammar"]]);
        (lit "awards", JArr [JObj [(lit "name", jstr "Best paper")]])].

End More.

(* ================================================================== *)
(** * Facts *)
(* ================================================================== *)

Import Mapper Renderer Pipeline Props Examples.

(* ------------------------------------------------------------------ *)
(** ** Strings *)

Lemma fence_cps : Mapper.fence = [96; 96; 96]%N.
Proof. reflexivity. Qed.

Lemma fence_json_cps : Mapper.fence_json = [96; 96; 96; 106; 115; 111; 110]%N.
Proof. reflexivity. Qed.

Lemma cp_eqb_eq a b : cp_eqb a b = true <-> a = b.
Proof. apply N.eqb_eq. Qed.

Lemma lstrip_blank_app w s : forallb isspace w = true -> lstrip (w ++ s) = lstrip s.
Proof.
  induction w as [|c w IH]; simpl; intros H; [reflexivity|].
  apply andb_true_iff in H as [Hc Hw]. rewrite Hc. auto.
Qed.

Lemma lstrip_blank w : forallb isspace w = true -> lstrip w = [].
Proof.
  intros H. rewrite <- (app_nil_r w). rewrite lstrip_blank_app by exact H. reflexivity.
Qed.

Lemma lstrip_app_keeps s t : lstrip s <> [] -> lstrip (s ++ t) = lstrip s ++ t.
Proof.
  induction s as [|c s IH]; simpl; intros H; [congruence|].
  destruct (isspace c); auto.
Qed.

Lemma lstrip_split s : exists u, forallb isspace u = true /\ s = u ++ lstrip s.
Proof.
  induction s as [|c s [u [Hu Hs]]]; simpl.
  - exists []. auto.
  - destruct (isspace c) eqn:Hc.
    + exists (c :: u). simpl. rewrite Hc, Hu. split; [reflexivity|]. f_equal. exact Hs.
    + exists []. auto.
Qed.

Lemma forallb_rev {A} (f : A -> bool) l : forallb f (rev l) = forallb f l.
Proof.
  induction l as [|a l IH]; simpl; [reflexivity|].
  rewrite forallb_app, IH. simpl. rewrite andb_true_r. apply andb_comm.
Qed.

Lemma rstrip_app_blank s w : forallb isspace w = true -> rstrip (s ++ w) = rstrip s.
Proof.
  intros H. unfold rstrip. rewrite rev_app_distr, lstrip_blank_app; [reflexivity|].
  rewrite forallb_rev. exact H.
Qed.

Lemma rstrip_split s : exists v, forallb isspace v = true /\ s = rstrip s ++ v.
Proof.
  destruct (lstrip_split (rev s)) as [u [Hu Hs]].
  exists (rev u). rewrite forallb_rev. split; [exact Hu|].
  unfold rstrip. rewrite <- rev_app_distr, <- Hs, rev_involutive. reflexivity.
Qed.

Lemma strip_blank_around u s v :
  forallb isspace u = true -> forallb isspace v = true ->
  strip (u ++ s ++ v) = strip s.
Proof.
  intros Hu Hv. unfold strip. rewrite lstrip_blank_app by exact Hu.
  destruct (lstrip s) as [|c r] eqn:E.
  - destruct (lstrip_split s) as [u' [Hu' Hs]]. rewrite E, app_nil_r in Hs. subst u'.
    rewrite lstrip_blank; [reflexivity|].
    rewrite forallb_app, Hu', Hv. reflexivity.
  - rewrite lstrip_app_keeps by (rewrite E; discriminate).
    rewrite E. apply rstrip_app_blank. exact Hv.
Qed.

Lemma strip_split s :
  exists u v, forallb isspace u = true /\ forallb isspace v = true /\
              s = u ++ strip s ++ v.
Proof.
  destruct (lstrip_split s) as [u [Hu Hs]].
  destruct (rstrip_split (lstrip s)) as [v [Hv Hl]].
  exists u, v. repeat split; auto. unfold strip. rewrite <- Hl. exact Hs.
Qed.

Lemma startswith_length old s : startswith old s = true -> List.length old <= List.length s.
Proof.
  revert s. induction old as [|a old IH]; intros [|y s]; simpl; intros H; try lia; try discriminate.
  apply andb_true_iff in H as [_ H]. apply IH in H. lia.
Qed.

Lemma startswith_app old s : startswith old (old ++ s) = true.
Proof.
  induction old as [|a old IH]; simpl; [reflexivity|].
  unfold cp_eqb. rewrite N.eqb_refl. exact IH.
Qed.

Lemma startswith_In old t x : startswith old t = true -> In x old -> In x t.
Proof.
  revert t. induction old as [|a old IH]; intros [|y t]; simpl; intros H Hx;
    try contradiction; try discriminate.
  apply andb_true_iff in H as [Ha H]. apply cp_eqb_eq in Ha. subst y.
  destruct Hx as [->|Hx]; [left; reflexivity|right; eauto].
Qed.

Lemma startswith_sep old c t :
  ~ In c old -> forall s, startswith old (s ++ c :: t) = startswith old s.
Proof.
  induction old as [|a old IH]; intros Hc [|y s]; simpl; try reflexivity.
  - destruct (cp_eqb a c) eqn:E; [|reflexivity].
    apply cp_eqb_eq in E. subst. exfalso. apply Hc. left. reflexivity.
  - rewrite IH; [reflexivity|]. intros H. apply Hc. right. exact H.
Qed.

Lemma last_In (old : pystr) : old <> [] -> In (last old 0%N) old.
Proof.
  induction old as [|a [|b old] IH]; intros H; [congruence|left; reflexivity|].
  right. apply IH. discriminate.
Qed.

Lemma startswith_tail old t :
  old <> [] -> ~ In (last old 0%N) t ->
  forall s, startswith old (s ++ t) = startswith old s.
Proof.
  intros Hold Ht s.
  destruct (startswith old (s ++ t)) eqn:E1; destruct (startswith old s) eqn:E2;
    try reflexivity.
  - exfalso. revert s E1 E2 Hold Ht.
    induction old as [|a old IH]; intros s E1 E2 Hold Ht; [congruence|].
    destruct s as [|y s].
    + apply Ht. eapply startswith_In; [exact E1|]. apply last_In. discriminate.
    + simpl in E1, E2. apply andb_true_iff in E1 as [Ha E1]. rewrite Ha in E2. simpl in E2.
      destruct old as [|b old]; [simpl in E2; discriminate|].
      apply (IH s E1 E2); [discriminate|]. exact Ht.
  - exfalso. revert s E1 E2. clear Hold Ht.
    induction old as [|a old IH]; intros s E1 E2; [simpl in E1; discriminate|].
    destruct s as [|y s]; [simpl in E2; discriminate|].
    simpl in E1, E2. apply andb_true_iff in E2 as [Ha E2]. rewrite Ha in E1. simpl in E1.
    eauto.
Qed.

Lemma replace_scan_here old new c s :
  replace_scan old new 0 (c :: s)
  = if startswith old (c :: s)
    then new ++ replace_scan old new (pred (List.length old)) s
    else c :: replace_scan old new 0 s.
Proof. reflexivity. Qed.

Lemma replace_scan_skip old new t s :
  replace_scan old new (List.length t) (t ++ s) = replace_scan old new 0 s.
Proof.
  induction t as [|c t IH]; simpl; [|exact IH].
  destruct s; reflexivity.
Qed.

(** An occurrence at the start is replaced. *)
Lemma replace_scan_prefix old new s :
  old <> [] ->
  replace_scan old new 0 (old ++ s) = new ++ replace_scan old new 0 s.
Proof.
  intros H. destruct old as [|a r]; [congruence|].
  rewrite <- app_comm_cons, replace_scan_here, app_comm_cons.
  rewrite startswith_app. cbn [List.length pred].
  rewrite replace_scan_skip. reflexivity.
Qed.

(** The scan of [replace] for a pattern that is not empty. *)
Section Replace.

Variables old new : pystr.
Hypothesis old_nonempty : old <> [].

(** A code point that is not in the pattern cuts the scan in two. *)
Lemma replace_scan_sep c t :
  ~ In c old ->
  forall s k, k <= List.length s ->
    replace_scan old new k (s ++ c :: t)
    = replace_scan old new k s ++ c :: replace_scan old new 0 t.
Proof.
  intros Hc. induction s as [|y s IH]; intros k Hk.
  - simpl in Hk. replace k with 0 by lia. cbn [app].
    rewrite replace_scan_here.
    change (c :: t) with ([] ++ c :: t) at 1.
    rewrite startswith_sep by exact Hc.
    destruct old; [congruence|reflexivity].
  - destruct k as [|k]; [|simpl in Hk; simpl; apply IH; lia].
    rewrite <- app_comm_cons, !replace_scan_here, app_comm_cons.
    rewrite startswith_sep by exact Hc.
    destruct (startswith old (y :: s)) eqn:E.
    + apply startswith_length in E. simpl in E.
      rewrite IH by lia. rewrite app_assoc. reflexivity.
    + rewrite IH by lia. reflexivity.
Qed.

(** Nothing is replaced in a text that lacks the last code point of the
    pattern. *)
Lemma replace_scan_none t :
  ~ In (last old 0%N) t -> replace_scan old new 0 t = t.
Proof.
  induction t as [|c t IH]; intros Ht; [reflexivity|].
  rewrite replace_scan_here.
  destruct (startswith old (c :: t)) eqn:E.
  - exfalso. apply Ht. eapply startswith_In; [exact E|].
    apply last_In. exact old_nonempty.
  - rewrite IH; [reflexivity|]. intros H. apply Ht. right. exact H.
Qed.

Lemma replace_scan_tail t :
  ~ In (last old 0%N) t ->
  forall s k, k <= List.length s ->
    replace_scan old new k (s ++ t) = replace_scan old new k s ++ t.
Proof.
  intros Ht. induction s as [|y s IH]; intros k Hk.
  - simpl in Hk. replace k with 0 by lia. apply replace_scan_none. exact Ht.
  - destruct k as [|k]; [|simpl in Hk; simpl; apply IH; lia].
    rewrite <- app_comm_cons, !replace_scan_here, app_comm_cons.
    rewrite startswith_tail by assumption.
    destruct (startswith old (y :: s)) eqn:E.
    + apply startswith_length in E. simpl in E.
      rewrite IH by lia. rewrite app_assoc. reflexivity.
    + rewrite IH by lia. reflexivity.
Qed.

Lemma replace_scan_blank_head w s :
  (forall c, In c w -> ~ In c old) ->
  replace_scan old new 0 (w ++ s) = w ++ replace_scan old new 0 s.
Proof.
  induction w as [|c w IH]; intros Hw; [reflexivity|].
  change ((c :: w) ++ s) with ([] ++ c :: (w ++ s)).
  rewrite replace_scan_sep; [|apply Hw; left; reflexivity|simpl; lia].
  simpl. f_equal. apply IH. intros x Hx. apply Hw. right. exact Hx.
Qed.

End Replace.

(** The closing fence after a text is taken away by the scan for fences. *)
Lemma replace_fence_closing X :
  forall k, k <= List.length X ->
    replace_scan Mapper.fence [] k (X ++ Mapper.fence)
    = replace_scan Mapper.fence [] k X.
Proof.
  rewrite fence_cps.
  induction X as [|c X IH]; intros k Hk.
  - simpl in Hk. replace k with 0 by lia. reflexivity.
  - destruct k as [|k]; [|simpl in Hk; simpl; apply IH; lia].
    destruct X as [|c1 [|c2 X]].
    + cbn [replace_scan startswith app pred List.length].
      destruct (cp_eqb 96 c) eqn:E; cbn [andb]; [|reflexivity].
      apply cp_eqb_eq in E. subst c. reflexivity.
    + cbn [replace_scan startswith app pred List.length].
      destruct (cp_eqb 96 c) eqn:E; destruct (cp_eqb 96 c1) eqn:E1; cbn [andb];
        rewrite ?E1; cbn [andb]; try reflexivity.
      * apply cp_eqb_eq in E, E1. subst. reflexivity.
      * apply cp_eqb_eq in E1. subst. reflexivity.
    + change (replace_scan [96; 96; 96]%N [] 0 ((c :: c1 :: c2 :: X) ++ [96; 96; 96]%N))
        with (if startswith [96; 96; 96]%N (c :: c1 :: c2 :: X)
              then replace_scan [96; 96; 96]%N [] 2 ((c1 :: c2 :: X) ++ [96; 96; 96]%N)
              else c :: replace_scan [96; 96; 96]%N [] 0 ((c1 :: c2 :: X) ++ [96; 96; 96]%N)).
      change (replace_scan [96; 96; 96]%N [] 0 (c :: c1 :: c2 :: X))
        with (if startswith [96; 96; 96]%N (c :: c1 :: c2 :: X)
              then replace_scan [96; 96; 96]%N [] 2 (c1 :: c2 :: X)
              else c :: replace_scan [96; 96; 96]%N [] 0 (c1 :: c2 :: X)).
      destruct (startswith [96; 96; 96]%N (c :: c1 :: c2 :: X)).
      * apply IH. simpl. lia.
      * f_equal. apply IH. simpl. lia.
Qed.


Lemma space_not_in_fence_json c : isspace c = true -> ~ In c fence_json.
Proof.
  intros H Hin. rewrite fence_json_cps in Hin. simpl in Hin.
  repeat (destruct Hin as [<-|Hin]; [vm_compute in H; discriminate|]).
  exact Hin.
Qed.

Lemma space_not_in_fence c : isspace c = true -> ~ In c fence.
Proof.
  intros H Hin. rewrite fence_cps in Hin. simpl in Hin.
  repeat (destruct Hin as [<-|Hin]; [vm_compute in H; discriminate|]).
  exact Hin.
Qed.

Lemma blank_In w c : blank w -> In c w -> isspace c = true.
Proof.
  unfold blank. intros H Hc. rewrite forallb_forall in H. auto.
Qed.

Lemma fence_json_nonempty : fence_json <> [].
Proof. rewrite fence_json_cps. discriminate. Qed.

Lemma fence_nonempty : fence <> [].
Proof. rewrite fence_cps. discriminate. Qed.

(** White space around a text stays where it is when fences are removed. *)
Lemma replace_blank_around old u s v :
  old = fence_json \/ old = fence -> blank u -> blank v ->
  replace old [] (u ++ s ++ v) = u ++ replace old [] s ++ v.
Proof.
  intros Hold Hu Hv.
  assert (Hne : old <> []).
  { destruct Hold as [-> | ->]; [apply fence_json_nonempty|apply fence_nonempty]. }
  assert (Hsp : forall c, isspace c = true -> ~ In c old).
  { destruct Hold as [-> | ->]; [apply space_not_in_fence_json|apply space_not_in_fence]. }
  unfold replace. destruct old as [|a old']; [congruence|].
  rewrite replace_scan_blank_head; [|exact Hne|].
  - f_equal. apply replace_scan_tail; [exact Hne| |lia].
    intros Hin. apply (Hsp (last (a :: old') 0%N)).
    + exact (@blank_In _ _ Hv Hin).
    + apply last_In. exact Hne.
  - intros c Hc. apply Hsp. exact (@blank_In _ _ Hu Hc).
Qed.

Lemma lstrip_nonspace c s : isspace c = false -> lstrip (c :: s) = c :: s.
Proof. intros H. simpl. rewrite H. reflexivity. Qed.

Lemma strip_fenced_block s :
  strip (fence_json ++ s ++ fence) = fence_json ++ s ++ fence.
Proof.
  unfold strip. rewrite fence_json_cps at 1. cbn [app].
  rewrite lstrip_nonspace by reflexivity.
  unfold rstrip.
  change (96 :: 96 :: 96 :: 106 :: 115 :: 111 :: 110 :: s ++ fence)%N
    with (fence_json ++ s ++ fence).
  rewrite !rev_app_distr. rewrite fence_cps at 1. cbn [rev app].
  rewrite lstrip_nonspace by reflexivity.
  change (96 :: 96 :: 96 :: rev s ++ rev fence_json)%N
    with (rev fence ++ rev s ++ rev fence_json).
  rewrite <- !rev_app_distr, rev_involutive, <- app_assoc. reflexivity.
Qed.

Lemma clean_response_blank_around u s v :
  blank u -> blank v -> clean_response (u ++ s ++ v) = clean_response s.
Proof.
  intros Hu Hv. unfold clean_response. rewrite strip_blank_around by assumption.
  reflexivity.
Qed.

Lemma clean_response_strip s : clean_response s
  = strip (replace fence [] (replace fence_json [] s)).
Proof.
  unfold clean_response.
  destruct (strip_split s) as [u [v [Hu [Hv Hs]]]].
  rewrite Hs at 2.
  rewrite !replace_blank_around by auto.
  rewrite strip_blank_around by assumption. reflexivity.
Qed.

(** The clean-up of a fenced block leaves what it leaves of the payload. *)
Lemma clean_response_fenced w0 w1 p w2 w3 :
  blank w0 -> blank w1 -> blank w2 -> blank w3 ->
  clean_response (fenced w0 w1 p w2 w3) = clean_response p.
Proof.
  intros H0 H1 H2 H3. unfold fenced.
  replace (w0 ++ fence_json ++ w1 ++ p ++ w2 ++ fence ++ w3)
    with (w0 ++ (fence_json ++ (w1 ++ p ++ w2) ++ fence) ++ w3)
    by (rewrite <- !app_assoc; reflexivity).
  rewrite clean_response_blank_around by assumption.
  rewrite (clean_response_strip p).
  unfold clean_response. rewrite strip_fenced_block.
  assert (E1 : replace fence_json [] (fence_json ++ (w1 ++ p ++ w2) ++ fence)
               = w1 ++ replace fence_json [] p ++ w2 ++ fence).
  { unfold replace at 1. destruct fence_json as [|a fj] eqn:Efj;
      [exfalso; apply fence_json_nonempty; exact Efj|].
    rewrite <- Efj.
    rewrite replace_scan_prefix by apply fence_json_nonempty. cbn [app].
    rewrite <- !app_assoc.
    rewrite replace_scan_blank_head;
      [|apply fence_json_nonempty
       |intros c Hc; apply space_not_in_fence_json; exact (@blank_In _ _ H1 Hc)].
    f_equal.
    rewrite replace_scan_tail; [|apply fence_json_nonempty| |lia].
    - unfold replace. rewrite Efj. reflexivity.
    - change (last fence_json 0%N) with 110%N. intros Hin.
      apply in_app_or in Hin as [Hin|Hin].
      + apply (@blank_In _ _ H2) in Hin. vm_compute in Hin. discriminate.
      + rewrite fence_cps in Hin. simpl in Hin.
        repeat (destruct Hin as [Hin|Hin]; [discriminate|]). exact Hin. }
  rewrite E1.
  assert (E2 : replace fence [] (w1 ++ replace fence_json [] p ++ w2 ++ fence)
               = w1 ++ replace fence [] (replace fence_json [] p) ++ w2).
  { set (X := replace fence_json [] p).
    unfold replace. destruct fence as [|a f] eqn:Ef;
      [exfalso; apply fence_nonempty; exact Ef|].
    rewrite <- Ef.
    rewrite replace_scan_blank_head;
      [|apply fence_nonempty
       |intros c Hc; apply space_not_in_fence; exact (@blank_In _ _ H1 Hc)].
    f_equal.
    destruct w2 as [|c w2].
    - cbn [app]. rewrite app_nil_r. apply replace_fence_closing. lia.
    - cbn [app]. rewrite replace_scan_sep;
        [|apply fence_nonempty
         |apply space_not_in_fence; apply (@blank_In _ _ H2); left; reflexivity|lia].
      f_equal. f_equal.
      rewrite replace_scan_blank_head;
        [|apply fence_nonempty
         |intros x Hx; apply space_not_in_fence; apply (@blank_In _ _ H2); right; exact Hx].
      rewrite <- (app_nil_r fence) at 2.
      rewrite replace_scan_prefix by apply fence_nonempty.
      rewrite app_nil_r. reflexivity. }
  rewrite E2. apply strip_blank_around; assumption.
Qed.


Lemma on_exception_returns e r : snd (on_exception e r) = Done empty_record.
Proof. destruct e; reflexivity. Qed.

Lemma on_exception_saves_nothing e r : renders (fst (on_exception e r)) = false.
Proof. destruct e; reflexivity. Qed.

(** C1, as amended.  When the service has answered, the cleaned response
    decodes to [parsed_data] and the debug file is written, [parse_content]
    returns [parsed_data] itself, after writing it to the debug file: no
    field is added.  A declared field the response omits is absent from the
    record as well, so that not every declared field is present; read with
    [get] and its default it gives the default. *)
Theorem parse_content_returns_response_as_is W text key response_text parsed_data :
  key <> [] ->
  answered W text key response_text ->
  json_loads W (clean_response response_text) = Done parsed_data ->
  write_json W debug_path parsed_data = None ->
  parse_content W text (Some key)
  = ([FileWritten debug_path parsed_data], Done parsed_data)
  /\ forall d k default,
       parsed_data = JObj d -> In (k, default) schema_defaults ->
       has_key k d = false ->
       all_fields_present parsed_data = false /\ dict_get d k default = default.
Proof.
  intros Hkey Hans Hload Hwrite. split.
  - unfold parse_content. destruct key as [|c key]; [congruence|].
    unfold answered in Hans. rewrite Hans, Hload, Hwrite. reflexivity.
  - intros d k default -> Hin Hk. split.
    + unfold all_fields_present.
      destruct (forallb (fun k0 => has_key k0 d) schema_fields) eqn:E; [|reflexivity].
      rewrite forallb_forall in E. rewrite <- Hk. symmetry. apply E.
      unfold schema_fields. apply (in_map fst) in Hin. exact Hin.
    + unfold dict_get. unfold has_key in Hk.
      destruct (dict_lookup k d); [discriminate|reflexivity].
Qed.

Lemma parse_content_as_is_witness :
  parse_content ann_world (lit "Ann Lee, engineer") (Some (lit "key"))
  = ([FileWritten debug_path ann_record], Done ann_record)
  /\ forall d k default,
       ann_record = JObj d -> In (k, default) schema_defaults ->
       has_key k d = false ->
       all_fields_present ann_record = false /\ dict_get d k default = default.
Proof.
  apply (@parse_content_returns_response_as_is ann_world (lit "Ann Lee, engineer")
           (lit "key") ann_response ann_record).
  - discriminate.
  - reflexivity.
  - vm_compute. reflexivity.
  - reflexivity.
Defined.

(** C1 fails as stated: the response whose only field is [name] conforms
    to the schema, and the record returned for it has the key [name] only;
    [email] and the other declared fields are absent, not filled with
    defaults. *)
Lemma omitted_fields_stay_absent :
  conforms ann_record = true
  /\ parse_content ann_world (lit "Ann Lee, engineer") (Some (lit "key"))
     = ([FileWritten debug_path ann_record], Done ann_record)
  /\ all_fields_present ann_record = false
  /\ has_key (lit "email") (as_dict ann_record) = false.
Proof. vm_compute. repeat split; reflexivity. Qed.

(** When [parse_content] hands back the empty [dict], the script stops at
    [parsed_data['name']]. *)
Lemma main_on_empty_record W key extracted out :
  env_api_key W = Some key -> key <> [] ->
  extracted_text W resume_path = Some extracted -> extracted <> [] ->
  parse_content W extracted (Some key) = (out, Done empty_record) ->
  renders out = false ->
  snd (main W) = Crashed (KeyError (lit "name"))
  /\ renders (fst (main W)) = false.
Proof.
  intros Hk Hkey Hx Hext Hp Hs.
  unfold main. rewrite Hk, Hx.
  destruct key as [|c key]; [congruence|].
  destruct extracted as [|x extracted]; [congruence|].
  rewrite Hp. split; [reflexivity|].
  cbn [fst safe_name index_name empty_record dict_lookup].
  unfold renders in *. rewrite !existsb_app, Hs. reflexivity.
Qed.

Lemma on_exception_eta e r :
  on_exception e r = (fst (on_exception e r), Done empty_record).
Proof. destruct e; reflexivity. Qed.

(** C2, the code at a malformed response.  When the cleaned response does not
    decode, [parse_content] returns the empty [dict]; the script then
    evaluates [parsed_data['name']], which raises [KeyError], and ends there:
    [create_formatted_docx] is not called and no document is saved. *)
Theorem malformed_response_crashes_pipeline W key extracted response_text e :
  env_api_key W = Some key -> key <> [] ->
  extracted_text W resume_path = Some extracted -> extracted <> [] ->
  answered W extracted key response_text ->
  json_loads W (clean_response response_text) = Raised e ->
  snd (parse_content W extracted (Some key)) = Done empty_record
  /\ snd (main W) = Crashed (KeyError (lit "name"))
  /\ renders (fst (main W)) = false.
Proof.
  intros Hk Hkey Hx Hext Hans Hload.
  assert (Hp : parse_content W extracted (Some key)
               = on_exception e response_text).
  { unfold parse_content. destruct key; [congruence|].
    unfold answered in Hans. rewrite Hans, Hload. reflexivity. }
  split; [rewrite Hp; apply on_exception_returns|].
  rewrite on_exception_eta in Hp.
  eapply main_on_empty_record; eauto. apply on_exception_saves_nothing.
Qed.

Lemma malformed_response_crashes_witness :
  snd (parse_content garbage_world (lit "Ann Lee, engineer") (Some (lit "key")))
  = Done empty_record
  /\ snd (main garbage_world) = Crashed (KeyError (lit "name"))
  /\ renders (fst (main garbage_world)) = false.
Proof.
  apply (@malformed_response_crashes_pipeline garbage_world (lit "key")
           (lit "Ann Lee, engineer") garbage_response JSONDecodeError).
  - reflexivity.
  - discriminate.
  - reflexivity.
  - discriminate.
  - reflexivity.
  - vm_compute. reflexivity.
Defined.

(** C3, the code when the debug file cannot be written.  The response has
    been decoded to [parsed_data], writing the file raises, the handler of
    the [try] catches it, and [parse_content] returns the empty [dict]
    instead of [parsed_data]; the script then stops at [parsed_data['name']]
    and saves no document. *)
Theorem debug_write_failure_drops_record W key extracted response_text
  parsed_data e :
  env_api_key W = Some key -> key <> [] ->
  extracted_text W resume_path = Some extracted -> extracted <> [] ->
  answered W extracted key response_text ->
  json_loads W (clean_response response_text) = Done parsed_data ->
  write_json W debug_path parsed_data = Some e ->
  snd (parse_content W extracted (Some key)) = Done empty_record
  /\ snd (main W) = Crashed (KeyError (lit "name"))
  /\ renders (fst (main W)) = false.
Proof.
  intros Hk Hkey Hx Hext Hans Hload Hwrite.
  assert (Hp : parse_content W extracted (Some key)
               = on_exception e response_text).
  { unfold parse_content. destruct key; [congruence|].
    unfold answered in Hans. rewrite Hans, Hload, Hwrite. reflexivity. }
  split; [rewrite Hp; apply on_exception_returns|].
  rewrite on_exception_eta in Hp.
  eapply main_on_empty_record; eauto. apply on_exception_saves_nothing.
Qed.

Lemma debug_write_failure_witness :
  snd (parse_content readonly_world (lit "Ann Lee, engineer") (Some (lit "key")))
  = Done empty_record
  /\ snd (main readonly_world) = Crashed (KeyError (lit "name"))
  /\ renders (fst (main readonly_world)) = false.
Proof.
  apply (@debug_write_failure_drops_record readonly_world (lit "key")
           (lit "Ann Lee, engineer") ann_response ann_record OSError).
  - reflexivity.
  - discriminate.
  - reflexivity.
  - discriminate.
  - reflexivity.
  - vm_compute. reflexivity.
  - reflexivity.
Defined.

(** With the same response and a debug file that can be written, the script
    completes and saves the document of the record. *)
Lemma writable_run_completes :
  snd (parse_content ann_world (lit "Ann Lee, engineer") (Some (lit "key")))
  = Done ann_record
  /\ snd (main ann_world) = Completed
  /\ renders (fst (main ann_world)) = true.
Proof. vm_compute. repeat split; reflexivity. Qed.

(** C4, as amended.  When the cleaned response does not decode,
    [parse_content] does not raise: it prints the error and the raw
    response, writes no debug file, and returns the empty [dict] [{}].
    That record holds none of the declared fields; it is not the record
    that holds every declared field at its default. *)
Theorem invalid_json_gives_empty_record W text key response_text :
  key <> [] ->
  answered W text key response_text ->
  json_loads W (clean_response response_text) = Raised JSONDecodeError ->
  parse_content W text (Some key)
  = ([PrintedExc (cross_mark ++ lit " JSON parsing error:") JSONDecodeError;
      Printed (lit "Raw response from LLM:
 " ++ response_text)],
     Done (JObj []))
  /\ forall record,
       snd (parse_content W text (Some key)) = Done record ->
       (forall k, In k schema_fields -> has_key k (as_dict record) = false)
       /\ all_fields_present record = false
       /\ record <> all_defaults_record.
Proof.
  intros Hkey Hans Hload.
  assert (Hp : parse_content W text (Some key)
               = ([PrintedExc (cross_mark ++ lit " JSON parsing error:")
                     JSONDecodeError;
                   Printed (lit "Raw response from LLM:
 " ++ response_text)],
                  Done (JObj []))).
  { unfold parse_content. destruct key as [|c key]; [congruence|].
    unfold answered in Hans. rewrite Hans, Hload. reflexivity. }
  split; [exact Hp|].
  intros record Hr. rewrite Hp in Hr. cbn [snd] in Hr. inversion Hr; subst record.
  split; [intros k _; reflexivity|]. split; [reflexivity|discriminate].
Qed.

Lemma invalid_json_witness :
  parse_content garbage_world (lit "Ann Lee, engineer") (Some (lit "key"))
  = ([PrintedExc (cross_mark ++ lit " JSON parsing error:") JSONDecodeError;
      Printed (lit "Raw response from LLM:
 " ++ garbage_response)],
     Done (JObj [])).
Proof.
  apply (@invalid_json_gives_empty_record garbage_world (lit "Ann Lee, engineer")
           (lit "key") garbage_response).
  - discriminate.
  - reflexivity.
  - vm_compute. reflexivity.
Defined.

(** C4 fails as stated: for a response that is no JSON, the record
    returned is the empty [dict], in which no declared field is present;
    the record of all defaults has every one of them. *)
Lemma empty_record_is_not_all_defaults :
  json_loads garbage_world (clean_response garbage_response)
  = Raised JSONDecodeError
  /\ snd (parse_content garbage_world (lit "Ann Lee, engineer")
            (Some (lit "key")))
     = Done (JObj [])
  /\ all_fields_present (JObj []) = false
  /\ all_fields_present all_defaults_record = true
  /\ has_key (lit "name") (as_dict all_defaults_record) = true
  /\ has_key (lit "name") [] = false
  /\ JObj [] <> all_defaults_record.
Proof. vm_compute. repeat split; try reflexivity. discriminate. Qed.

(** C5.  A payload [p] wrapped in a fenced code block, with any white space
    around the payload and around the block, is cleaned to the very text [p]
    alone is cleaned to; [json.loads] then sees the same text, and
    [parse_content] returns the same record for the wrapped and the bare
    response. *)
Theorem fenced_response_same_record W text key w0 w1 p w2 w3 :
  blank w0 -> blank w1 -> blank w2 -> blank w3 ->
  clean_response (fenced w0 w1 p w2 w3) = clean_response p
  /\ snd (parse_content (with_response W (fenced w0 w1 p w2 w3)) text key)
     = snd (parse_content (with_response W p) text key)
  /\ forall k v,
       key = Some k -> k <> [] ->
       json_loads W (clean_response p) = Done v ->
       write_json W debug_path v = None ->
       snd (parse_content (with_response W (fenced w0 w1 p w2 w3)) text key)
       = Done v.
Proof.
  intros H0 H1 H2 H3.
  pose proof (clean_response_fenced p H0 H1 H2 H3) as Hc.
  split; [exact Hc|]. split.
  - unfold parse_content. destruct key as [[|c key]|]; try reflexivity.
    cbn [generate with_response read_stream app json_loads write_json].
    rewrite Hc.
    destruct (json_loads W (clean_response p)) as [v|e].
    + destruct (write_json W debug_path v); [|reflexivity].
      rewrite !on_exception_returns. reflexivity.
    + rewrite !on_exception_returns. reflexivity.
  - intros k v -> Hk Hv Hw. unfold parse_content.
    destruct k as [|c k]; [congruence|].
    cbn [generate with_response read_stream app json_loads write_json].
    rewrite Hc, Hv, Hw. reflexivity.
Qed.

Lemma fenced_response_witness :
  clean_response (fenced [] [10%N] ann_response [10%N] [])
  = clean_response ann_response
  /\ snd (parse_content
            (with_response ann_world (fenced [] [10%N] ann_response [10%N] []))
            (lit "Ann Lee, engineer") (Some (lit "key")))
     = Done ann_record.
Proof.
  destruct (@fenced_response_same_record ann_world (lit "Ann Lee, engineer")
              (Some (lit "key")) [] [10%N] ann_response [10%N] [])
    as [Hc [_ Hv]]; try reflexivity.
  split; [exact Hc|].
  apply (Hv (lit "key")).
  - reflexivity.
  - discriminate.
  - vm_compute. reflexivity.
  - reflexivity.
Defined.

Lemma split_scan_blank v :
  blank v -> forall cur, split_scan cur v = split_scan cur [].
Proof.
  unfold blank. induction v as [|c v IH]; intros Hv cur; [reflexivity|].
  simpl in Hv. apply andb_true_iff in Hv as [Hc Hv].
  simpl. rewrite Hc. destruct cur; rewrite IH by exact Hv; reflexivity.
Qed.

Lemma split_scan_app_blank v :
  blank v -> forall s cur, split_scan cur (s ++ v) = split_scan cur s.
Proof.
  intros Hv. induction s as [|c s IH]; intros cur.
  - apply split_scan_blank. exact Hv.
  - simpl. destruct (isspace c); [destruct cur|]; rewrite IH; reflexivity.
Qed.

Lemma split_blank_app u s : blank u -> split (u ++ s) = split s.
Proof.
  unfold blank, split. induction u as [|c u IH]; intros Hu; [reflexivity|].
  simpl in Hu. apply andb_true_iff in Hu as [Hc Hu]. simpl. rewrite Hc. auto.
Qed.

Lemma split_strip s : split (strip s) = split s.
Proof.
  destruct (strip_split s) as [u [v [Hu [Hv Hs]]]].
  rewrite Hs at 2. rewrite split_blank_app by exact Hu.
  unfold split. rewrite split_scan_app_blank by exact Hv. reflexivity.
Qed.

Ltac ranges :=
  unfold is_alnum, ascii_upper, ascii_lower in *;
  unfold is_upper_az, is_lower_az, is_digit, is_ascii in *;
  unfold in_range, cp_eqb in *;
  repeat (first
    [ match goal with
      | |- context [N.leb ?a ?b] => destruct (N.leb_spec a b)
      | |- context [N.ltb ?a ?b] => destruct (N.ltb_spec a b)
      | |- context [N.eqb ?a ?b] => destruct (N.eqb_spec a b)
      end
    | match goal with
      | H : context [N.leb _ _] |- _ => revert H
      | H : context [N.ltb _ _] |- _ => revert H
      | H : context [N.eqb _ _] |- _ => revert H
      end ];
    cbn [andb orb negb] in *);
  intros; try reflexivity; try congruence; try lia.








(** The words of [split] are not empty and are made of the code points read. *)
Lemma split_scan_words s :
  forall cur w, In w (split_scan cur s) ->
    w <> [] /\ forall c, In c w -> In c cur \/ In c s.
Proof.
  induction s as [|c s IH]; intros cur w Hw.
  - simpl in Hw. destruct cur as [|x cur]; [contradiction|].
    destruct Hw as [<-|[]]. split.
    + intros H. apply (f_equal (@rev N)) in H. rewrite rev_involutive in H. discriminate.
    + intros y Hy. left. apply in_rev. exact Hy.
  - simpl in Hw. destruct (isspace c).
    + destruct cur as [|x cur].
      * apply IH in Hw as [Hne Hin]. split; [exact Hne|].
        intros y Hy. destruct (Hin y Hy) as [[]|H]. right. right. exact H.
      * destruct Hw as [<-|Hw].
        -- split.
           ++ intros H. apply (f_equal (@rev N)) in H. rewrite rev_involutive in H. discriminate.
           ++ intros y Hy. left. apply in_rev. exact Hy.
        -- apply IH in Hw as [Hne Hin]. split; [exact Hne|].
           intros y Hy. destruct (Hin y Hy) as [[]|H]. right. right. exact H.
    + apply IH in Hw as [Hne Hin]. split; [exact Hne|].
      intros y Hy. destruct (Hin y Hy) as [[<-|H]|H].
      * right. left. reflexivity.
      * left. exact H.
      * right. right. exact H.
Qed.

Lemma split_words_ascii s w :
  forallb is_ascii s = true -> In w (split s) ->
  w <> [] /\ forallb is_ascii w = true.
Proof.
  intros Hs Hw. apply split_scan_words in Hw as [Hne Hin]. split; [exact Hne|].
  rewrite forallb_forall in *. intros c Hc.
  destruct (Hin c Hc) as [[]|H]. auto.
Qed.

Lemma capwords_ascii W s :
  ascii_faithful W -> forallb is_ascii s = true ->
  capwords W s = join (lit " ") (map ascii_capitalize (split s)).
Proof.
  intros HW Hs. unfold capwords. f_equal. apply map_ext_in.
  intros w Hw. apply HW. eapply split_words_ascii; eauto.
Qed.

Lemma is_ascii_lower c : is_ascii (ascii_lower c) = is_ascii c.
Proof. ranges. Qed.


(* ------------------------------------------------------------------ *)
(** ** Building documents *)

(* ------------------------------------------------------------------ *)
(** ** Text the document stores *)

Lemma store_scan_plain s : xml_plain s = true -> store_scan None s = Done s.
Proof.
  induction s as [|c s IH]; [reflexivity|].
  cbn [xml_plain forallb]. fold (xml_plain s).
  rewrite !andb_true_iff, negb_true_iff. intros [[Hx Hr] Hs].
  cbn [store_scan]. destruct (is_break c) eqn:Hb.
  - rewrite (IH Hs). unfold stored_char. rewrite Hr. reflexivity.
  - assert (Hsur : is_surrogate c = false).
    { unfold xml_char in Hx.
      destruct (is_break c || N.leb 32 c), (is_surrogate c);
        cbn in Hx; try discriminate; reflexivity. }
    unfold piece_state. rewrite Hsur, Hx, (IH Hs). reflexivity.
Qed.

Lemma docx_store_plain s : xml_plain s = true -> docx_store s = Done s.
Proof. apply store_scan_plain. Qed.

Lemma data_cell_plain s : xml_plain s = true -> data_cell s = Done (text_cell s).
Proof. intros H. unfold data_cell. rewrite (docx_store_plain _ H). reflexivity. Qed.

Lemma data_cell_unshaded s c : data_cell s = Done c -> unshaded c.
Proof.
  unfold data_cell. destruct (docx_store s); [|discriminate].
  intros H. inversion H. split; [reflexivity|]. repeat constructor.
Qed.

(** The literals of the program the renderer sets down are stored as they
    are. *)
Lemma literals_stored :
  Forall (fun s => docx_store s = Done s)
    (footer_text :: name_not_found
     :: map lit ["Candidate Strengths"; "Skill Matrix"; "Certifications";
                 "Education"; "Professional Experience"; "Projects"]%string
     ++ headers).
Proof. repeat constructor. Qed.

Lemma append_body_nil d : append_body d [] = d.
Proof. destruct d. unfold append_body. simpl. rewrite app_nil_r. reflexivity. Qed.

Lemma append_body_app d a b :
  append_body (append_body d a) b = append_body d (a ++ b).
Proof. unfold append_body. simpl. rewrite app_assoc. reflexivity. Qed.

Lemma bind_inv {A B : Type} (m : Build A) (k : A -> Build B) d b d'' :
  bind m k d = Done (b, d'') ->
  exists a d', m d = Done (a, d') /\ k a d' = Done (b, d'').
Proof.
  unfold bind. destruct (m d) as [[a d']|e]; [|discriminate]. eauto.
Qed.

Lemma bind_done {A B : Type} (m : Build A) (k : A -> Build B) d a d' :
  m d = Done (a, d') -> bind m k d = k a d'.
Proof. unfold bind. intros ->. reflexivity. Qed.

Lemma emits_ret {A : Type} P (a : A) : emits P (ret a).
Proof.
  intros d a' d' H. inversion H; subst. exists []. rewrite app_nil_r. auto.
Qed.

Lemma emits_lift {A : Type} P (r : result A) : emits P (lift r).
Proof.
  intros d a d' H. unfold lift in H. destruct r; inversion H; subst.
  exists []. rewrite app_nil_r. auto.
Qed.

Lemma emits_add_block (P : block -> Prop) b : P b -> emits P (add_block b).
Proof.
  intros Hb d a d' H. inversion H; subst. exists [b]. auto.
Qed.

Lemma emits_bind {A B : Type} P (m : Build A) (k : A -> Build B) :
  emits P m -> (forall a, emits P (k a)) -> emits P (bind m k).
Proof.
  intros Hm Hk d b d'' H. apply bind_inv in H as [a [d' [H1 H2]]].
  apply Hm in H1 as [bs1 [E1 F1]]. apply Hk in H2 as [bs2 [E2 F2]].
  exists (bs1 ++ bs2). rewrite E2, E1, app_assoc. split; [reflexivity|].
  apply Forall_app. auto.
Qed.

Lemma emits_for_each {A : Type} P (xs : list A) body :
  (forall x, emits P (body x)) -> emits P (for_each xs body).
Proof.
  intros Hb. induction xs as [|x xs IH]; simpl.
  - apply emits_ret.
  - apply emits_bind; auto.
Qed.

Lemma emits_if {A : Type} P (c : bool) (m1 m2 : Build A) :
  emits P m1 -> emits P m2 -> emits P (if c then m1 else m2).
Proof. destruct c; auto. Qed.

(** A loop whose body sets down the blocks [f x] sets down all of them. *)
Lemma for_each_blocks {A : Type} (xs : list A) body (f : A -> list block) :
  (forall x, In x xs -> forall d, body x d = Done (tt, append_body d (f x))) ->
  forall d, for_each xs body d = Done (tt, append_body d (flat_map f xs)).
Proof.
  induction xs as [|x xs IH]; intros Hb d.
  - simpl. rewrite append_body_nil. reflexivity.
  - simpl. unfold bind at 1. rewrite (Hb x (or_introl eq_refl) d).
    rewrite IH by (intros; apply Hb; right; assumption).
    rewrite append_body_app. reflexivity.
Qed.

Lemma skill_rows_unshaded W entries :
  forall rows, skill_rows W entries = Done rows -> Forall (Forall unshaded) rows.
Proof.
  induction entries as [|e entries IH]; intros rows H.
  - inversion H. constructor.
  - simpl in H. destruct (skill_row W e) as [row|] eqn:Er; [|discriminate].
    destruct (skill_rows W entries) as [rows'|]; [|discriminate].
    inversion H; subst. constructor; [|apply IH; reflexivity].
    unfold skill_row, skill_column in Er.
    destruct (py_get e "skills" (JStr [])) as [v1|]; [|discriminate].
    destruct (data_cell (py_str W v1)) as [c1|] eqn:E1; [|discriminate].
    destruct (py_get e "years_experience" (JStr [])) as [v2|]; [|discriminate].
    destruct (data_cell (py_str W v2)) as [c2|] eqn:E2; [|discriminate].
    destruct (py_get e "last_used" (JStr [])) as [v3|]; [|discriminate].
    destruct (data_cell (py_str W v3)) as [c3|] eqn:E3; [|discriminate].
    destruct (py_get e "proficiency" (JStr [])) as [v4|]; [|discriminate].
    destruct (data_cell (py_str W v4)) as [c4|] eqn:E4; [|discriminate].
    inversion Er. repeat constructor; eapply data_cell_unshaded; eassumption.
Qed.

Ltac emit :=
  repeat first
    [ apply emits_bind; [|intros ?]
    | apply emits_for_each; intros ?
    | apply emits_lift
    | apply emits_ret
    | apply emits_if
    | apply emits_add_block; exact I ].

Lemma build_skill_matrix_emits W pd : emits matrix_shaped (build_skill_matrix W pd).
Proof.
  unfold build_skill_matrix. apply emits_bind; [apply emits_lift|]. intros entries.
  destruct entries as [|e entries]; [apply emits_ret|].
  intros d a d' H. apply bind_inv in H as [rows [d1 [H1 H2]]].
  unfold lift in H1. destruct (skill_rows W (e :: entries)) as [rows'|] eqn:E; [|discriminate].
  inversion H1; subst. inversion H2; subst.
  eexists. split; [reflexivity|]. constructor; [|constructor].
  simpl. eexists. split; [reflexivity|]. eapply skill_rows_unshaded. exact E.
Qed.

Lemma add_text_paragraph_emits W text style format :
  emits matrix_shaped (add_text_paragraph W text style format).
Proof. unfold add_text_paragraph. emit. Qed.

Lemma add_entries_emits pd key heading entry :
  (forall x, emits matrix_shaped (entry x)) ->
  emits matrix_shaped (add_entries pd key heading entry).
Proof. intros H. unfold add_entries, add_section_heading. emit. apply H. Qed.

Lemma add_experience_emits W x : emits matrix_shaped (add_experience W x).
Proof. unfold add_experience, add_bullet. emit. Qed.

Lemma add_labelled_emits W proj key label :
  emits matrix_shaped (add_labelled W proj key label).
Proof. unfold add_labelled. emit. Qed.

Lemma add_project_emits W x : emits matrix_shaped (add_project W x).
Proof.
  unfold add_project, add_bullet.
  emit.
Qed.

Lemma add_certification_emits W x : emits matrix_shaped (add_certification W x).
Proof. unfold add_certification. emit. Qed.

Lemma add_education_emits W x : emits matrix_shaped (add_education W x).
Proof. unfold add_education. emit. Qed.

Lemma add_name_emits W pd : emits matrix_shaped (add_name W pd).
Proof.
  unfold add_name. apply emits_bind; [apply emits_lift|]. intros v.
  destruct v; emit.
Qed.

Lemma add_contacts_emits W pd : emits matrix_shaped (add_contacts W pd).
Proof. unfold add_contacts, add_contact. emit. Qed.

Lemma add_summary_emits W pd : emits matrix_shaped (add_summary W pd).
Proof.
  unfold add_summary, add_section_heading. emit.
Qed.

Lemma add_footer_run_emits r : emits matrix_shaped (add_footer_run r).
Proof.
  intros d a d' H. inversion H; subst. exists []. simpl. rewrite app_nil_r. auto.
Qed.

Lemma add_logo_emits W lp : emits matrix_shaped (add_logo_top_right W lp).
Proof. unfold add_logo_top_right. emit. Qed.

Lemma build_document_emits W pd lp : emits matrix_shaped (build_document W pd lp).
Proof.
  unfold build_document.
  repeat (apply emits_bind; [|intros _]);
    first [ apply add_logo_emits | apply add_footer_run_emits | apply add_name_emits
          | apply add_contacts_emits | apply add_summary_emits
          | apply build_skill_matrix_emits
          | apply add_entries_emits; intros ?;
            first [ apply add_certification_emits | apply add_education_emits
                  | apply add_experience_emits | apply add_project_emits ]
          | unfold add_section_heading; emit ].
Qed.

Lemma rendered_tables W pd lp doc :
  rendered W pd lp = Done doc -> Forall matrix_shaped (doc_body doc).
Proof.
  unfold rendered. intros H.
  destruct (build_document W pd lp new_document) as [[u d]|] eqn:E; [|discriminate].
  inversion H; subst.
  apply build_document_emits in E as [bs [E F]]. rewrite E. exact F.
Qed.

Lemma skill_row_dict W d :
  row_plain W (JObj d) -> skill_row W (JObj d) = Done (entry_row W d).
Proof.
  unfold row_plain, entry_texts. cbn [as_dict forallb].
  rewrite !andb_true_iff. intros (H1 & H2 & H3 & H4 & _).
  unfold skill_row, skill_column. cbn [py_get].
  change (py_str W) with (text_of W).
  rewrite !data_cell_plain by assumption. reflexivity.
Qed.

Lemma skill_rows_dicts W entries :
  Forall is_dict entries -> Forall (row_plain W) entries ->
  skill_rows W entries = Done (map (fun e => entry_row W (as_dict e)) entries).
Proof.
  induction 1 as [|e entries [d ->] _ IH]; [reflexivity|].
  intros Hp. inversion Hp; subst.
  cbn [skill_rows map as_dict]. rewrite skill_row_dict, IH by assumption.
  reflexivity.
Qed.

Lemma skill_rows_generated W skills :
  Forall (value_plain W) skills ->
  skill_rows W (map skill_entry skills) = Done (map (generated_row W) skills).
Proof.
  induction 1 as [|s skills Hs _ IH]; [reflexivity|].
  cbn [skill_rows map]. rewrite IH.
  unfold skill_row, skill_column, skill_entry. cbn.
  change (py_str W s) with (text_of W s).
  rewrite (data_cell_plain _ Hs). reflexivity.
Qed.

Lemma Forall_firstn {A : Type} (P : A -> Prop) n l :
  Forall P l -> Forall P (firstn n l).
Proof.
  intros H. revert n. induction H; intros [|n]; simpl; constructor; auto.
Qed.

Lemma build_from_entries W pd entries rows doc :
  matrix_entries pd = Done entries -> entries <> [] ->
  skill_rows W entries = Done rows ->
  build_skill_matrix W pd doc = Done (tt, append_body doc [skill_table rows]).
Proof.
  intros He Hne Hr. unfold build_skill_matrix. rewrite He.
  destruct entries as [|e entries]; [congruence|].
  cbn [lift bind]. rewrite Hr. reflexivity.
Qed.

Ltac step H :=
  let u := fresh "u" in
  let d := fresh "d" in
  let H1 := fresh "S" in
  apply bind_inv in H as [u [d [H1 H]]]; destruct u.






(** The table of fifteen entries, set out: the header and ten rows, the
    first ten entries in their order. *)
Lemma fifteen_entries_ten_rows :
  exists doc t,
    rendered ann_world matrix_record logo_path = Done doc
    /\ In (Table t) (doc_body doc)
    /\ map (fun r => hd [] (row_texts r)) (data_rows t)
       = map lit ["s01"; "s02"; "s03"; "s04"; "s05";
                  "s06"; "s07"; "s08"; "s09"; "s10"]%string.
Proof.
  eexists. eexists. split; [vm_compute; reflexivity|].
  split; [right; right; left; reflexivity|]. vm_compute. reflexivity.
Qed.

(** C7, as amended.  Every table of a rendered document starts with the
    header row Area, Years, Latest 3 Clients Used, Level; its cells have the
    fill 5A2A82 and bold white text, the cells of the rows under it have no
    fill and no colour. *)
Theorem skill_matrix_header W parsed_data logo doc t :
  rendered W parsed_data logo = Done doc ->
  In (Table t) (doc_body doc) ->
  exists header rows,
    table_rows t = header :: rows
    /\ row_texts header
       = [lit "Area"; lit "Years"; lit "Latest 3 Clients Used"; lit "Level"]
    /\ Forall header_formatted header
    /\ Forall (Forall unshaded) rows.
Proof.
  intros Hr Hin. apply rendered_tables in Hr.
  rewrite Forall_forall in Hr. apply Hr in Hin. destruct Hin as [rows [Ht Hu]].
  exists (map header_cell headers), rows. split; [exact Ht|].
  split; [reflexivity|]. split; [|exact Hu].
  repeat constructor.
Qed.

Lemma skill_matrix_header_witness :
  exists header rows,
    table_rows (mkTable (Some (lit "Table Grid"))
                  (map header_cell headers
                   :: map (generated_row ann_world) [jstr "Rocq"; jstr "Python"]))
    = header :: rows
    /\ row_texts header
       = [lit "Area"; lit "Years"; lit "Latest 3 Clients Used"; lit "Level"]
    /\ Forall header_formatted header
    /\ Forall (Forall unshaded) rows.
Proof.
  eapply (@skill_matrix_header ann_world skills_record logo_path).
  - vm_compute. reflexivity.
  - cbn. right. right. left. reflexivity.
Defined.

(** C7 fails as stated: the third label of the header row is
    [Latest 3 Clients Used], not [Latest Clients Used]. *)
Lemma header_is_not_latest_clients_used :
  exists doc t,
    rendered ann_world skills_record logo_path = Done doc
    /\ In (Table t) (doc_body doc)
    /\ row_texts (hd [] (table_rows t))
       = [lit "Area"; lit "Years"; lit "Latest 3 Clients Used"; lit "Level"]
    /\ row_texts (hd [] (table_rows t))
       <> [lit "Area"; lit "Years"; lit "Latest Clients Used"; lit "Level"].
Proof.
  eexists. eexists. split; [vm_compute; reflexivity|].
  split; [right; right; left; reflexivity|].
  split; [reflexivity|]. vm_compute. discriminate.
Qed.

Lemma add_text_paragraph_str W s style format d :
  s <> [] -> xml_plain s = true ->
  add_text_paragraph W (JStr s) style format d
  = Done (tt, append_body d [Para (mkPara None style [format (plain_run s)])]).
Proof.
  intros Hs Hp. unfold add_text_paragraph.
  destruct s; [congruence|]. cbn [truthy run_text_of]. unfold bind, lift.
  rewrite (docx_store_plain _ Hp). reflexivity.
Qed.

Lemma add_bullet_point W p d :
  is_point p = true -> xml_plain (point_text p) = true ->
  add_bullet W p d = Done (tt, append_body d [bullet_line (point_text p)]).
Proof.
  destruct p as [| | | |s| |]; try discriminate.
  intros Hs Hp. cbn [point_text] in Hp. unfold add_bullet.
  rewrite add_text_paragraph_str; [reflexivity| |exact Hp].
  destruct s; discriminate.
Qed.

Lemma flat_map_single {A B : Type} (f : A -> B) l :
  flat_map (fun x => [f x]) l = map f l.
Proof. induction l; simpl; congruence. Qed.

Lemma header_text_nonempty W e : header_text W e <> [].
Proof. unfold header_text. destruct (text_of W _); discriminate. Qed.

Lemma add_experience_blocks W exp d :
  experience_ok exp -> experience_plain W exp ->
  add_experience W exp d
  = Done (tt, append_body d (experience_blocks W "Description" exp)).
Proof.
  intros [e [points [-> [Hd Hp]]]] [Hh Hx].
  unfold add_experience, experience_blocks. cbn [py_get lift bind as_dict] in *.
  erewrite bind_done
    by (apply add_text_paragraph_str;
        [apply (header_text_nonempty W e)|exact Hh]).
  unfold points_of in *. rewrite Hd in *. unfold bind, lift. cbn [py_iter].
  rewrite (for_each_blocks points (add_bullet W)
             (fun p => [bullet_line (point_text p)])).
  - rewrite append_body_app, flat_map_single. reflexivity.
  - intros p Hin d'. rewrite forallb_forall in Hp, Hx.
    apply add_bullet_point; auto.
Qed.

(** C9, as amended.  For a non-empty [experience] list of entries whose
    [Description] (the key has a capital D) is a list of non-empty strings,
    and whose texts the document stores as they are, the section is the
    heading, then for each entry in order the bold line
    [job_title - company (start_date - end_date)] and one bullet for each
    point of [Description], in order; these blocks stand together in the
    rendered document. *)
Theorem experience_section W d entries doc :
  dict_get d (lit "experience") JNull = JArr entries ->
  entries <> [] ->
  Forall experience_ok entries ->
  Forall (experience_plain W) entries ->
  let blocks :=
    heading_line (lit "Professional Experience")
    :: flat_map (experience_blocks W "Description") entries in
  add_entries (JObj d) "experience" "Professional Experience"
    (add_experience W) doc
  = Done (tt, append_body doc blocks)
  /\ forall logo final,
       rendered W (JObj d) logo = Done final ->
       exists before after, doc_body final = before ++ blocks ++ after.
Proof.
  intros Hget Hne Hok Hplain blocks.
  assert (Hsec : forall doc',
            add_entries (JObj d) "experience" "Professional Experience"
              (add_experience W) doc' = Done (tt, append_body doc' blocks)).
  { intros doc'. unfold add_entries. cbn [py_get lift bind]. rewrite Hget.
    destruct entries as [|x entries]; [congruence|].
    cbn [truthy py_iter add_section_heading add_block bind lift].
    rewrite (for_each_blocks (x :: entries) (add_experience W)
               (experience_blocks W "Description")).
    - unfold blocks, append_body. cbn [doc_body doc_footer].
      rewrite <- app_assoc. reflexivity.
    - intros y Hy d'. rewrite Forall_forall in Hok, Hplain.
      apply add_experience_blocks; auto. }
  split; [apply Hsec|].
  intros logo final Hr. unfold rendered in Hr.
  destruct (build_document W (JObj d) logo new_document) as [[u d']|] eqn:E;
    [|discriminate].
  inversion Hr; subst d'. clear Hr. unfold build_document in E.
  do 9 step E. step E.
  rewrite Hsec in S8. inversion S8; subst.
  apply (@add_entries_emits (JObj d) "projects" "Projects" (add_project W))
    in E as [after [Ea _]]; [|intros ?; apply add_project_emits].
  exists (doc_body d8), after. rewrite Ea. cbn [append_body doc_body].
  rewrite <- app_assoc. reflexivity.
Qed.

Lemma experience_section_witness :
  add_entries (experience_record "Description") "experience"
    "Professional Experience" (add_experience ann_world) new_document
  = Done (tt, append_body new_document
                [heading_line (lit "Professional Experience");
                 bold_line (lit "Engineer - Acme (2020 - Present)");
                 bullet_line (lit "Built the parser");
                 bullet_line (lit "Led the team")]).
Proof.
  apply (@experience_section ann_world (as_dict (experience_record "Description"))
           [job "Description"] new_document).
  - reflexivity.
  - discriminate.
  - repeat constructor. eexists. eexists.
    split; [reflexivity|]. split; reflexivity.
  - repeat constructor.
Defined.

(** C9 fails as stated: for an entry that holds its points under the key
    [description] of the data model, the renderer sets down the bold line
    and no bullet. *)
Lemma lowercase_description_gets_no_bullets :
  rendered ann_world (experience_record "description") logo_path
  = Done (mkDoc
            [mkRun footer_text true (Some 10%N) (Some false) (Some false) None]
            [name_line (lit "Name Not Found");
             heading_line (lit "Skill Matrix");
             heading_line (lit "Professional Experience");
             bold_line (lit "Engineer - Acme (2020 - Present)")])
  /\ experience_blocks ann_world "description" (job "description")
     = [bold_line (lit "Engineer - Acme (2020 - Present)");
        bullet_line (lit "Built the parser");
        bullet_line (lit "Led the team")].
Proof. split; vm_compute; reflexivity. Qed.

Lemma capwords_name_not_found W :
  ascii_faithful W -> capwords W name_not_found = lit "Name Not Found".
Proof.
  intros HW. rewrite capwords_ascii by (exact HW || reflexivity).
  vm_compute. reflexivity.
Qed.

Lemma add_name_of W d name doc :
  dict_get d (lit "name") (JStr name_not_found) = JStr name ->
  xml_plain (capwords W name) = true ->
  add_name W (JObj d) doc
  = Done (tt, append_body doc [name_line (capwords W name)]).
Proof.
  intros H Hp. unfold add_name. cbn [py_get]. unfold bind, lift. rewrite H.
  assert (E : capwords W (strip name) = capwords W name)
    by (unfold capwords; rewrite split_strip; reflexivity).
  rewrite E, (docx_store_plain _ Hp). reflexivity.
Qed.

(** C10.  For a record without the key [name], the name line is the
    centered line [Name Not Found], and it stands in the rendered document
    first, or second after the logo. *)
Theorem missing_name_fallback W d doc :
  ascii_faithful W ->
  dict_lookup (lit "name") d = None ->
  add_name W (JObj d) doc
  = Done (tt, append_body doc [name_line (lit "Name Not Found")])
  /\ forall logo final,
       rendered W (JObj d) logo = Done final ->
       exists before after,
         doc_body final = before ++ name_line (lit "Name Not Found") :: after
         /\ (before = [] \/ before = [LogoTable logo]).
Proof.
  intros HW Hn.
  assert (Hname : forall doc',
            add_name W (JObj d) doc'
            = Done (tt, append_body doc' [name_line (lit "Name Not Found")])).
  { intros doc'. rewrite (@add_name_of W d name_not_found).
    - rewrite capwords_name_not_found by exact HW. reflexivity.
    - unfold dict_get. rewrite Hn. reflexivity.
    - rewrite capwords_name_not_found by exact HW. reflexivity. }
  split; [apply Hname|].
  intros logo final Hr. unfold rendered in Hr.
  destruct (build_document W (JObj d) logo new_document) as [[u d']|] eqn:E;
    [|discriminate].
  inversion Hr; subst d'. clear Hr. unfold build_document in E.
  do 2 step E. step E.
  rewrite Hname in S1. inversion S1; subst. clear S1.
  assert (Hrest : exists after,
            doc_body final
            = doc_body (append_body d1 [name_line (lit "Name Not Found")])
              ++ after).
  { revert E.
    match goal with
    | |- ?m _ = _ -> _ =>
        assert (Hm : emits matrix_shaped m)
    end.
    { repeat (apply emits_bind; [|intros _]);
        first [ apply add_contacts_emits | apply add_summary_emits
              | apply build_skill_matrix_emits
              | apply add_entries_emits; intros ?;
                first [ apply add_certification_emits | apply add_education_emits
                      | apply add_experience_emits | apply add_project_emits ]
              | unfold add_section_heading; emit ]. }
    intros E. apply Hm in E as [after [Ea _]]. exists after. exact Ea. }
  destruct Hrest as [after Ha].
  exists (doc_body d1), after. split.
  - rewrite Ha. cbn [append_body doc_body]. rewrite <- app_assoc. reflexivity.
  - inversion S0; subst. cbn [doc_body].
    unfold add_logo_top_right in S.
    destruct (path_exists W logo); inversion S; subst; cbn; auto.
Qed.

Lemma missing_name_fallback_witness :
  add_name ann_world (JObj []) new_document
  = Done (tt, append_body new_document [name_line (lit "Name Not Found")]).
Proof.
  apply (@missing_name_fallback ann_world [] new_document).
  - intros w _. reflexivity.
  - reflexivity.
Defined.








(* ================================================================== *)
(** * Further facts *)
(* ================================================================== *)

Import Extractor More.

(* ------------------------------------------------------------------ *)
(** ** More on strings *)

Lemma str_eqb_eq a b : str_eqb a b = true <-> a = b.
Proof.
  revert b. induction a as [|x a IH]; intros [|y b]; simpl; split; intros H;
    try reflexivity; try discriminate.
  - apply andb_true_iff in H as [H1 H2]. apply cp_eqb_eq in H1. apply IH in H2.
    congruence.
  - inversion H; subst. apply andb_true_iff. split.
    + apply cp_eqb_eq. reflexivity.
    + apply IH. reflexivity.
Qed.

Lemma strip_idempotent s : strip (strip s) = strip s.
Proof.
  destruct (strip_split s) as [u [v [Hu [Hv Hs]]]].
  rewrite Hs at 2. symmetry. apply strip_blank_around; assumption.
Qed.

Lemma startswith_app_r p s v : startswith p s = true -> startswith p (s ++ v) = true.
Proof.
  revert s. induction p as [|a p IH]; intros [|y s] H; simpl in *;
    try reflexivity; try discriminate.
  apply andb_true_iff in H as [H1 H2]. rewrite H1. simpl. auto.
Qed.

Lemma occurs_app_r p s v : occurs p s = true -> occurs p (s ++ v) = true.
Proof.
  induction s as [|c s IH]; intros H.
  - simpl in H. rewrite orb_false_r in H.
    destruct p; [|discriminate]. destruct v; reflexivity.
  - cbn [occurs] in H. apply orb_true_iff in H as [H|H].
    + cbn [app occurs].
      change (c :: s ++ v) with ((c :: s) ++ v).
      rewrite (startswith_app_r _ _ v H). reflexivity.
    + cbn [app occurs]. rewrite (IH H). apply orb_true_r.
Qed.

Lemma occurs_app_l p u s : occurs p s = true -> occurs p (u ++ s) = true.
Proof.
  intros H. induction u as [|c u IH]; [exact H|].
  cbn [app occurs]. rewrite IH. apply orb_true_r.
Qed.

Lemma occurs_strip p s : occurs p (strip s) = true -> occurs p s = true.
Proof.
  intros H. destruct (strip_split s) as [u [v [_ [_ Hs]]]]. rewrite Hs.
  apply occurs_app_l, occurs_app_r, H.
Qed.

(** Nothing is replaced where the pattern does not occur. *)
Lemma replace_scan_absent old new s :
  occurs old s = false -> replace_scan old new 0 s = s.
Proof.
  induction s as [|c s IH]; intros H; [reflexivity|].
  cbn [occurs] in H. apply orb_false_iff in H as [H1 H2].
  rewrite replace_scan_here, H1, (IH H2). reflexivity.
Qed.

Lemma startswith_fence_json_fence s :
  startswith fence_json s = true -> startswith fence s = true.
Proof.
  rewrite fence_json_cps, fence_cps.
  destruct s as [|a [|b [|c s]]]; cbn [startswith]; intros H;
    try discriminate;
    repeat (apply andb_true_iff in H as [? H]); try discriminate.
  repeat match goal with K : cp_eqb _ _ = true |- _ => rewrite K; clear K end.
  reflexivity.
Qed.

Lemma occurs_fence_json_fence s :
  occurs fence s = false -> occurs fence_json s = false.
Proof.
  induction s as [|c s IH]; intros H.
  - reflexivity.
  - cbn [occurs] in *. apply orb_false_iff in H as [H1 H2].
    rewrite (IH H2), orb_false_r.
    destruct (startswith fence_json (c :: s)) eqn:E; [|reflexivity].
    apply startswith_fence_json_fence in E. congruence.
Qed.

Lemma startswith_cons a p c s :
  startswith (a :: p) (c :: s) = cp_eqb a c && startswith p s.
Proof. reflexivity. Qed.

Lemma startswith_fence c s :
  startswith fence (c :: s) = cp_eqb 96 c && startswith [96; 96]%N s.
Proof. reflexivity. Qed.

(** What is left of a text once the fences are taken out starts with two
    backticks only if the text does. *)
Lemma replace_fence_two_ticks s :
  startswith [96; 96]%N (replace_scan fence [] 0 s) = true ->
  startswith [96; 96]%N s = true.
Proof.
  destruct s as [|a s]; [intros H; exact H|].
  rewrite replace_scan_here.
  destruct (startswith fence (a :: s)) eqn:E.
  - intros _. rewrite startswith_fence in E.
    apply andb_true_iff in E as [Ea E].
    destruct s as [|b s]; [discriminate|].
    rewrite !startswith_cons in *. apply andb_true_iff in E as [Eb _].
    rewrite Ea, Eb. reflexivity.
  - clear E. rewrite !startswith_cons. intros H.
    apply andb_true_iff in H as [Ha H]. rewrite Ha. cbn [andb].
    destruct s as [|b s]; [discriminate|].
    rewrite startswith_cons.
    destruct (cp_eqb 96 b) eqn:Eb; [reflexivity|].
    rewrite replace_scan_here, startswith_fence, Eb in H. cbn [andb] in H.
    rewrite startswith_cons, Eb in H. discriminate.
Qed.

(** No fence is left where the fences have been taken out. *)
Lemma replace_fence_leaves_none s :
  forall k, occurs fence (replace_scan fence [] k s) = false.
Proof.
  induction s as [|c s IH]; intros k; [destruct k; reflexivity|].
  destruct k as [|k]; [|apply IH].
  rewrite replace_scan_here.
  destruct (startswith fence (c :: s)) eqn:E; [apply IH|].
  cbn [occurs]. rewrite IH, orb_false_r.
  destruct (startswith fence (c :: replace_scan fence [] 0 s)) eqn:E'; [|reflexivity].
  exfalso. rewrite startswith_fence in E, E'.
  apply andb_true_iff in E' as [Ec H2].
  rewrite Ec in E. cbn [andb] in E.
  apply replace_fence_two_ticks in H2. congruence.
Qed.

Lemma replace_as_scan old new s :
  old <> [] -> replace old new s = replace_scan old new 0 s.
Proof. destruct old; [congruence|reflexivity]. Qed.

Lemma clean_response_no_fence s : occurs fence (clean_response s) = false.
Proof.
  unfold clean_response.
  destruct (occurs fence (strip (replace fence [] (replace fence_json [] (strip s)))))
    eqn:E; [|reflexivity].
  apply occurs_strip in E. rewrite replace_as_scan in E by apply fence_nonempty.
  rewrite replace_fence_leaves_none in E. discriminate.
Qed.

Lemma clean_response_fixed s :
  occurs fence s = false -> strip s = s -> clean_response s = s.
Proof.
  intros Hf Hs. unfold clean_response. rewrite Hs.
  assert (H1 : replace fence_json [] s = s).
  { rewrite replace_as_scan by apply fence_json_nonempty.
    apply replace_scan_absent, occurs_fence_json_fence, Hf. }
  assert (H2 : replace fence [] s = s).
  { rewrite replace_as_scan by apply fence_nonempty.
    apply replace_scan_absent, Hf. }
  rewrite H1, H2. exact Hs.
Qed.

Lemma occurs_absent p s :
  match p with [] => False | a :: _ => ~ In a s end -> occurs p s = false.
Proof.
  destruct p as [|a p]; [contradiction|].
  induction s as [|c s IH]; intros H; [reflexivity|].
  cbn [occurs]. rewrite startswith_cons.
  destruct (cp_eqb a c) eqn:E.
  - apply cp_eqb_eq in E. subst. exfalso. apply H. left. reflexivity.
  - cbn [andb orb]. apply IH. intros K. apply H. right. exact K.
Qed.

(* ------------------------------------------------------------------ *)
(** ** More on the mapper *)

(** X1.  The clean-up leaves no fence in the text, leaves no white space
    around it, and is idempotent. *)
Theorem clean_response_idempotent s :
  occurs fence (clean_response s) = false
  /\ occurs fence_json (clean_response s) = false
  /\ strip (clean_response s) = clean_response s
  /\ clean_response (clean_response s) = clean_response s.
Proof.
  pose proof (clean_response_no_fence s) as Hf.
  assert (Hs : strip (clean_response s) = clean_response s).
  { unfold clean_response. apply strip_idempotent. }
  repeat split.
  - exact Hf.
  - apply occurs_fence_json_fence, Hf.
  - exact Hs.
  - apply clean_response_fixed; assumption.
Qed.

Lemma replace_scan_no_head old new a t :
  match old with [] => False | x :: _ => ~ In x a end ->
  replace_scan old new 0 (a ++ t) = a ++ replace_scan old new 0 t.
Proof.
  destruct old as [|x old]; [contradiction|].
  induction a as [|c a IH]; intros H; [reflexivity|].
  rewrite <- app_comm_cons, replace_scan_here, startswith_cons.
  destruct (cp_eqb x c) eqn:E.
  - apply cp_eqb_eq in E. subst. exfalso. apply H. left. reflexivity.
  - cbn [andb]. rewrite IH; [reflexivity|]. intros K. apply H. right. exact K.
Qed.

(** X2.  A response without a backtick is only stripped; the marker that
    opens a fenced block is taken out wherever it stands in the text, not
    only around the payload. *)
Theorem clean_response_backticks a b :
  ~ In 96%N a -> ~ In 96%N b ->
  clean_response a = strip a
  /\ clean_response (a ++ fence_json ++ b) = strip (a ++ b).
Proof.
  intros Ha Hb.
  assert (Hplain : forall s, ~ In 96%N s ->
            replace fence [] (replace fence_json [] s) = s).
  { intros s Hs.
    rewrite (replace_as_scan _ _ fence_json_nonempty).
    rewrite (replace_as_scan _ _ fence_nonempty).
    rewrite (replace_scan_absent fence_json) by (apply occurs_absent; exact Hs).
    apply replace_scan_absent. apply occurs_absent. exact Hs. }
  split.
  - rewrite clean_response_strip, Hplain by exact Ha. reflexivity.
  - rewrite clean_response_strip.
    assert (H1 : replace fence_json [] (a ++ fence_json ++ b) = a ++ b).
    { rewrite (replace_as_scan _ _ fence_json_nonempty).
      rewrite replace_scan_no_head by exact Ha.
      rewrite replace_scan_prefix by apply fence_json_nonempty.
      rewrite replace_scan_absent by (apply occurs_absent; exact Hb).
      reflexivity. }
    rewrite H1.
    assert (Hab : ~ In 96%N (a ++ b)).
    { intros K. apply in_app_or in K as [K|K]; auto. }
    rewrite (replace_as_scan _ _ fence_nonempty).
    rewrite replace_scan_absent by (apply occurs_absent; exact Hab).
    reflexivity.
Qed.

Lemma clean_response_backticks_witness :
  clean_response (lit " [1, 2] ") = lit "[1, 2]"
  /\ clean_response (lit "[1, " ++ fence_json ++ lit "2]") = lit "[1, 2]".
Proof.
  destruct (@clean_response_backticks (lit " [1, 2] ") []) as [H1 _].
  - vm_compute. intuition discriminate.
  - intros [].
  - destruct (@clean_response_backticks (lit "[1, ") (lit "2]")) as [_ H2].
    + vm_compute. intuition discriminate.
    + vm_compute. intuition discriminate.
    + split; [rewrite H1|rewrite H2]; vm_compute; reflexivity.
Defined.




Lemma read_stream_chunked texts rest :
  forall acc,
    read_stream acc (chunked texts rest)
    = read_stream (acc ++ List.concat texts) rest.
Proof.
  induction texts as [|t texts IH]; intros acc; simpl.
  - rewrite app_nil_r. reflexivity.
  - rewrite IH, app_assoc. reflexivity.
Qed.

(** X4.  How the service cuts its answer into chunks does not matter: the
    chunks are joined in order, and [parse_content] does with them what it
    does with the same text received in one piece. *)
Theorem chunking_is_immaterial W text api_key texts :
  parse_content (with_stream W (chunked texts StreamEnd)) text api_key
  = parse_content (with_response W (List.concat texts)) text api_key.
Proof.
  unfold parse_content. destruct api_key as [[|c key]|]; try reflexivity.
  cbn [generate with_stream with_response].
  rewrite read_stream_chunked. reflexivity.
Qed.

(** X5.  A stream that breaks, by a chunk without text or by an exception
    of the client, makes [parse_content] give up what it has received: it
    prints the error and returns the empty [dict] without parsing, whatever
    the chunks read so far hold; the script then stops at
    [parsed_data['name']] and saves nothing.  The error is printed as an
    error of the service, except for an exception of the class
    [JSONDecodeError], which the first handler takes: it is printed as a
    JSON parsing error, followed by the text received so far. *)
Theorem broken_stream_gives_empty_record W text key texts rest e broken raised :
  key <> [] ->
  (broken = StreamChunk None rest /\ raised = TypeError)
  \/ (broken = StreamError e /\ raised = e) ->
  let W' := with_stream W (chunked texts broken) in
  parse_content W' text (Some key)
  = (match raised with
     | JSONDecodeError =>
         [PrintedExc (cross_mark ++ lit " JSON parsing error:") raised;
          Printed (lit "Raw response from LLM:
 " ++ List.concat texts)]
     | _ => [PrintedExc (cross_mark ++ lit " Error calling Gemini API:") raised]
     end,
     Done (JObj []))
  /\ (env_api_key W = Some key ->
      extracted_text W resume_path = Some text -> text <> [] ->
      snd (main W') = Crashed (KeyError (lit "name"))
      /\ renders (fst (main W')) = false).
Proof.
  intros Hkey Hcase W'.
  assert (Hp : parse_content W' text (Some key)
               = on_exception raised (List.concat texts)).
  { unfold parse_content, W'. destruct key as [|c key]; [congruence|].
    cbn [generate with_stream]. rewrite read_stream_chunked.
    destruct Hcase as [[-> ->]|[-> ->]]; reflexivity. }
  split.
  - rewrite Hp. destruct raised; reflexivity.
  - intros Hk Hx Ht. rewrite on_exception_eta in Hp.
    eapply main_on_empty_record; eauto. apply on_exception_saves_nothing.
Qed.

Lemma broken_stream_witness :
  parse_content
    (with_stream ann_world (chunked [ann_response] (StreamChunk None StreamEnd)))
    (lit "Ann Lee, engineer") (Some (lit "key"))
  = ([PrintedExc (cross_mark ++ lit " Error calling Gemini API:") TypeError],
     Done empty_record)
  /\ snd (main (with_stream ann_world
                  (chunked [ann_response] (StreamChunk None StreamEnd))))
     = Crashed (KeyError (lit "name")).
Proof.
  destruct (@broken_stream_gives_empty_record ann_world (lit "Ann Lee, engineer")
              (lit "key") [ann_response] StreamEnd OSError
              (StreamChunk None StreamEnd) TypeError) as [H1 H2].
  - discriminate.
  - left. split; reflexivity.
  - split; [exact H1|]. apply H2; [reflexivity|reflexivity|discriminate].
Defined.

(* ------------------------------------------------------------------ *)
(** ** More on the pipeline *)

Lemma parse_content_cases W text key :
  key <> [] ->
  (exists out,
      parse_content W text (Some key) = (out, Done empty_record)
      /\ renders out = false)
  \/ exists response_text parsed_data,
       answered W text key response_text
       /\ json_loads W (clean_response response_text) = Done parsed_data
       /\ write_json W debug_path parsed_data = None
       /\ parse_content W text (Some key)
          = ([FileWritten debug_path parsed_data], Done parsed_data).
Proof.
  intros Hkey. unfold parse_content. destruct key as [|c key]; [congruence|].
  destruct (read_stream [] (generate W (c :: key) (build_prompt W text)))
    as [r [e|]] eqn:Er.
  - left. eexists. split; [apply on_exception_eta|apply on_exception_saves_nothing].
  - destruct (json_loads W (clean_response r)) as [v|e] eqn:El.
    + destruct (write_json W debug_path v) as [e|] eqn:Ew.
      * left. eexists.
        split; [apply on_exception_eta|apply on_exception_saves_nothing].
      * right. exists r, v. repeat split; assumption.
    + left. eexists.
      split; [apply on_exception_eta|apply on_exception_saves_nothing].
Qed.

Lemma saved_renders out path doc : In (DocSaved path doc) out -> renders out = true.
Proof.
  intros H. unfold renders. apply existsb_exists. eexists. split; [exact H|reflexivity].
Qed.

(** The script after [parse_content] has returned [parsed_data]. *)
Lemma main_after_parse W key text out parsed_data :
  env_api_key W = Some key -> key <> [] ->
  extracted_text W resume_path = Some text -> text <> [] ->
  parse_content W text (Some key) = (out, Done parsed_data) ->
  main W
  = let printed := banner_text ++ [Printed text] ++ banner_text_end ++ out
                   ++ banner_json parsed_data in
    match safe_name W parsed_data with
    | Raised e => (printed, Crashed e)
    | Done safe =>
        match create_formatted_docx W parsed_data (output_path_of safe)
                logo_path with
        | (out', Raised e) => (printed ++ out', Crashed e)
        | (out', Done _) => (printed ++ out', Completed)
        end
    end.
Proof.
  intros Hk Hkey Hx Ht Hp. unfold main. rewrite Hk, Hx.
  destruct key as [|c key]; [congruence|].
  destruct text as [|x text]; [congruence|].
  rewrite Hp. cbv zeta. rewrite <- !app_assoc. reflexivity.
Qed.

(** X6.  The script saves a document exactly when all of this holds: there
    is an API key and an extracted text, the service answers in full, the
    cleaned answer decodes to a [dict] whose [name] is a string, the debug
    file is written, the record renders, and the save succeeds.  The
    document is then the rendering of the decoded record, its path is
    built from the sanitized name, and the script completes. *)
Theorem main_saves_exactly_when W path doc :
  In (DocSaved path doc) (fst (main W))
  <-> exists key text response_text d name,
        env_api_key W = Some key /\ key <> []
        /\ extracted_text W resume_path = Some text /\ text <> []
        /\ answered W text key response_text
        /\ json_loads W (clean_response response_text) = Done (JObj d)
        /\ write_json W debug_path (JObj d) = None
        /\ dict_lookup (lit "name") d = Some (JStr name)
        /\ rendered W (JObj d) logo_path = Done doc
        /\ path = output_path_of (sanitize W name)
        /\ save_docx W path doc = None
        /\ snd (main W) = Completed.
Proof.
  split.
  - intros Hin.
    destruct (env_api_key W) as [key|] eqn:Hk;
      [|unfold main in Hin; rewrite Hk in Hin; simpl in Hin;
        intuition discriminate].
    destruct key as [|c key];
      [unfold main in Hin; rewrite Hk in Hin; simpl in Hin;
       intuition discriminate|].
    destruct (extracted_text W resume_path) as [text|] eqn:Hx;
      [|unfold main in Hin; rewrite Hk, Hx in Hin; simpl in Hin;
        intuition discriminate].
    destruct text as [|x text];
      [unfold main in Hin; rewrite Hk, Hx in Hin; simpl in Hin;
       intuition discriminate|].
    assert (Hkey : c :: key <> []) by discriminate.
    assert (Ht : x :: text <> []) by discriminate.
    destruct (parse_content_cases W (x :: text) Hkey)
      as [[out [Hp Hr]]|[r [v [Ha [Hl [Hw Hp]]]]]].
    + destruct (main_on_empty_record W Hk Hkey Hx Ht Hp Hr) as [_ Hn].
      apply saved_renders in Hin. congruence.
    + pose proof (main_after_parse W Hk Hkey Hx Ht Hp) as Hm. cbv zeta in Hm.
      unfold safe_name, index_name in Hm.
      destruct v as [| | | | | |d];
        try (rewrite Hm in Hin; apply saved_renders in Hin; discriminate).
      destruct (dict_lookup (lit "name") d) as [[| | | |name| |]|] eqn:Hn;
        try (rewrite Hm in Hin; apply saved_renders in Hin; discriminate).
      unfold create_formatted_docx in Hm.
      destruct (rendered W (JObj d) logo_path) as [doc0|e] eqn:Hd;
        [|rewrite Hm in Hin; apply saved_renders in Hin; discriminate].
      destruct (save_docx W (output_path_of (sanitize W name)) doc0) as [e|] eqn:Hs;
        [rewrite Hm in Hin; apply saved_renders in Hin; discriminate|].
      rewrite Hm in Hin. cbn [fst] in Hin.
      repeat (apply in_app_or in Hin as [Hin|Hin];
              [simpl in Hin; intuition discriminate|]).
      simpl in Hin. destruct Hin as [Hin|[Hin|[]]]; [|discriminate].
      inversion Hin; subst.
      exists (c :: key), (x :: text), r, d, name.
      rewrite Hm. repeat split; auto.
  - intros (key & text & r & d & name & Hk & Hkey & Hx & Ht & Ha & Hl & Hw
            & Hn & Hd & Hpath & Hs & _). subst path.
    assert (Hp : parse_content W text (Some key)
                 = ([FileWritten debug_path (JObj d)], Done (JObj d))).
    { unfold parse_content. destruct key; [congruence|].
      unfold answered in Ha. rewrite Ha, Hl, Hw. reflexivity. }
    rewrite (main_after_parse W Hk Hkey Hx Ht Hp). cbv zeta.
    unfold safe_name, index_name. rewrite Hn.
    unfold create_formatted_docx. rewrite Hd, Hs. cbn [fst].
    apply in_or_app. right. left. reflexivity.
Qed.

(** X7.  How the script ends once the answer is decoded to [parsed_data]
    and the debug file written.  A value that is not a [dict] is a
    [TypeError] at [parsed_data['name']], a [dict] without [name] a
    [KeyError] (the fallback of the renderer is never reached), a [name]
    that is not a string an [AttributeError]; in these cases nothing is
    rendered.  Otherwise the script ends as the rendering does, and a save
    that fails is printed and does not fail the run. *)
Theorem main_endings W key text response_text parsed_data :
  env_api_key W = Some key -> key <> [] ->
  extracted_text W resume_path = Some text -> text <> [] ->
  answered W text key response_text ->
  json_loads W (clean_response response_text) = Done parsed_data ->
  write_json W debug_path parsed_data = None ->
  match parsed_data with
  | JObj d =>
      match dict_lookup (lit "name") d with
      | None =>
          snd (main W) = Crashed (KeyError (lit "name"))
          /\ renders (fst (main W)) = false
      | Some (JStr name) =>
          match rendered W parsed_data logo_path with
          | Raised e =>
              snd (main W) = Crashed e /\ renders (fst (main W)) = false
          | Done doc =>
              snd (main W) = Completed
              /\ renders (fst (main W))
                 = match save_docx W (output_path_of (sanitize W name)) doc with
                   | None => true
                   | Some _ => false
                   end
          end
      | Some _ =>
          snd (main W) = Crashed AttributeError
          /\ renders (fst (main W)) = false
      end
  | _ => snd (main W) = Crashed TypeError /\ renders (fst (main W)) = false
  end.
Proof.
  intros Hk Hkey Hx Ht Ha Hl Hw.
  assert (Hp : parse_content W text (Some key)
               = ([FileWritten debug_path parsed_data], Done parsed_data)).
  { unfold parse_content. destruct key; [congruence|].
    unfold answered in Ha. rewrite Ha, Hl, Hw. reflexivity. }
  rewrite (main_after_parse W Hk Hkey Hx Ht Hp). cbv zeta.
  unfold safe_name, index_name, renders.
  destruct parsed_data as [| | | | | |d];
    try (split; [reflexivity|cbn [fst]; rewrite !existsb_app; reflexivity]).
  destruct (dict_lookup (lit "name") d) as [[| | | |name| |]|];
    try (split; [reflexivity|cbn [fst]; rewrite !existsb_app; reflexivity]).
  unfold create_formatted_docx.
  destruct (rendered W (JObj d) logo_path) as [doc|e].
  - destruct (save_docx W (output_path_of (sanitize W name)) doc);
      (split; [reflexivity|cbn [fst]; rewrite !existsb_app; reflexivity]).
  - split; [reflexivity|cbn [fst]; rewrite !existsb_app; reflexivity].
Qed.

Lemma main_endings_witness :
  snd (main ann_world) = Completed /\ renders (fst (main ann_world)) = true.
Proof.
  apply (@main_endings ann_world (lit "key") (lit "Ann Lee, engineer")
           ann_response ann_record).
  - reflexivity.
  - discriminate.
  - reflexivity.
  - discriminate.
  - reflexivity.
  - vm_compute. reflexivity.
  - reflexivity.
Defined.

(* ------------------------------------------------------------------ *)
(** ** The extractor *)

Lemma add_paragraphs_lines ps :
  forall text, add_paragraphs text ps = text ++ lines ps.
Proof.
  unfold lines. induction ps as [|p ps IH]; intros text; simpl.
  - rewrite app_nil_r. reflexivity.
  - rewrite IH, <- !app_assoc. reflexivity.
Qed.

Lemma lines_app a b : lines (a ++ b) = lines a ++ lines b.
Proof. unfold lines. rewrite map_app, concat_app. reflexivity. Qed.

Lemma add_cells_lines cells :
  forall text, add_cells text cells = text ++ lines (List.concat cells).
Proof.
  induction cells as [|c cells IH]; intros text; simpl.
  - rewrite app_nil_r. reflexivity.
  - rewrite IH, add_paragraphs_lines, lines_app, app_assoc. reflexivity.
Qed.

Lemma add_rows_lines rows :
  forall text,
    add_rows text rows = text ++ lines (List.concat (List.concat rows)).
Proof.
  induction rows as [|r rows IH]; intros text; simpl.
  - rewrite app_nil_r. reflexivity.
  - rewrite IH, add_cells_lines, concat_app, lines_app, app_assoc. reflexivity.
Qed.

Lemma add_tables_lines tables :
  forall text, add_tables text tables = text ++ lines (cell_paragraphs tables).
Proof.
  unfold cell_paragraphs. induction tables as [|t tables IH]; intros text; simpl.
  - rewrite app_nil_r. reflexivity.
  - rewrite IH, add_rows_lines, !concat_app, lines_app, app_assoc. reflexivity.
Qed.

Lemma add_pages_concat pages :
  forall text, add_pages text pages = text ++ List.concat pages.
Proof.
  induction pages as [|p pages IH]; intros text; simpl.
  - rewrite app_nil_r. reflexivity.
  - rewrite IH, app_assoc. reflexivity.
Qed.

Lemma strip_blank w : blank w -> strip w = [].
Proof. intros H. unfold strip. rewrite lstrip_blank by exact H. reflexivity. Qed.

Lemma blank_concat ws : Forall blank ws -> blank (List.concat ws).
Proof.
  unfold blank. induction 1 as [|w ws Hw _ IH]; [reflexivity|].
  simpl. rewrite forallb_app, Hw, IH. reflexivity.
Qed.

Lemma blank_lines ps : Forall blank ps -> blank (lines ps).
Proof.
  intros H. unfold lines. apply blank_concat.
  induction H as [|p ps Hp _ IH]; constructor; [|exact IH].
  unfold blank in *. rewrite forallb_app, Hp. reflexivity.
Qed.

(** X8.  [extract_text] gives no text exactly when the file does not exist,
    or its extension (in lower case) is neither [.pdf] nor [.docx], or the
    library reading it raises; every exception of the readers is caught. *)
Theorem extract_text_none F path :
  snd (extract_text F path) = None
  <-> file_exists F path = false
      \/ (lower_extension F path <> lit ".pdf"
          /\ lower_extension F path <> lit ".docx")
      \/ (lower_extension F path = lit ".pdf"
          /\ exists e, pdf_pages F path = Raised e)
      \/ (lower_extension F path = lit ".docx"
          /\ exists e, docx_content F path = Raised e).
Proof.
  unfold extract_text.
  destruct (file_exists F path); cbn [negb].
  2:{ split; auto. }
  destruct (str_eqb (lower_extension F path) (lit ".pdf")) eqn:Ep.
  - apply str_eqb_eq in Ep.
    destruct (pdf_pages F path) as [pages|e].
    + split; [discriminate|].
      intros [H|[[H _]|[[_ [e H]]|[H _]]]]; try congruence.
      rewrite Ep in H. vm_compute in H. discriminate.
    + split; eauto 6.
  - assert (Hp : lower_extension F path <> lit ".pdf").
    { intros K. apply str_eqb_eq in K. congruence. }
    destruct (str_eqb (lower_extension F path) (lit ".docx")) eqn:Ed.
    + apply str_eqb_eq in Ed.
      destruct (docx_content F path) as [[ps tables]|e].
      * split; [discriminate|].
        intros [H|[[_ H]|[[H _]|[_ [e H]]]]]; congruence.
      * split; eauto 7.
    + assert (Hd : lower_extension F path <> lit ".docx").
      { intros K. apply str_eqb_eq in K. congruence. }
      split; auto.
Qed.

(** X9.  The text [extract_text] gives has no white space around it.  Of a
    PDF it is the text of the pages, joined; of a DOCX the text of the
    paragraphs of the body, then of the paragraphs of the cells of the
    tables, row by row, each on a line of its own. *)
Theorem extract_text_some F path text :
  snd (extract_text F path) = Some text ->
  strip text = text
  /\ ((lower_extension F path = lit ".pdf"
       /\ exists pages,
            pdf_pages F path = Done pages
            /\ text = strip (List.concat pages))
      \/ (lower_extension F path = lit ".docx"
          /\ exists paragraphs tables,
               docx_content F path = Done (paragraphs, tables)
               /\ text = strip (lines (paragraphs ++ cell_paragraphs tables)))).
Proof.
  unfold extract_text.
  destruct (file_exists F path); cbn [negb]; [|discriminate].
  destruct (str_eqb (lower_extension F path) (lit ".pdf")) eqn:Ep.
  - apply str_eqb_eq in Ep.
    destruct (pdf_pages F path) as [pages|e]; [|discriminate].
    cbn [snd]. intros H. inversion H; subst. clear H.
    split; [apply strip_idempotent|].
    left. split; [exact Ep|]. exists pages. split; [reflexivity|].
    rewrite add_pages_concat. reflexivity.
  - destruct (str_eqb (lower_extension F path) (lit ".docx")) eqn:Ed;
      [|discriminate].
    apply str_eqb_eq in Ed.
    destruct (docx_content F path) as [[ps tables]|e]; [|discriminate].
    cbn [snd]. intros H. inversion H; subst. clear H.
    split; [apply strip_idempotent|].
    right. split; [exact Ed|]. exists ps, tables. split; [reflexivity|].
    rewrite add_tables_lines, add_paragraphs_lines, lines_app. reflexivity.
Qed.

(** X10.  A document that holds white space only, or cannot be read, ends
    the script at once: it prints that no text was extracted and completes,
    and the service is not called. *)
Theorem blank_document_stops_script W F key :
  env_api_key W = Some key -> key <> [] ->
  snd (extract_text F resume_path) = None
  \/ (file_exists F resume_path = true
      /\ lower_extension F resume_path = lit ".pdf"
      /\ exists pages,
           pdf_pages F resume_path = Done pages /\ Forall blank pages)
  \/ (file_exists F resume_path = true
      /\ lower_extension F resume_path = lit ".docx"
      /\ exists paragraphs tables,
           docx_content F resume_path = Done (paragraphs, tables)
           /\ Forall blank paragraphs
           /\ Forall blank (cell_paragraphs tables)) ->
  main (reading W F)
  = ([Printed (cross_mark ++ lit " No text extracted.")], Completed).
Proof.
  intros Hk Hkey Hcase.
  assert (Hx : snd (extract_text F resume_path) = None
               \/ snd (extract_text F resume_path) = Some []).
  { destruct Hcase as [H|[[He [Hp [pages [Hpg Hb]]]]
                         |[He [Hp [ps [tables [Hd [Hb1 Hb2]]]]]]]].
    - left. exact H.
    - right. unfold extract_text. rewrite He, Hp, Hpg. cbn [negb str_eqb].
      replace (str_eqb (lit ".pdf") (lit ".pdf")) with true by reflexivity.
      cbn [snd]. rewrite add_pages_concat.
      rewrite strip_blank by (apply blank_concat; exact Hb). reflexivity.
    - right. unfold extract_text. rewrite He, Hp, Hd. cbn [negb].
      replace (str_eqb (lit ".docx") (lit ".pdf")) with false by reflexivity.
      replace (str_eqb (lit ".docx") (lit ".docx")) with true by reflexivity.
      cbn [snd]. rewrite add_tables_lines, add_paragraphs_lines.
      rewrite strip_blank; [reflexivity|]. cbn [app].
      unfold blank. rewrite forallb_app.
      rewrite (blank_lines Hb1), (blank_lines Hb2). reflexivity. }
  unfold main. cbn [env_api_key extracted_text reading]. rewrite Hk.
  destruct key as [|c key]; [congruence|].
  destruct Hx as [-> | ->]; reflexivity.
Qed.

(* ------------------------------------------------------------------ *)
(** ** More on the renderer: the sections *)

Lemma add_entries_blocks d key heading entry (f : json -> list block)
  entries doc :
  dict_get d (lit key) JNull = JArr entries -> entries <> [] ->
  (forall x, In x entries ->
     forall d', entry x d' = Done (tt, append_body d' (f x))) ->
  add_entries (JObj d) key heading entry doc
  = Done (tt, append_body doc (heading_line (lit heading) :: flat_map f entries)).
Proof.
  intros Hget Hne Hf. unfold add_entries. cbn [py_get lift bind]. rewrite Hget.
  destruct entries as [|x entries]; [congruence|].
  cbn [truthy py_iter add_section_heading add_block bind lift].
  rewrite (for_each_blocks (x :: entries) entry f Hf).
  unfold append_body. cbn [doc_body doc_footer].
  rewrite <- app_assoc. reflexivity.
Qed.

Lemma add_entries_skipped d key heading entry doc :
  truthy (dict_get d (lit key) JNull) = false ->
  add_entries (JObj d) key heading entry doc = Done (tt, doc).
Proof.
  intros H. unfold add_entries. cbn [py_get lift bind]. rewrite H. reflexivity.
Qed.

Lemma add_contact_str W s d :
  xml_plain s = true ->
  add_contact W (JStr s) d = Done (tt, append_body d [contact_line s]).
Proof.
  intros H. unfold add_contact. cbn [run_text_of]. unfold bind, lift.
  rewrite (docx_store_plain _ H). reflexivity.
Qed.

(** X11.  The contact lines and the summary, for texts the document stores
    as they are.  With [phone], [email] and [linkedin] strings (or absent),
    one centered line is set down for each that is not empty, in this
    order, and nothing for the others.  An empty or absent [summary] sets
    down nothing, not even the heading; a summary that is not empty sets
    down the heading and one paragraph. *)
Theorem contacts_and_summary W d doc :
  (forallb (fun v => str_or_empty v && xml_plain (point_text v))
     [dict_get d (lit "phone") (JStr []); dict_get d (lit "email") (JStr []);
      dict_get d (lit "linkedin") (JStr [])] = true ->
   add_contacts W (JObj d) doc
   = Done (tt, append_body doc
                 (map (fun v => contact_line (point_text v))
                    (filter truthy
                       [dict_get d (lit "phone") (JStr []);
                        dict_get d (lit "email") (JStr []);
                        dict_get d (lit "linkedin") (JStr [])]))))
  /\ (truthy (dict_get d (lit "summary") JNull) = false ->
      add_summary W (JObj d) doc = Done (tt, doc))
  /\ (forall s,
        dict_get d (lit "summary") JNull = JStr s -> s <> [] ->
        xml_plain s = true ->
        add_summary W (JObj d) doc
        = Done (tt, append_body doc
                      [heading_line (lit "Candidate Strengths");
                       body_line s])).
Proof.
  split; [|split].
  - intros Hs. unfold add_contacts. cbn [py_get lift bind].
    rewrite (for_each_blocks _ (add_contact W)
               (fun v => [contact_line (point_text v)])).
    + rewrite flat_map_single. reflexivity.
    + intros v Hv d'. apply filter_In in Hv as [Hin _].
      rewrite forallb_forall in Hs. apply Hs in Hin.
      apply andb_true_iff in Hin as [Hstr Hp].
      destruct v; try discriminate. apply add_contact_str. exact Hp.
  - intros H. unfold add_summary. cbn [py_get lift bind]. rewrite H. reflexivity.
  - intros s H Hne Hp. unfold add_summary. cbn [py_get lift bind]. rewrite H.
    destruct s as [|c s]; [congruence|].
    cbn [truthy]. unfold bind, add_section_heading, add_block.
    change (mkDoc (doc_footer doc)
              (doc_body doc ++ [section_heading (lit "Candidate Strengths")]))
      with (append_body doc [section_heading (lit "Candidate Strengths")]).
    rewrite add_text_paragraph_str by (discriminate || exact Hp).
    rewrite append_body_app. reflexivity.
Qed.

Lemma contacts_and_summary_witness :
  add_contacts ann_world contacts_record new_document
  = Done (tt, append_body new_document [contact_line (lit "a@b.com")]).
Proof.
  apply (@contacts_and_summary ann_world (as_dict contacts_record) new_document).
  reflexivity.
Defined.

Lemma add_bullet_text W text d :
  text <> [] -> xml_plain text = true ->
  add_text_paragraph W (JStr text) list_bullet (body12 false) d
  = Done (tt, append_body d [bullet_line text]).
Proof. intros H Hp. rewrite add_text_paragraph_str by assumption. reflexivity. Qed.

Lemma certification_text_nonempty W x : certification_text W x <> [].
Proof. unfold certification_text. destruct (text_of W _); discriminate. Qed.

Lemma education_text_nonempty W x : education_text W x <> [].
Proof. unfold education_text. destruct (text_of W _); discriminate. Qed.

(** X12.  The certifications and the education, for texts the document
    stores as they are.  A list of entries that is not empty sets down the
    heading and, for each entry in order, one bullet: [name - issuer] for a
    certification, [degree in major - university] for an education entry, a
    missing field reading as the empty string.  An empty or absent list
    sets down nothing. *)
Theorem certifications_and_education W d doc :
  (forall entries,
     dict_get d (lit "certifications") JNull = JArr entries ->
     entries <> [] -> Forall is_dict entries ->
     Forall (fun x => xml_plain (certification_text W x) = true) entries ->
     add_entries (JObj d) "certifications" "Certifications"
       (add_certification W) doc
     = Done (tt, append_body doc
                   (heading_line (lit "Certifications")
                    :: map (fun x => bullet_line (certification_text W x))
                         entries)))
  /\ (forall entries,
        dict_get d (lit "education") JNull = JArr entries ->
        entries <> [] -> Forall is_dict entries ->
        Forall (fun x => xml_plain (education_text W x) = true) entries ->
        add_entries (JObj d) "education" "Education" (add_education W) doc
        = Done (tt, append_body doc
                      (heading_line (lit "Education")
                       :: map (fun x => bullet_line (education_text W x))
                            entries)))
  /\ (forall key heading entry,
        truthy (dict_get d (lit key) JNull) = false ->
        add_entries (JObj d) key heading entry doc = Done (tt, doc)).
Proof.
  split; [|split].
  - intros entries Hget Hne Hd Hp.
    rewrite <- flat_map_single. apply add_entries_blocks; try assumption.
    intros x Hx d'. rewrite Forall_forall in Hd, Hp.
    specialize (Hp x Hx). destruct (Hd x Hx) as [c ->].
    unfold add_certification. cbn [py_get lift bind].
    apply add_bullet_text; [apply (certification_text_nonempty W (JObj c))|exact Hp].
  - intros entries Hget Hne Hd Hp.
    rewrite <- flat_map_single. apply add_entries_blocks; try assumption.
    intros x Hx d'. rewrite Forall_forall in Hd, Hp.
    specialize (Hp x Hx). destruct (Hd x Hx) as [c ->].
    unfold add_education. cbn [py_get lift bind].
    apply add_bullet_text; [apply (education_text_nonempty W (JObj c))|exact Hp].
  - intros key heading entry H. apply add_entries_skipped. exact H.
Qed.

Lemma certifications_and_education_witness :
  add_entries sections_record "certifications" "Certifications"
    (add_certification ann_world) new_document
  = Done (tt, append_body new_document
                [heading_line (lit "Certifications");
                 bullet_line (lit "CKA - CNCF")]).
Proof.
  destruct (@certifications_and_education ann_world (as_dict sections_record)
              new_document) as [H _].
  apply (H [JObj [(lit "name", jstr "CKA"); (lit "issuer", jstr "CNCF")]]).
  - reflexivity.
  - discriminate.
  - repeat constructor. eexists. reflexivity.
  - repeat constructor.
Defined.

Lemma add_labelled_blocks W p key label d :
  forallb plain_block (labelled_blocks W (JObj p) key label) = true ->
  add_labelled W (JObj p) key label d
  = Done (tt, append_body d (labelled_blocks W (JObj p) key label)).
Proof.
  unfold add_labelled, labelled_blocks. cbn [py_get lift bind as_dict].
  destruct (truthy (dict_get p (lit key) JNull)).
  - cbn [forallb plain_block plain_line para_runs run_text].
    rewrite !andb_true_r. intros Hp. unfold bind, lift.
    change (py_str W) with (text_of W).
    rewrite (docx_store_plain _ Hp). reflexivity.
  - intros _. rewrite append_body_nil. reflexivity.
Qed.

Lemma project_header_nonempty W p : project_header W p <> [].
Proof. unfold project_header. destruct (text_of W _); discriminate. Qed.

Lemma forallb_map {A B : Type} (f : B -> bool) (g : A -> B) l :
  forallb f (map g l) = forallb (fun x => f (g x)) l.
Proof. induction l; simpl; congruence. Qed.

Lemma add_project_blocks W proj d :
  project_ok proj -> forallb plain_block (project_blocks W proj) = true ->
  add_project W proj d = Done (tt, append_body d (project_blocks W proj)).
Proof.
  intros [p [points [-> [Hc Hp]]]] Hx.
  unfold project_blocks in Hx. cbn [as_dict forallb] in Hx.
  rewrite !forallb_app, !andb_true_iff in Hx.
  destruct Hx as (Hh & Hpts & Ht & He).
  cbn [plain_block bold_line para_runs forallb run_text] in Hh.
  rewrite andb_true_r in Hh.
  unfold add_project, project_blocks. cbn [py_get lift bind as_dict].
  erewrite bind_done
    by (apply add_text_paragraph_str;
        [apply (project_header_nonempty W p)|exact Hh]).
  unfold points_of in *. rewrite Hc in *. cbn [py_iter].
  erewrite bind_done.
  2:{ unfold bind, lift.
      apply (for_each_blocks points (add_bullet W)
               (fun x => [bullet_line (point_text x)])).
      intros x Hx d'. rewrite forallb_forall in Hp.
      rewrite forallb_map, forallb_forall in Hpts. specialize (Hpts x Hx).
      cbn [plain_block bullet_line para_runs forallb run_text] in Hpts.
      rewrite andb_true_r in Hpts.
      apply add_bullet_point; auto. }
  erewrite bind_done by (apply add_labelled_blocks; exact Ht).
  rewrite add_labelled_blocks by exact He.
  rewrite !append_body_app, flat_map_single. reflexivity.
Qed.

(** X13.  The projects, for texts the document stores as they are.  A list
    of projects that is not empty, each with a [content] of non-empty
    strings, sets down the heading and for each project in order: the bold
    line [project_name - client (date_range)], one bullet for each point of
    [content] in order, then the line [Technologies: ...] and the line
    [Environment: ...], each only when its field is not empty. *)
Theorem projects_section W d entries doc :
  dict_get d (lit "projects") JNull = JArr entries ->
  entries <> [] -> Forall project_ok entries ->
  forallb plain_block (flat_map (project_blocks W) entries) = true ->
  add_entries (JObj d) "projects" "Projects" (add_project W) doc
  = Done (tt, append_body doc
                (heading_line (lit "Projects")
                 :: flat_map (project_blocks W) entries)).
Proof.
  intros Hget Hne Hok Hp. apply add_entries_blocks; try assumption.
  intros x Hx d'. rewrite Forall_forall in Hok.
  apply add_project_blocks; [auto|].
  rewrite forallb_forall in *. intros b Hb. apply Hp.
  apply in_flat_map. exists x. split; assumption.
Qed.

Lemma projects_section_witness :
  add_entries sections_record "projects" "Projects" (add_project ann_world)
    new_document
  = Done (tt, append_body new_document
                [heading_line (lit "Projects");
                 bold_line (lit "Parser - Acme (2023-2024)");
                 bullet_line (lit "Wrote the grammar");
                 plain_line (lit "Technologies: Rocq")]).
Proof.
  apply (@projects_section ann_world (as_dict sections_record)
           [project [jstr "Wrote the grammar"]] new_document).
  - reflexivity.
  - discriminate.
  - repeat constructor. eexists. eexists.
    split; [reflexivity|]. split; reflexivity.
  - reflexivity.
Defined.

(* ------------------------------------------------------------------ *)
(** ** More on the renderer: the whole document *)

Lemma appends_ret {A : Type} P (a : A) : appends P (ret a).
Proof.
  intros d a' d' H. inversion H; subst. split; [reflexivity|].
  exists []. rewrite app_nil_r. auto.
Qed.

Lemma appends_lift {A : Type} P (r : result A) : appends P (lift r).
Proof.
  intros d a d' H. unfold lift in H. destruct r; inversion H; subst.
  split; [reflexivity|]. exists []. rewrite app_nil_r. auto.
Qed.

Lemma appends_add_block (P : block -> Prop) b : P b -> appends P (add_block b).
Proof.
  intros Hb d a d' H. inversion H; subst. split; [reflexivity|].
  exists [b]. auto.
Qed.

Lemma appends_bind {A B : Type} P (m : Build A) (k : A -> Build B) :
  appends P m -> (forall a, appends P (k a)) -> appends P (bind m k).
Proof.
  intros Hm Hk d b d'' H. apply bind_inv in H as [a [d' [H1 H2]]].
  apply Hm in H1 as [F1 [bs1 [E1 P1]]]. apply Hk in H2 as [F2 [bs2 [E2 P2]]].
  split; [congruence|].
  exists (bs1 ++ bs2). rewrite E2, E1, app_assoc. split; [reflexivity|].
  apply Forall_app. auto.
Qed.

Lemma appends_for_each {A : Type} P (xs : list A) body :
  (forall x, appends P (body x)) -> appends P (for_each xs body).
Proof.
  intros Hb. induction xs as [|x xs IH]; simpl.
  - apply appends_ret.
  - apply appends_bind; auto.
Qed.

Lemma appends_if {A : Type} P (c : bool) (m1 m2 : Build A) :
  appends P m1 -> appends P m2 -> appends P (if c then m1 else m2).
Proof. destruct c; auto. Qed.

Ltac append_inner :=
  repeat first
    [ apply appends_bind; [|intros ?]
    | apply appends_for_each; intros ?
    | apply appends_lift
    | apply appends_ret
    | apply appends_if
    | apply appends_add_block; split; reflexivity ].

Lemma add_text_paragraph_inner W text style format :
  appends inner (add_text_paragraph W text style format).
Proof. unfold add_text_paragraph. append_inner. Qed.

Lemma add_name_inner W pd : appends inner (add_name W pd).
Proof.
  unfold add_name. apply appends_bind; [apply appends_lift|]. intros v.
  destruct v; append_inner.
Qed.

Lemma add_contacts_inner W pd : appends inner (add_contacts W pd).
Proof. unfold add_contacts, add_contact. append_inner. Qed.

Lemma build_skill_matrix_inner W pd : appends inner (build_skill_matrix W pd).
Proof.
  unfold build_skill_matrix. apply appends_bind; [apply appends_lift|].
  intros entries. destruct entries; append_inner.
Qed.

Lemma add_certification_inner W x : appends inner (add_certification W x).
Proof. unfold add_certification. append_inner. Qed.

Lemma add_education_inner W x : appends inner (add_education W x).
Proof. unfold add_education. append_inner. Qed.

Lemma add_experience_inner W x : appends inner (add_experience W x).
Proof. unfold add_experience, add_bullet. append_inner. Qed.

Lemma add_project_inner W x : appends inner (add_project W x).
Proof. unfold add_project, add_bullet, add_labelled. append_inner. Qed.

Lemma inner_no_marks bs :
  Forall inner bs -> filter is_heading bs = [] /\ filter is_logo bs = [].
Proof.
  induction 1 as [|b bs [Hh Hl] _ [IH1 IH2]]; [auto|].
  simpl. rewrite Hh, Hl. auto.
Qed.

Lemma marks_inner {A : Type} (m : Build A) : appends inner m -> marks [] m.
Proof.
  intros Hm d a d' H. apply Hm in H as [F [bs [E P]]].
  split; [exact F|]. exists bs. split; [exact E|]. apply inner_no_marks, P.
Qed.

Lemma marks_bind {A B : Type} h1 h2 (m : Build A) (k : A -> Build B) :
  marks h1 m -> (forall a, marks h2 (k a)) -> marks (h1 ++ h2) (bind m k).
Proof.
  intros Hm Hk d b d'' H. apply bind_inv in H as [a [d' [H1 H2]]].
  apply Hm in H1 as [F1 [bs1 [E1 [M1 L1]]]].
  apply Hk in H2 as [F2 [bs2 [E2 [M2 L2]]]].
  split; [congruence|].
  exists (bs1 ++ bs2). rewrite E2, E1, app_assoc, !filter_app, M1, M2, L1, L2.
  auto.
Qed.

Lemma marks_heading text : marks [section_heading (lit text)] (add_section_heading text).
Proof.
  intros d a d' H. inversion H; subst. split; [reflexivity|].
  exists [section_heading (lit text)]. auto.
Qed.

Lemma marks_add_entries d key heading entry :
  (forall x, appends inner (entry x)) ->
  marks (heading_if d key heading) (add_entries (JObj d) key heading entry).
Proof.
  intros He. unfold add_entries, heading_if. cbn [py_get].
  intros d0 a d' H. unfold bind at 1 in H. cbn [lift] in H.
  destruct (truthy (dict_get d (lit key) JNull)).
  - revert H. change [section_heading (lit heading)]
      with ([section_heading (lit heading)] ++ []).
    apply marks_bind; [apply marks_heading|]. intros _.
    apply marks_inner. append_inner. apply He.
  - revert H. apply marks_inner, appends_ret.
Qed.

Lemma marks_add_summary W d :
  marks (heading_if d "summary" "Candidate Strengths") (add_summary W (JObj d)).
Proof.
  unfold add_summary, heading_if. cbn [py_get].
  intros d0 a d' H. unfold bind at 1 in H. cbn [lift] in H.
  destruct (truthy (dict_get d (lit "summary") JNull)).
  - revert H. change [section_heading (lit "Candidate Strengths")]
      with ([section_heading (lit "Candidate Strengths")] ++ []).
    apply marks_bind; [apply marks_heading|]. intros _.
    apply marks_inner, add_text_paragraph_inner.
  - revert H. apply marks_inner, appends_ret.
Qed.

(** The document after the logo and the footer, and what follows. *)
Lemma rendered_layout W d logo doc :
  rendered W (JObj d) logo = Done doc ->
  doc_footer doc = [footer_run]
  /\ exists rest,
       doc_body doc
       = (if path_exists W logo then [LogoTable logo] else []) ++ rest
       /\ filter is_logo rest = []
       /\ filter is_heading rest
          = heading_if d "summary" "Candidate Strengths"
            ++ [section_heading (lit "Skill Matrix")]
            ++ heading_if d "certifications" "Certifications"
            ++ heading_if d "education" "Education"
            ++ heading_if d "experience" "Professional Experience"
            ++ heading_if d "projects" "Projects".
Proof.
  intros Hr. unfold rendered in Hr.
  destruct (build_document W (JObj d) logo new_document) as [[u d']|] eqn:E;
    [|discriminate].
  inversion Hr; subst d'. clear Hr. unfold build_document in E.
  apply bind_inv in E as [u0 [d0 [S0 E]]].
  apply bind_inv in E as [u1 [d1 [S1 E]]].
  assert (Hd1 : d1 = mkDoc [footer_run]
                       (if path_exists W logo then [LogoTable logo] else [])).
  { unfold add_logo_top_right in S0.
    destruct (path_exists W logo); inversion S0; subst; inversion S1; reflexivity. }
  clear S0 S1. subst d1.
  match type of E with
  | ?m _ = _ =>
      assert (Hm : marks
                ([] ++ [] ++ heading_if d "summary" "Candidate Strengths"
                 ++ [section_heading (lit "Skill Matrix")] ++ []
                 ++ heading_if d "certifications" "Certifications"
                 ++ heading_if d "education" "Education"
                 ++ heading_if d "experience" "Professional Experience"
                 ++ heading_if d "projects" "Projects") m)
  end.
  { apply marks_bind; [apply marks_inner, add_name_inner|]. intros _.
    apply marks_bind; [apply marks_inner, add_contacts_inner|]. intros _.
    apply marks_bind; [apply marks_add_summary|]. intros _.
    apply marks_bind; [apply marks_heading|]. intros _.
    apply marks_bind; [apply marks_inner, build_skill_matrix_inner|]. intros _.
    apply marks_bind;
      [apply marks_add_entries; intros ?; apply add_certification_inner|].
    intros _.
    apply marks_bind;
      [apply marks_add_entries; intros ?; apply add_education_inner|].
    intros _.
    apply marks_bind;
      [apply marks_add_entries; intros ?; apply add_experience_inner|].
    intros _.
    apply marks_add_entries; intros ?; apply add_project_inner. }
  apply Hm in E as [F [rest [Eb [Mh Ml]]]]. cbn [doc_footer doc_body] in *.
  split; [exact F|]. exists rest. auto.
Qed.

(** X14.  The page furniture.  Every rendered document has the one footer
    run, with the footer text at 10 points.  The logo is its first block when
    the logo file exists; no other block is a logo, and without the file
    the document has none. *)
Theorem page_furniture W d logo doc :
  rendered W (JObj d) logo = Done doc ->
  doc_footer doc = [footer_run]
  /\ filter is_logo (doc_body doc)
     = (if path_exists W logo then [LogoTable logo] else [])
  /\ (path_exists W logo = true -> hd_error (doc_body doc) = Some (LogoTable logo)).
Proof.
  intros Hr. apply rendered_layout in Hr as [F [rest [Eb [Ml _]]]].
  split; [exact F|]. rewrite Eb. split.
  - rewrite filter_app, Ml, app_nil_r. destruct (path_exists W logo); reflexivity.
  - intros ->. reflexivity.
Qed.

Lemma page_furniture_witness :
  doc_footer (mkDoc [footer_run]
                [name_line (lit "Name Not Found");
                 section_heading (lit "Skill Matrix")])
  = [footer_run].
Proof.
  apply (@page_furniture ann_world [] logo_path). vm_compute. reflexivity.
Defined.

(** X15.  The order of the sections.  In every rendered document the
    section headings are, in this order: Candidate Strengths, Skill Matrix,
    Certifications, Education, Professional Experience, Projects; the Skill
    Matrix heading is always there, each other heading exactly when its
    field is true (not empty). *)
Theorem sections_in_order W d logo doc :
  rendered W (JObj d) logo = Done doc ->
  filter is_heading (doc_body doc)
  = heading_if d "summary" "Candidate Strengths"
    ++ [section_heading (lit "Skill Matrix")]
    ++ heading_if d "certifications" "Certifications"
    ++ heading_if d "education" "Education"
    ++ heading_if d "experience" "Professional Experience"
    ++ heading_if d "projects" "Projects".
Proof.
  intros Hr. apply rendered_layout in Hr as [_ [rest [Eb [_ Mh]]]].
  rewrite Eb, filter_app, Mh. destruct (path_exists W logo); reflexivity.
Qed.

Lemma sections_in_order_witness :
  exists doc,
    rendered ann_world sections_record logo_path = Done doc
    /\ filter is_heading (doc_body doc)
       = [section_heading (lit "Candidate Strengths");
          section_heading (lit "Skill Matrix");
          section_heading (lit "Certifications");
          section_heading (lit "Education");
          section_heading (lit "Projects")].
Proof.
  eexists. split; [vm_compute; reflexivity|].
  apply (@sections_in_order ann_world (as_dict sections_record) logo_path).
  vm_compute. reflexivity.
Defined.

(* ------------------------------------------------------------------ *)
(** ** More on the renderer: what it reads and where it fails *)

Lemma dict_get_agree d d' k default :
  dict_lookup k d = dict_lookup k d' -> dict_get d k default = dict_get d' k default.
Proof. unfold dict_get. intros ->. reflexivity. Qed.

(** X16.  The renderer reads eleven keys of the record and no other: two
    records that agree on them give the same document, or fail alike.  In
    particular [awards] and [github] are never rendered. *)
Theorem renderer_reads_only W d d' logo :
  (forall k, In k rendered_keys -> dict_lookup k d = dict_lookup k d') ->
  rendered W (JObj d) logo = rendered W (JObj d') logo
  /\ forall v,
       rendered W (JObj ((lit "awards", v) :: d)) logo = rendered W (JObj d) logo
       /\ rendered W (JObj ((lit "github", v) :: d)) logo
          = rendered W (JObj d) logo.
Proof.
  assert (Hagree : forall a b,
            (forall k, In k rendered_keys -> dict_lookup k a = dict_lookup k b) ->
            rendered W (JObj a) logo = rendered W (JObj b) logo).
  { intros a b H.
    assert (G : forall (k : string) default, In (lit k) rendered_keys ->
                  dict_get a (lit k) default = dict_get b (lit k) default).
    { intros k default Hk. apply dict_get_agree, H, Hk. }
    unfold rendered, build_document, add_name, add_contacts, add_summary,
      build_skill_matrix, matrix_entries, add_entries.
    cbn [py_get].
    rewrite !(G "name"%string), !(G "phone"%string), !(G "email"%string), !(G "linkedin"%string),
      !(G "summary"%string), !(G "skills_matrix"%string), !(G "skills"%string),
      !(G "certifications"%string), !(G "education"%string), !(G "experience"%string),
      !(G "projects"%string) by (vm_compute; tauto).
    reflexivity. }
  intros H. split; [apply Hagree, H|].
  intros v. split; apply Hagree; intros k Hk;
    vm_compute in Hk;
    repeat (destruct Hk as [<-|Hk]; [reflexivity|]); destruct Hk.
Qed.

Lemma renderer_reads_only_witness :
  rendered ann_world
    (JObj ((lit "awards", JArr [jstr "Best paper"]) :: as_dict skills_record))
    logo_path
  = rendered ann_world skills_record logo_path.
Proof.
  destruct (@renderer_reads_only ann_world (as_dict skills_record)
              (as_dict skills_record) logo_path) as [_ H].
  - reflexivity.
  - apply (H (JArr [jstr "Best paper"])).
Defined.

Lemma for_each_raises {A : Type} (pre : list A) x post body e :
  (forall y, In y pre -> forall d, exists d', body y d = Done (tt, d')) ->
  (forall d, body x d = Raised e) ->
  forall d, for_each (pre ++ x :: post) body d = Raised e.
Proof.
  intros Hpre Hx. induction pre as [|y pre IH]; intros d.
  - simpl. unfold bind. rewrite Hx. reflexivity.
  - simpl. unfold bind at 1.
    destruct (Hpre y (or_introl eq_refl) d) as [d' ->].
    apply IH. intros z Hz. apply Hpre. right. exact Hz.
Qed.

Lemma add_bullet_falsy W p d :
  truthy p = false -> add_bullet W p d = Raised IndexError.
Proof.
  intros H. unfold add_bullet, add_text_paragraph. rewrite H. reflexivity.
Qed.

Lemma rendered_needs_experience W d logo doc :
  rendered W (JObj d) logo = Done doc ->
  exists d1 d2,
    add_entries (JObj d) "experience" "Professional Experience"
      (add_experience W) d1 = Done (tt, d2).
Proof.
  intros Hr. unfold rendered in Hr.
  destruct (build_document W (JObj d) logo new_document) as [[u d']|] eqn:E;
    [|discriminate].
  unfold build_document in E. do 9 step E. step E. eauto.
Qed.

Lemma for_each_done {A : Type} (xs : list A) body d d' x :
  for_each xs body d = Done (tt, d') -> In x xs ->
  exists d1 d2, body x d1 = Done (tt, d2).
Proof.
  revert d. induction xs as [|y xs IH]; intros d H Hin; [contradiction|].
  cbn [for_each] in H. apply bind_inv in H as [u [d1 [H1 H2]]]. destruct u.
  destruct Hin as [->|Hin]; [eauto|]. eapply IH; eauto.
Qed.

(** X17.  A description point that is false (the empty string above all)
    breaks the rendering: python-docx adds no run for it, so that [runs[0]]
    fails, and no document is produced, whatever else the record holds.
    When the entries before the point and the points before it are well
    formed and of texts the document stores as they are, the exception is
    the [IndexError] of [runs[0]], raised in the experience section. *)
Theorem empty_point_breaks_rendering W d entries e points p :
  dict_get d (lit "experience") JNull = JArr entries ->
  In (JObj e) entries ->
  dict_get e (lit "Description") (JArr []) = JArr points ->
  In p points ->
  truthy p = false ->
  (forall logo doc, rendered W (JObj d) logo <> Done doc)
  /\ (forall before after points1 points2 doc,
        entries = before ++ JObj e :: after ->
        points = points1 ++ p :: points2 ->
        Forall experience_ok before -> Forall (experience_plain W) before ->
        xml_plain (header_text W e) = true ->
        forallb (fun x => is_point x && xml_plain (point_text x)) points1
        = true ->
        add_entries (JObj d) "experience" "Professional Experience"
          (add_experience W) doc = Raised IndexError).
Proof.
  intros Hget Hin Hd Hp Hfalse. split.
  - intros logo doc Hr. apply rendered_needs_experience in Hr as [d1 [d2 H]].
    unfold add_entries in H. cbn [py_get lift] in H.
    apply bind_inv in H as [v [d3 [Hv H]]]. inversion Hv; subst v d3. clear Hv.
    rewrite Hget in H.
    replace (truthy (JArr entries)) with true in H
      by (destruct entries; [contradiction|reflexivity]).
    apply bind_inv in H as [u [d3 [_ H]]].
    apply bind_inv in H as [items [d4 [Hi H]]].
    cbn [py_iter lift] in Hi. inversion Hi; subst items d4. clear Hi.
    destruct (for_each_done _ _ _ (JObj e) H Hin) as [d5 [d6 He]].
    unfold add_experience in He. cbn [py_get lift] in He.
    do 4 (apply bind_inv in He as [? [? [Hx He]]]; inversion Hx; subst; clear Hx).
    apply bind_inv in He as [u1 [d7 [_ He]]].
    apply bind_inv in He as [? [? [Hx He]]]. inversion Hx; subst; clear Hx.
    rewrite Hd in He. cbn [py_iter lift] in He.
    apply bind_inv in He as [? [? [Hx He]]]. inversion Hx; subst; clear Hx.
    destruct (for_each_done _ _ _ p He Hp) as [d8 [d9 Hb]].
    rewrite add_bullet_falsy in Hb by exact Hfalse. discriminate.
  - intros before after points1 points2 doc -> -> Hok Hplain Hh Hp1.
    unfold add_entries. cbn [py_get lift bind]. rewrite Hget.
    replace (truthy (JArr (before ++ JObj e :: after))) with true
      by (destruct before; reflexivity).
    unfold bind at 1. cbn [add_section_heading add_block py_iter lift].
    unfold bind at 1.
    apply for_each_raises.
    + intros y Hy d0. rewrite Forall_forall in Hok, Hplain.
      rewrite (@add_experience_blocks W y d0 (Hok y Hy) (Hplain y Hy)). eauto.
    + intros d0. unfold add_experience. cbn [py_get lift bind].
      erewrite bind_done
        by (apply add_text_paragraph_str;
            [apply (header_text_nonempty W e)|exact Hh]).
      rewrite Hd. unfold bind. cbn [lift py_iter].
      apply for_each_raises.
      * intros y Hy d1. rewrite forallb_forall in Hp1.
        specialize (Hp1 y Hy). apply andb_true_iff in Hp1 as [Ha Hb].
        rewrite (@add_bullet_point W y d1 Ha Hb). eauto.
      * intros d1. apply add_bullet_falsy. exact Hfalse.
Qed.

Lemma empty_point_witness :
  add_entries
    (JObj [(lit "experience",
            JArr [JObj [(lit "Description", JArr [jstr "Led"; jstr ""])]])])
    "experience" "Professional Experience" (add_experience ann_world)
    new_document
  = Raised IndexError.
Proof.
  destruct (@empty_point_breaks_rendering ann_world
           [(lit "experience",
             JArr [JObj [(lit "Description", JArr [jstr "Led"; jstr ""])]])]
           [JObj [(lit "Description", JArr [jstr "Led"; jstr ""])]]
           [(lit "Description", JArr [jstr "Led"; jstr ""])]
           [jstr "Led"; jstr ""] (jstr "")) as [_ H].
  - reflexivity.
  - left. reflexivity.
  - reflexivity.
  - right. left. reflexivity.
  - reflexivity.
  - apply (H [] [] [jstr "Led"] []); try reflexivity; constructor.
Defined.

(** X18.  The renderer needs a [dict], and a [name] that is a string when
    there is one: on any other record, and on a [name] that is [null], a
    number, a list or a [dict], it raises [AttributeError] before any line
    is set down. *)
Theorem renderer_needs_string_name W parsed_data logo :
  match parsed_data with
  | JObj d =>
      match dict_lookup (lit "name") d with
      | Some (JStr _) | None => True
      | Some _ => rendered W parsed_data logo = Raised AttributeError
      end
  | _ => rendered W parsed_data logo = Raised AttributeError
  end.
Proof.
  unfold rendered, build_document, add_logo_top_right.
  destruct parsed_data as [| | | | | |d];
    try (destruct (path_exists W logo); reflexivity).
  destruct (dict_lookup (lit "name") d) as [v|] eqn:E; [|exact I].
  destruct v; try exact I;
    destruct (path_exists W logo);
    unfold bind, add_block, add_footer_run, add_name, ret;
    cbn [py_get lift dict_get]; unfold dict_get; rewrite E; reflexivity.
Qed.

Lemma skill_rows_characters W s :
  xml_plain s = true ->
  skill_rows W (map skill_entry (map (fun c => JStr [c]) s))
  = Done (map (fun c => [text_cell [c]; text_cell []; text_cell [];
                         text_cell []]) s).
Proof.
  intros H. rewrite skill_rows_generated, map_map; [reflexivity|].
  apply Forall_forall. intros v Hv. apply in_map_iff in Hv as [c [<- Hc]].
  unfold value_plain, xml_plain in *. cbn [text_of forallb].
  rewrite forallb_forall in H. rewrite (H c Hc). reflexivity.
Qed.

(** X19.  A [skills] that is one string instead of a list is cut into its
    characters: with no [skills_matrix], the table has one row for each of
    the first 10 characters of the string (characters the document stores
    as they are), the character in the first column and the three others
    empty. *)
Theorem skills_string_rows W d s doc :
  truthy (dict_get d (lit "skills_matrix") (JArr [])) = false ->
  dict_get d (lit "skills") JNull = JStr s -> s <> [] ->
  xml_plain (firstn 10 s) = true ->
  build_skill_matrix W (JObj d) doc
  = Done (tt, append_body doc
                [skill_table
                   (map (fun c => [text_cell [c]; text_cell []; text_cell [];
                                   text_cell []])
                      (firstn 10 s))]).
Proof.
  intros Hsm Hsk Hne Hp.
  apply build_from_entries
    with (entries := map skill_entry (map (fun c => JStr [c]) (firstn 10 s))).
  - unfold matrix_entries, py_get. rewrite Hsm, Hsk.
    destruct s as [|c s]; [congruence|].
    cbn [truthy negb andb py_first10].
    rewrite <- !firstn_map, firstn_firstn. reflexivity.
  - destruct s; [congruence|discriminate].
  - apply skill_rows_characters. exact Hp.
Qed.

Lemma skills_string_rows_witness :
  build_skill_matrix ann_world (JObj [(lit "skills", jstr "Go")]) new_document
  = Done (tt, append_body new_document
                [skill_table
                   [[text_cell (lit "G"); text_cell []; text_cell [];
                     text_cell []];
                    [text_cell (lit "o"); text_cell []; text_cell [];
                     text_cell []]]]).
Proof.
  apply (@skills_string_rows ann_world [(lit "skills", jstr "Go")] (lit "Go")
           new_document).
  - reflexivity.
  - reflexivity.
  - discriminate.
  - reflexivity.
Defined.

Lemma extract_text_some_witness :
  strip (lit "Ann Lee" ++ newline ++ lit "Engineer" ++ newline ++ lit "Rocq"
         ++ newline ++ lit "Python")
  = lit "Ann Lee" ++ newline ++ lit "Engineer" ++ newline ++ lit "Rocq"
    ++ newline ++ lit "Python".
Proof.
  apply (@extract_text_some sample_docx resume_path). vm_compute. reflexivity.
Defined.

Lemma blank_document_witness :
  main (reading ann_world blank_pdf)
  = ([Printed (cross_mark ++ lit " No text extracted.")], Completed).
Proof.
  apply (@blank_document_stops_script ann_world blank_pdf (lit "key")).
  - reflexivity.
  - discriminate.
  - right. left. split; [reflexivity|]. split; [reflexivity|].
    exists [lit " "; newline]. split; [reflexivity|].
    repeat constructor.
Defined.

Lemma main_saves_witness :
  exists doc,
    In (DocSaved (output_path_of (lit "Ann")) doc) (fst (main ann_world)).
Proof.
  eexists.
  apply (@main_saves_exactly_when ann_world).
  exists (lit "key"), (lit "Ann Lee, engineer"), ann_response,
    (as_dict ann_record), (lit "Ann").
  repeat split; try discriminate; try reflexivity.
Defined.

Lemma skill_row_not_dict W x :
  ~ is_dict x -> skill_row W x = Raised AttributeError.
Proof.
  intros H. destruct x; try reflexivity. exfalso. apply H. eexists. reflexivity.
Qed.

Lemma skill_rows_done_dicts W entries rows :
  skill_rows W entries = Done rows -> Forall is_dict entries.
Proof.
  revert rows. induction entries as [|x entries IH]; intros rows H; [constructor|].
  cbn [skill_rows] in H.
  destruct (skill_row W x) as [row|] eqn:Er; [|discriminate].
  destruct (skill_rows W entries) as [rows'|] eqn:Es; [|discriminate].
  constructor; [|eapply IH; reflexivity].
  destruct x; try discriminate. eexists. reflexivity.
Qed.

Lemma skill_rows_not_dict W before x after :
  Forall is_dict before -> Forall (row_plain W) before -> ~ is_dict x ->
  skill_rows W (before ++ x :: after) = Raised AttributeError.
Proof.
  intros Hd Hp Hx. induction Hd as [|y before [e ->] _ IH].
  - cbn [app skill_rows]. rewrite skill_row_not_dict by exact Hx. reflexivity.
  - inversion Hp; subst. cbn [app skill_rows].
    rewrite skill_row_dict by assumption. rewrite IH by assumption. reflexivity.
Qed.

(** X20.  Only the first 10 entries of [skills_matrix] are looked at.  When
    they are all [dict]s, of texts the document stores as they are, the
    table holds their rows, whatever comes after them.  When one of them is
    not a [dict] (a string, as in the list the schema of the prompt shows),
    no table is made; the renderer raises [AttributeError] when the entries
    before that one are such [dict]s. *)
Theorem skill_matrix_first_ten W d entries doc :
  dict_get d (lit "skills_matrix") (JArr []) = JArr entries ->
  entries <> [] ->
  (Forall is_dict (firstn 10 entries) ->
   Forall (row_plain W) (firstn 10 entries) ->
   build_skill_matrix W (JObj d) doc
   = Done (tt, append_body doc
                 [skill_table
                    (map (fun e => map text_cell (entry_texts W (as_dict e)))
                       (firstn 10 entries))]))
  /\ (forall x,
        In x (firstn 10 entries) -> ~ is_dict x ->
        forall doc', build_skill_matrix W (JObj d) doc <> Done (tt, doc'))
  /\ (forall before x after,
        firstn 10 entries = before ++ x :: after -> ~ is_dict x ->
        Forall is_dict before -> Forall (row_plain W) before ->
        build_skill_matrix W (JObj d) doc = Raised AttributeError).
Proof.
  intros Hsm Hne.
  assert (He : matrix_entries (JObj d) = Done (firstn 10 entries)).
  { unfold matrix_entries, py_get. rewrite Hsm.
    destruct entries; [congruence|reflexivity]. }
  split; [|split].
  - intros Hd Hp. apply build_from_entries with (entries := firstn 10 entries).
    + exact He.
    + destruct entries; [congruence|discriminate].
    + apply skill_rows_dicts; assumption.
  - intros x Hx Hnd doc' H. unfold build_skill_matrix in H. rewrite He in H.
    destruct (firstn 10 entries) as [|y l] eqn:E; [contradiction|].
    cbn [lift] in H. unfold bind at 1 in H.
    apply bind_inv in H as [rows [d1 [Hr _]]]. unfold lift in Hr.
    destruct (skill_rows W (y :: l)) as [rows'|] eqn:Er; [|discriminate].
    apply skill_rows_done_dicts in Er. rewrite Forall_forall in Er.
    apply Hnd. apply Er. exact Hx.
  - intros before x after E Hnd Hd Hp. unfold build_skill_matrix. rewrite He, E.
    cbn [lift]. unfold bind at 1.
    pose proof (@skill_rows_not_dict W before x after Hd Hp Hnd) as Hr.
    destruct (before ++ x :: after) as [|y l] eqn:E';
      [destruct before; discriminate|].
    unfold bind, lift. rewrite Hr. reflexivity.
Qed.

Lemma skill_matrix_first_ten_witness :
  build_skill_matrix ann_world json_schema new_document = Raised AttributeError.
Proof.
  destruct (@skill_matrix_first_ten ann_world (as_dict json_schema)
              [jstr "if available in the resume";
               JObj [field "skills" (jstr "Skill name");
                     field "years_experience" (jstr "Years of experience");
                     field "last_used" (jstr "Most recent year used");
                     field "proficiency" (jstr "Beginner/Intermediate/Advanced")]]
              new_document) as [_ [_ H]].
  - reflexivity.
  - discriminate.
  - apply (H [] (jstr "if available in the resume")
             [JObj [field "skills" (jstr "Skill name");
                    field "years_experience" (jstr "Years of experience");
                    field "last_used" (jstr "Most recent year used");
                    field "proficiency" (jstr "Beginner/Intermediate/Advanced")]]).
    + reflexivity.
    + intros [x Hx]. discriminate.
    + constructor.
    + constructor.
Defined.

Lemma split_blank w : blank w -> split w = [].
Proof.
  intros H. rewrite <- (app_nil_r w). rewrite split_blank_app by exact H.
  reflexivity.
Qed.

(** X21.  A name of white space only (or empty) gives an empty name line
    and an empty stem, so that the document is saved as [_resume.docx] in
    the output directory. *)
Theorem blank_name W d name doc :
  dict_lookup (lit "name") d = Some (JStr name) -> blank name ->
  add_name W (JObj d) doc = Done (tt, append_body doc [name_line []])
  /\ safe_name W (JObj d) = Done []
  /\ output_path_of (sanitize W name)
     = lit "YOUR_FILE_PATH" ++ [92%N] ++ lit "_resume.docx".
Proof.
  intros Hn Hb.
  assert (Hc : capwords W name = []).
  { unfold capwords. rewrite split_blank by exact Hb. reflexivity. }
  split; [|split].
  - rewrite (@add_name_of W d name);
      [rewrite Hc; reflexivity
      |unfold dict_get; rewrite Hn; reflexivity
      |rewrite Hc; reflexivity].
  - unfold safe_name, index_name. rewrite Hn. unfold sanitize. rewrite Hc.
    reflexivity.
  - unfold sanitize. rewrite Hc. reflexivity.
Qed.

Lemma blank_name_witness :
  add_name ann_world (JObj [(lit "name", jstr "  ")]) new_document
  = Done (tt, append_body new_document [name_line []]).
Proof.
  apply (@blank_name ann_world [(lit "name", jstr "  ")] (lit "  ") new_document);
    reflexivity.
Defined.

(* ------------------------------------------------------------------ *)
(** ** Text the document cannot store *)

Lemma xml_char_spec c :
  xml_char c = true
  <-> ((c = 9 \/ c = 10 \/ c = 13 \/ 32 <= c)
       /\ ~ (55296 <= c <= 57343) /\ c <> 65534 /\ c <> 65535)%N.
Proof.
  unfold xml_char, is_break, is_surrogate, in_range, cp_eqb.
  rewrite !andb_true_iff, !orb_true_iff, !negb_true_iff, !N.eqb_eq,
    !N.eqb_neq, andb_false_iff, !N.leb_le, !N.leb_gt.
  lia.
Qed.

Lemma is_break_xml_char c : is_break c = true -> xml_char c = true.
Proof.
  intros H. apply xml_char_spec. unfold is_break, cp_eqb in H.
  rewrite !orb_true_iff, !N.eqb_eq in H. lia.
Qed.

Lemma store_scan_all s :
  forallb xml_char s = true -> store_scan None s = Done (map stored_char s).
Proof.
  induction s as [|c s IH]; [reflexivity|].
  cbn [forallb]. rewrite andb_true_iff. intros [Hc Hs].
  cbn [store_scan map]. rewrite (IH Hs).
  destruct (is_break c) eqn:Hb; [reflexivity|].
  assert (Hsur : is_surrogate c = false).
  { apply xml_char_spec in Hc. unfold is_surrogate, in_range.
    rewrite andb_false_iff, !N.leb_gt. lia. }
  unfold piece_state. rewrite Hsur, Hc, (IH Hs).
  unfold stored_char. unfold is_break in Hb.
  destruct (cp_eqb c 13); [|reflexivity].
  rewrite orb_true_r in Hb. discriminate.
Qed.

Lemma store_scan_refused s :
  existsb is_surrogate s = false ->
  forall pending,
    pending = None \/ pending = Some (ValueError xml_message) ->
    pending <> None \/ forallb xml_char s = false ->
    store_scan pending s = Raised (ValueError xml_message).
Proof.
  induction s as [|c s IH]; intros Hsur pending Hp Hbad.
  - destruct Hp as [->| ->]; [|reflexivity].
    destruct Hbad as [H|H]; [congruence|discriminate].
  - cbn [existsb] in Hsur. apply orb_false_iff in Hsur as [Hc Hs].
    cbn [store_scan]. destruct (is_break c) eqn:Hb.
    + destruct Hp as [->| ->]; [|reflexivity].
      destruct Hbad as [H|H]; [congruence|].
      cbn [forallb] in H. rewrite (is_break_xml_char _ Hb) in H.
      rewrite (IH Hs None); auto.
    + unfold piece_state. rewrite Hc.
      destruct Hp as [->| ->].
      * destruct Hbad as [H|H]; [congruence|]. cbn [forallb] in H.
        destruct (xml_char c); cbn [andb] in H.
        -- rewrite (IH Hs None); auto.
        -- rewrite (IH Hs (Some (ValueError xml_message)));
             [reflexivity|auto|left; discriminate].
      * rewrite (IH Hs (Some (ValueError xml_message)));
          [reflexivity|auto|left; discriminate].
Qed.

(** X22.  What the document stores of a text.  A text of code points XML
    can carry (tab, line feed, carriage return, and everything from the
    space on but the surrogates, U+FFFE and U+FFFF) is stored, a carriage
    return reading back as a line feed.  Any other text is refused: with
    [ValueError] when it holds no surrogate.  A name whose header line is
    refused stops the renderer with that exception, before anything else
    is read. *)
Theorem text_storage s :
  (forall c,
     xml_char c = true
     <-> ((c = 9 \/ c = 10 \/ c = 13 \/ 32 <= c)
          /\ ~ (55296 <= c <= 57343) /\ c <> 65534 /\ c <> 65535)%N)
  /\ (forallb xml_char s = true ->
      docx_store s = Done (map (fun c => if N.eqb c 13 then 10%N else c) s))
  /\ (forallb xml_char s = false -> existsb is_surrogate s = false ->
      docx_store s = Raised (ValueError xml_message))
  /\ (forall W d name logo e,
        dict_lookup (lit "name") d = Some (JStr name) ->
        s = join (lit " ") (map (py_capitalize W) (split name)) ->
        docx_store s = Raised e ->
        rendered W (JObj d) logo = Raised e).
Proof.
  split; [exact xml_char_spec|]. split; [|split].
  - intros H. apply (store_scan_all _ H).
  - intros Hbad Hsur. apply store_scan_refused; auto.
  - intros W d name logo e Hd -> He.
    unfold rendered, build_document, add_logo_top_right.
    assert (Hn : forall doc, add_name W (JObj d) doc = Raised e).
    { intros doc. unfold add_name. cbn [py_get]. unfold bind, lift, dict_get.
      rewrite Hd.
      assert (E : capwords W (strip name) = capwords W name)
        by (unfold capwords; rewrite split_strip; reflexivity).
      rewrite E. unfold capwords. rewrite He. reflexivity. }
    destruct (path_exists W logo);
      unfold bind, add_block, add_footer_run, ret; rewrite Hn; reflexivity.
Qed.

Lemma text_storage_witness :
  docx_store (lit "Ann" ++ [13%N; 10%N] ++ lit "Lee")
  = Done (lit "Ann" ++ [10%N; 10%N] ++ lit "Lee")
  /\ docx_store (lit "Ann" ++ [12%N]) = Raised (ValueError xml_message)
  /\ rendered ann_world (JObj [(lit "name", JStr (lit "ann" ++ [1%N]))]) logo_path
     = Raised (ValueError xml_message).
Proof.
  split; [|split].
  - destruct (text_storage (lit "Ann" ++ [13%N; 10%N] ++ lit "Lee"))
      as [_ [H _]].
    apply H. reflexivity.
  - destruct (text_storage (lit "Ann" ++ [12%N])) as [_ [_ [H _]]].
    apply H; reflexivity.
  - destruct (text_storage (lit "Ann" ++ [1%N])) as [_ [_ [H1 H2]]].
    apply (H2 ann_world [(lit "name", JStr (lit "ann" ++ [1%N]))]
             (lit "ann" ++ [1%N])).
    + reflexivity.
    + reflexivity.
    + apply H1; reflexivity.
Defined.
